(** * The admin client of kafkajs (src/admin/index.js)

    A shallow embedding of the administrative operations of the client:
    argument validation, the retry wrapper around every operation, the
    fan-out of [deleteGroups] over group coordinators, the watermark query
    of [fetchTopicOffsets], the offset reset through an ephemeral consumer
    and [describeCluster].

    The cluster, the brokers and the consumer are collaborators of the
    module: they are taken as an environment of functions over an abstract
    world, and every call on one of them is recorded in a log.  Logging
    through [logger] has no effect on any result and is left out. *)

From Stdlib Require Import List String Ascii ZArith NArith Bool Lia Permutation.
From Stdlib Require Import DecimalString Sorted.
Import ListNotations.
Open Scope string_scope.
Open Scope list_scope.

Set Implicit Arguments.
Set Warnings "-register-all".

(** ** JavaScript values *)

(** The values the module inspects.  Numbers are the integers the protocol
    carries (enum members, error codes, node ids); an object is its list of
    own properties, first binding first. *)
Inductive JsValue : Type :=
| JUndefined
| JNull
| JBool (b : bool)
| JNum (n : Z)
| JStr (s : string)
| JArr (items : list JsValue)
| JObj (fields : list (string * JsValue)).

(** A template literal keeps its pieces: literal text, an interpolated
    value [${v}], and an interpolated [${JSON.stringify(v)}]. *)
Inductive Piece : Type :=
| Lit (s : string)
| Sub (v : JsValue)
| SubJSON (v : JsValue).

Definition Message := list Piece.

(** One per-group entry of a delete-groups response. *)
Record GroupResult := mkGroupResult {
  groupId : string;
  errorCode : Z;
  error : JsValue
}.

(** Modelled from the spec: the error classes of ../errors, which is not
    part of the sources at hand.  [KafkaJSNonRetriableError] carries a
    message, [KafkaJSDeleteGroupsError] a message and the per-group failure
    list, [KafkaJSTimeout] (raised by ../utils/waitFor) a message.  None of
    them has a [type] discriminator; only the errors thrown by the
    collaborators ([Thrown]) carry one.  [TypeError] is the engine's error
    for reading a property of [undefined] or [null]. *)
Inductive JsError : Type :=
| KafkaJSNonRetriableError (message : Message)
| KafkaJSDeleteGroupsError (message : Message) (groups : list GroupResult)
| KafkaJSTimeout (message : Message)
| TypeError (property : string)
| Thrown (type : option string) (message : string).

(** [e.type] *)
Definition error_type (e : JsError) : option string :=
  match e with
  | Thrown ty _ => ty
  | _ => None
  end.

Definition type_is (e : JsError) (name : string) : bool :=
  match error_type e with
  | Some ty => String.eqb ty name
  | None => false
  end.

Inductive Completion (A : Type) : Type :=
| Return (a : A)
| Throw (e : JsError).
Arguments Return {A} a.
Arguments Throw {A} e.

Module Js.

(** [typeof v] *)
Definition typeof (v : JsValue) : string :=
  match v with
  | JUndefined => "undefined"
  | JNull => "object"
  | JBool _ => "boolean"
  | JNum _ => "number"
  | JStr _ => "string"
  | JArr _ => "object"
  | JObj _ => "object"
  end.

(** ToBoolean *)
Definition truthy (v : JsValue) : bool :=
  match v with
  | JUndefined | JNull => false
  | JBool b => b
  | JNum n => negb (Z.eqb n 0)
  | JStr s => negb (String.eqb s "")
  | JArr _ | JObj _ => true
  end.

(** [Array.isArray(v)] *)
Definition isArray (v : JsValue) : bool :=
  match v with JArr _ => true | _ => false end.

Definition items_of (v : JsValue) : list JsValue :=
  match v with JArr l => l | _ => [] end.

Fixpoint lookup (k : string) (fs : list (string * JsValue)) : JsValue :=
  match fs with
  | [] => JUndefined
  | (k', v) :: fs' => if String.eqb k k' then v else lookup k fs'
  end.

(** [v.k], also the destructuring [({ k }) => ...] of an argument [v].
    None of the names read by this module is a built-in property of a
    primitive or of an array, so only objects answer with a value. *)
Definition get (v : JsValue) (k : string) : Completion JsValue :=
  match v with
  | JUndefined | JNull => Throw (TypeError k)
  | JObj fs => Return (lookup k fs)
  | _ => Return JUndefined
  end.

(** SameValueZero between a value and a number of a table. *)
Definition is_number (v : JsValue) (n : Z) : bool :=
  match v with JNum m => Z.eqb m n | _ => false end.

(** [Object.values(table).includes(v)] for a table of numbers. *)
Definition values_include (table : list (string * Z)) (v : JsValue) : bool :=
  existsb (fun kv => is_number v (snd kv)) table.

(** [arr.some(f)] where [f] may throw. *)
Fixpoint some (f : JsValue -> Completion bool) (l : list JsValue)
  : Completion bool :=
  match l with
  | [] => Return false
  | x :: l' =>
      match f x with
      | Throw e => Throw e
      | Return true => Return true
      | Return false => some f l'
      end
  end.

(** [arr.find(f)] where [f] may throw; [undefined] when nothing matches. *)
Fixpoint find (f : JsValue -> Completion bool) (l : list JsValue)
  : Completion JsValue :=
  match l with
  | [] => Return JUndefined
  | x :: l' =>
      match f x with
      | Throw e => Throw e
      | Return true => Return x
      | Return false => find f l'
      end
  end.

(** [arr.filter(f)] where [f] may throw. *)
Fixpoint filter (f : JsValue -> Completion bool) (l : list JsValue)
  : Completion (list JsValue) :=
  match l with
  | [] => Return []
  | x :: l' =>
      match f x with
      | Throw e => Throw e
      | Return b =>
          match filter f l' with
          | Throw e => Throw e
          | Return r => Return (if b then x :: r else r)
          end
      end
  end.

(** [arr.map(f)] where [f] may throw. *)
Fixpoint map (f : JsValue -> Completion JsValue) (l : list JsValue)
  : Completion (list JsValue) :=
  match l with
  | [] => Return []
  | x :: l' =>
      match f x with
      | Throw e => Throw e
      | Return y =>
          match map f l' with
          | Throw e => Throw e
          | Return r => Return (y :: r)
          end
      end
  end.

(** [typeof v !== 'string'] after reading property [k] of [x]. *)
Definition field_not_string (k : string) (x : JsValue) : Completion bool :=
  match get x k with
  | Throw e => Throw e
  | Return v => Return (negb (String.eqb (typeof v) "string"))
  end.

(** [!table.includes(x.k)] *)
Definition field_not_in (table : list (string * Z)) (k : string) (x : JsValue)
  : Completion bool :=
  match get x k with
  | Throw e => Throw e
  | Return v => Return (negb (values_include table v))
  end.

End Js.

(** ** Collaborators, log and the monad of the operations *)

(** A broker handle is known by its node id; object keys made of node ids
    are array indices, which [Object.keys] lists in ascending order. *)
Record Broker := mkBroker { nodeId : N }.

Record PartitionMetadata := mkPartitionMetadata { partitionId : N }.

(** One entry of the argument of [cluster.fetchTopicsOffset]. *)
Record OffsetQuery := mkOffsetQuery {
  q_topic : JsValue;
  q_fromBeginning : bool;
  q_partitions : list N
}.

(** Offsets are 64-bit integers carried as decimal strings; the module
    only copies them, so they are kept as integers. *)
Record PartitionOffset := mkPartitionOffset {
  po_partition : N;
  po_offset : Z
}.

Record TopicOffsets := mkTopicOffsets {
  to_topic : JsValue;
  to_partitions : list PartitionOffset
}.

Record ClusterMetadata := mkClusterMetadata {
  md_brokers : list (list (string * JsValue));
  md_clusterId : JsValue;
  md_controllerId : JsValue
}.

(** The answer of [consumer.describeGroup]; only its state is read. *)
Record GroupDescription := mkGroupDescription {
  state : string
}.

Record SeekEntry := mkSeekEntry {
  se_partition : JsValue;
  se_offset : JsValue
}.

(** Every method called on the cluster, on a broker or on the consumer. *)
Inductive Call : Type :=
| Cluster_refreshMetadata
| Cluster_refreshMetadataIfNecessary
| Cluster_addTargetTopic (topic : JsValue)
| Cluster_findControllerBroker
| Cluster_findGroupCoordinator (group : string)
| Cluster_findTopicPartitionMetadata (topic : JsValue)
| Cluster_fetchTopicsOffset (queries : list OffsetQuery)
| Cluster_metadata (topics : list string)
| Cluster_defaultOffset (fromBeginning : JsValue)
| Broker_createTopics (b : Broker) (topics validateOnly timeout : JsValue)
| Broker_createAcls (b : Broker) (acl : JsValue)
| Broker_deleteGroups (b : Broker) (groups : list string)
| Broker_metadata (b : Broker) (topics : list string)
| Consumer_subscribe (group topic : JsValue)
| Consumer_describeGroup (group : JsValue)
| Consumer_on_FETCH (group : JsValue)
| Consumer_run (group : JsValue)
| Consumer_pause (group topic : JsValue)
| Consumer_seek (group topic : JsValue) (entry : SeekEntry).

(** The collaborators: each method answers from the current world and
    leaves a new one.  The consumer is the one [createConsumer] builds for
    a group id; [on], [run], [pause] and [seek] return to the caller at once
    (what [run] does later is the consumer's business). *)
Record Env (World : Type) := mkEnv {
  cluster_refreshMetadata : World -> Completion unit * World;
  cluster_refreshMetadataIfNecessary : World -> Completion unit * World;
  cluster_addTargetTopic : JsValue -> World -> Completion unit * World;
  cluster_findControllerBroker : World -> Completion Broker * World;
  cluster_findGroupCoordinator : string -> World -> Completion Broker * World;
  cluster_findTopicPartitionMetadata :
    JsValue -> World -> Completion (list PartitionMetadata) * World;
  cluster_fetchTopicsOffset :
    list OffsetQuery -> World -> Completion (list TopicOffsets) * World;
  cluster_metadata : list string -> World -> Completion ClusterMetadata * World;
  cluster_defaultOffset : JsValue -> World -> Completion JsValue * World;
  broker_createTopics :
    Broker -> JsValue -> JsValue -> JsValue -> World -> Completion unit * World;
  broker_createAcls : Broker -> JsValue -> World -> Completion unit * World;
  broker_deleteGroups :
    Broker -> list string -> World -> Completion (list GroupResult) * World;
  broker_metadata : Broker -> list string -> World -> Completion JsValue * World;
  consumer_subscribe : JsValue -> JsValue -> World -> Completion unit * World;
  consumer_describeGroup :
    JsValue -> World -> Completion GroupDescription * World;
  consumer_on_FETCH : JsValue -> World -> World;
  consumer_run : JsValue -> World -> World;
  consumer_pause : JsValue -> JsValue -> World -> World;
  consumer_seek : JsValue -> JsValue -> SeekEntry -> World -> World
}.

(** The state an operation runs in: the world of the collaborators, the log
    of the calls made on them, and the variables a retried callback closes
    over ([L] is [unit] where there are none). *)
Record State (World L : Type) := mkState {
  world : World;
  calls : list Call;
  locals : L
}.

Definition M (World L A : Type) : Type :=
  State World L -> Completion A * State World L.

Definition ret {World L A} (a : A) : M World L A :=
  fun s => (Return a, s).

Definition throw {World L A} (e : JsError) : M World L A :=
  fun s => (Throw e, s).

Definition bind {World L A B} (m : M World L A) (k : A -> M World L B)
  : M World L B :=
  fun s =>
    match m s with
    | (Return a, s') => k a s'
    | (Throw e, s') => (Throw e, s')
    end.

(** [try { m } catch (e) { h e }] *)
Definition try_catch {World L A} (m : M World L A) (h : JsError -> M World L A)
  : M World L A :=
  fun s =>
    match m s with
    | (Return a, s') => (Return a, s')
    | (Throw e, s') => h e s'
    end.

(** A pure step that may throw. *)
Definition lift {World L A} (c : Completion A) : M World L A :=
  fun s => (c, s).

(** A call on a collaborator, logged. *)
Definition call {World L A} (c : Call) (f : World -> Completion A * World)
  : M World L A :=
  fun s =>
    let (r, w) := f (world s) in
    (r, mkState w (calls s ++ [c]) (locals s)).

(** A call that always returns. *)
Definition call_ {World L} (c : Call) (f : World -> World) : M World L unit :=
  fun s => (Return tt, mkState (f (world s)) (calls s ++ [c]) (locals s)).

Definition get_locals {World L} : M World L L :=
  fun s => (Return (locals s), s).

Definition set_locals {World L} (l : L) : M World L unit :=
  fun s => (Return tt, mkState (world s) (calls s) l).

(** Runs [m] with fresh closure variables [init], dropped afterwards. *)
Definition with_locals {World L L' A} (init : L') (m : M World L' A)
  : M World L A :=
  fun s =>
    let (r, s') := m (mkState (world s) (calls s) init) in
    (r, mkState (world s') (calls s') (locals s)).

Declare Scope admin_scope.
Delimit Scope admin_scope with admin.
Notation "x <- m ;; k" := (bind m (fun x => k))
  (at level 61, m at next level, right associativity) : admin_scope.
Notation "m ;;; k" := (bind m (fun _ => k))
  (at level 61, right associativity) : admin_scope.
Open Scope admin_scope.

(** What one run of a retried callback ends in, when it does not throw:
    a value, or [bail(e)]. *)
Inductive Attempt (A : Type) : Type :=
| Resolved (a : A)
| Bailed (e : JsError).
Arguments Resolved {A} a.
Arguments Bailed {A} e.

(** Modelled from the spec: the retrier of ../retry, which is not part of
    the sources at hand.  The operation is run again while it throws and
    retries are left; a value resolves the call; [bail] rejects it at once;
    once the retries are used up the last error is propagated unchanged.
    Back-off times only delay the attempts and are left out.  [fn] receives
    the retry count. *)
Fixpoint retrier_from {World L A} (left retryCount : nat)
    (fn : nat -> M World L (Attempt A)) : M World L A :=
  fun s =>
    match fn retryCount s with
    | (Return (Resolved a), s') => (Return a, s')
    | (Return (Bailed e), s') => (Throw e, s')
    | (Throw e, s') =>
        match left with
        | O => (Throw e, s')
        | S left' => retrier_from left' (S retryCount) fn s'
        end
    end.

(** The configuration the admin client is created with: the number of
    retries of its retry policy and the number of polls a [waitFor] with a
    given delay makes before its deadline. *)
Record Config := mkConfig {
  retries : nat;
  polls_before_timeout : nat -> nat
}.

(** The protocol's enumerations (../protocol/resourceTypes and the like),
    not part of the sources at hand: tables from a name to a number. *)
Record Enums := mkEnums {
  RESOURCE_TYPES : list (string * Z);
  OPERATION_TYPES : list (string * Z);
  PERMISSION_TYPES : list (string * Z);
  RESOURCE_PATTERN_TYPES : list (string * Z)
}.

(** *** Objects keyed by node id

    [brokersPerGroups] and [brokersPerNode] are objects whose keys are
    node ids; such keys are listed in ascending order, whatever the order
    they were added in. *)
Fixpoint obj_set {V} (k : N) (v : V) (o : list (N * V)) : list (N * V) :=
  match o with
  | [] => [(k, v)]
  | (k', v') :: o' =>
      if N.eqb k k' then (k, v) :: o'
      else if N.ltb k k' then (k, v) :: o
      else (k', v') :: obj_set k v o'
  end.

Fixpoint obj_get {V} (k : N) (o : list (N * V)) : option V :=
  match o with
  | [] => None
  | (k', v) :: o' => if N.eqb k k' then Some v else obj_get k o'
  end.

Definition obj_keys {V} (o : list (N * V)) : list N := List.map fst o.

(** Modelled from the spec: ../utils/flatten, which is not part of the
    sources at hand, flattens a list of lists by one level. *)
Definition flatten {A} (l : list (list A)) : list A := List.concat l.

(** [new Set(names)] over strings: insertion order, first occurrence kept. *)
Fixpoint Set_of (seen names : list string) : list string :=
  match names with
  | [] => []
  | n :: names' =>
      if existsb (String.eqb n) seen then Set_of seen names'
      else n :: Set_of (n :: seen) names'
  end.

(** The strings of an array whose elements were checked to be strings. *)
Definition strings_of (l : list JsValue) : list string :=
  flat_map (fun v => match v with JStr s => [s] | _ => [] end) l.

(** [arr.pop()] : the last element, [undefined] on an empty array. *)
Definition pop {A} (l : list A) : option A := List.last (List.map Some l) None.

(** The default [arr.sort()] compares the elements as strings. *)
Definition decimal (n : N) : string := NilEmpty.string_of_uint (N.to_uint n).

Fixpoint sort_insert (n : N) (l : list N) : list N :=
  match l with
  | [] => [n]
  | m :: l' =>
      if String.leb (decimal n) (decimal m) then n :: l
      else m :: sort_insert n l'
  end.

Definition sort (l : list N) : list N := fold_right sort_insert [] l.

(** The closure variables of [deleteGroups]. *)
Record DeleteGroupsVars := mkDeleteGroupsVars {
  results : list GroupResult;
  clonedGroupIds : list string
}.

(** The options handed to [waitFor]. *)
Record WaitOpts := mkWaitOpts {
  delay : nat;
  timeoutMessage : string
}.

(** One entry of the result of [fetchTopicOffsets]. *)
Record TopicOffset := mkTopicOffset {
  partition : N;
  offset : Z;
  high : Z;
  low : Z
}.

(** The result of [describeCluster]. *)
Record ClusterDescription := mkClusterDescription {
  brokers : list JsValue;
  controller : JsValue;
  clusterId : JsValue
}.

(** [Promise.all] over calls issued one after the other: every call is
    made, and the first failure in issue order rejects the whole (the
    completion order of concurrent calls is fixed to their issue order). *)
Fixpoint promise_all {World L A} (ms : list (M World L A)) : M World L (list A) :=
  fun s =>
    match ms with
    | [] => (Return [], s)
    | m :: ms' =>
        let (r, s1) := m s in
        let (rs, s2) := promise_all ms' s1 in
        (match r, rs with
         | Throw e, _ => Throw e
         | Return _, Throw e => Throw e
         | Return a, Return l => Return (a :: l)
         end, s2)
    end.

(** [for (const x of l) { f x }] *)
Fixpoint for_each {World L A} (f : A -> M World L unit) (l : list A)
  : M World L unit :=
  match l with
  | [] => ret tt
  | x :: l' => f x ;;; for_each f l'
  end.

(** [l.map(f)] for an [f] that calls a collaborator. *)
Fixpoint map_M {World L A B} (f : A -> M World L B) (l : list A)
  : M World L (list B) :=
  match l with
  | [] => ret []
  | x :: l' => y <- f x ;; ys <- map_M f l' ;; ret (y :: ys)
  end.

(** ** The operations *)

Section Admin.

Variable World : Type.
Variable env : Env World.
Variable cfg : Config.
Variable enums : Enums.

(** [createRetry(retry)] *)
Definition retrier {L A} (fn : nat -> M World L (Attempt A)) : M World L A :=
  retrier_from (retries cfg) 0 fn.

(** The catch clause shared by the operations that retry on one error
    type only: [if (e.type === name) throw e; bail(e)]. *)
Definition rethrow_or_bail {L A} (name : string) (e : JsError)
  : M World L (Attempt A) :=
  if type_is e name then throw e else ret (Bailed e).

(** *** createAcls *)

Definition invalid_enum_message (what field : string) (invalidType : JsValue)
  : Completion Message :=
  match Js.get invalidType field with
  | Throw e => Throw e
  | Return v => Return [Lit what; Sub v; Lit ": "; SubJSON invalidType]
  end.

Definition createAcls_attempt {L} (acl : JsValue) (retryCount : nat)
  : M World L (Attempt bool) :=
  try_catch
    (call Cluster_refreshMetadata (cluster_refreshMetadata env) ;;;
     broker <- call Cluster_findControllerBroker
                 (cluster_findControllerBroker env) ;;
     call (Broker_createAcls broker acl) (broker_createAcls env broker acl) ;;;
     ret (Resolved true))
    (rethrow_or_bail "NOT_CONTROLLER").

Definition createAcls {L} (acl : JsValue) : M World L bool :=
  if negb (Js.truthy acl) || negb (Js.isArray acl) then
    throw (KafkaJSNonRetriableError [Lit "Invalid ACL array "; Sub acl])
  else
  let items := Js.items_of acl in
  if Nat.eqb (List.length items) 0 then
    throw (KafkaJSNonRetriableError [Lit "Empty ACL array"])
  else
  (* Validate principal *)
  bad <- lift (Js.some (Js.field_not_string "principal") items) ;;
  if bad : bool then
    throw (KafkaJSNonRetriableError
      [Lit "Invalid ACL array, the principals have to be a valid string"])
  else
  (* Validate host *)
  bad <- lift (Js.some (Js.field_not_string "host") items) ;;
  if bad : bool then
    throw (KafkaJSNonRetriableError
      [Lit "Invalid ACL array, the hosts have to be a valid string"])
  else
  (* Validate resourceName *)
  bad <- lift (Js.some (Js.field_not_string "resourceName") items) ;;
  if bad : bool then
    throw (KafkaJSNonRetriableError
      [Lit "Invalid ACL array, the resourceNames have to be a valid string"])
  else
  (* Validate operation *)
  invalidType <- lift (Js.find
    (Js.field_not_in (OPERATION_TYPES enums) "operation") items) ;;
  if Js.truthy invalidType then
    m <- lift (invalid_enum_message "Invalid operation type " "operation"
                 invalidType) ;;
    throw (KafkaJSNonRetriableError m)
  else
  (* Validate resourcePatternTypes *)
  invalidType <- lift (Js.find
    (Js.field_not_in (RESOURCE_PATTERN_TYPES enums) "resourcePatternType")
    items) ;;
  if Js.truthy invalidType then
    m <- lift (invalid_enum_message "Invalid resource pattern type "
                 "resourcePatternType" invalidType) ;;
    throw (KafkaJSNonRetriableError m)
  else
  (* Validate permissionTypes *)
  invalidType <- lift (Js.find
    (Js.field_not_in (PERMISSION_TYPES enums) "permissionType") items) ;;
  if Js.truthy invalidType then
    m <- lift (invalid_enum_message "Invalid permission type "
                 "permissionType" invalidType) ;;
    throw (KafkaJSNonRetriableError m)
  else
  (* Validate resourceTypes *)
  invalidType <- lift (Js.find
    (Js.field_not_in (RESOURCE_TYPES enums) "resourceType") items) ;;
  if Js.truthy invalidType then
    m <- lift (invalid_enum_message "Invalid resource type " "resourceType"
                 invalidType) ;;
    throw (KafkaJSNonRetriableError m)
  else
  retrier (createAcls_attempt acl).

(** The validation rules of an ACL batch as the specification lists
    them, in its order of precedence. *)
Inductive AclRule : Type :=
| ArrayShape
| PrincipalType
| HostType
| ResourceNameType
| OperationEnum
| ResourcePatternTypeEnum
| PermissionTypeEnum
| ResourceTypeEnum.

Definition acl_precedence : list AclRule :=
  [ArrayShape; PrincipalType; HostType; ResourceNameType; OperationEnum;
   ResourcePatternTypeEnum; PermissionTypeEnum; ResourceTypeEnum].

(** The field [k] of an entry, [undefined] when the entry has none. *)
Definition field (k : string) (e : JsValue) : JsValue :=
  match e with
  | JObj fs => Js.lookup k fs
  | _ => JUndefined
  end.

Definition is_string (v : JsValue) : bool :=
  match v with JStr _ => true | _ => false end.

Definition not_string_field (k : string) (e : JsValue) : bool :=
  negb (is_string (field k e)).

Definition not_member_field (table : list (string * Z)) (k : string)
    (e : JsValue) : bool :=
  negb (Js.values_include table (field k e)).

(** The entries of a batch that break a per-entry rule. *)
Definition breaks (r : AclRule) : JsValue -> bool :=
  match r with
  | ArrayShape => fun _ => false
  | PrincipalType => not_string_field "principal"
  | HostType => not_string_field "host"
  | ResourceNameType => not_string_field "resourceName"
  | OperationEnum => not_member_field (OPERATION_TYPES enums) "operation"
  | ResourcePatternTypeEnum =>
      not_member_field (RESOURCE_PATTERN_TYPES enums) "resourcePatternType"
  | PermissionTypeEnum =>
      not_member_field (PERMISSION_TYPES enums) "permissionType"
  | ResourceTypeEnum => not_member_field (RESOURCE_TYPES enums) "resourceType"
  end.

(** A batch violates the array-shape rule when it is not an array or is
    empty, and a per-entry rule when one of its entries breaks it. *)
Definition violates (acl : JsValue) (r : AclRule) : bool :=
  match r with
  | ArrayShape =>
      match acl with
      | JArr (_ :: _) => false
      | _ => true
      end
  | _ => existsb (breaks r) (Js.items_of acl)
  end.

Definition malformed (acl : JsValue) : bool :=
  existsb (violates acl) acl_precedence.




(** No entry of the batch is [undefined] or [null]. *)
Definition not_nullish (v : JsValue) : bool :=
  match v with JUndefined | JNull => false | _ => true end.

Definition entries_present (acl : JsValue) : bool :=
  forallb not_nullish (Js.items_of acl).


(** *** deleteGroups *)

(** The loop that resolves the coordinator of every remaining group and
    files the group under the coordinator's node id. *)
Fixpoint assign_coordinators {L} (ids : list string)
    (brokersPerGroups : list (N * list string))
    (brokersPerNode : list (N * Broker))
  : M World L (list (N * list string) * list (N * Broker)) :=
  match ids with
  | [] => ret (brokersPerGroups, brokersPerNode)
  | group :: ids' =>
      broker <- call (Cluster_findGroupCoordinator group)
                  (cluster_findGroupCoordinator env group) ;;
      let filed :=
        match obj_get (nodeId broker) brokersPerGroups with
        | None => []
        | Some l => l
        end in
      assign_coordinators ids'
        (obj_set (nodeId broker) (filed ++ [group]) brokersPerGroups)
        (obj_set (nodeId broker) broker brokersPerNode)
  end.

(** [brokersPerNode[nodeId].deleteGroups(brokersPerGroups[nodeId])]; a
    key of the first object that the second one lacked would hand
    [undefined] to the broker. *)
Definition deleteGroups_request {L} (brokersPerGroups : list (N * list string))
    (brokersPerNode : list (N * Broker)) (n : N)
  : M World L (list GroupResult) :=
  match obj_get n brokersPerNode, obj_get n brokersPerGroups with
  | Some broker, Some groups =>
      call (Broker_deleteGroups broker groups)
        (broker_deleteGroups env broker groups)
  | _, _ => throw (TypeError "deleteGroups")
  end.

Definition failed (r : GroupResult) : bool := negb (Z.eqb (errorCode r) 0).

(** [({ groupId, errorCode, error }) => ({ groupId, errorCode, error })] *)
Definition detail (r : GroupResult) : GroupResult :=
  mkGroupResult (groupId r) (errorCode r) (error r).

Definition errors_of (res : list (list GroupResult)) : list GroupResult :=
  List.filter failed (flatten (List.map (List.map detail) res)).

(** Everything an attempt does up to and including the fan-out. *)
Definition deleteGroups_fanout {L} (ids : list string)
  : M World L (list (list GroupResult)) :=
  call Cluster_refreshMetadata (cluster_refreshMetadata env) ;;;
  objs <- assign_coordinators ids [] [] ;;
  promise_all
    (List.map (deleteGroups_request (fst objs) (snd objs))
       (obj_keys (snd objs))).

(** The catch clause of the callback of [deleteGroups]. *)
Definition deleteGroups_catch {L} (e : JsError)
  : M World L (Attempt (list GroupResult)) :=
  if type_is e "NOT_CONTROLLER" || type_is e "COORDINATOR_NOT_AVAILABLE"
  then throw e
  else ret (Bailed e).

Definition deleteGroups_attempt (retryCount : nat)
  : M World DeleteGroupsVars (Attempt (list GroupResult)) :=
  try_catch
    (vars <- get_locals ;;
     if Nat.eqb (List.length (clonedGroupIds vars)) 0 then ret (Resolved [])
     else
     res <- deleteGroups_fanout (clonedGroupIds vars) ;;
     let errors := errors_of res in
     set_locals (mkDeleteGroupsVars (results vars)
                   (List.map groupId errors)) ;;;
     if Nat.ltb 0 (List.length errors) then
       throw (KafkaJSDeleteGroupsError [Lit "Error in DeleteGroups"] errors)
     else
     set_locals (mkDeleteGroupsVars (flatten res)
                   (List.map groupId errors)) ;;;
     ret (Resolved (flatten res)))
    deleteGroups_catch.

Definition deleteGroups {L} (groupIds : JsValue)
  : M World L (list GroupResult) :=
  if negb (Js.truthy groupIds) || negb (Js.isArray groupIds) then
    throw (KafkaJSNonRetriableError
             [Lit "Invalid groupIds array "; Sub groupIds])
  else
  let invalidGroupId :=
    existsb (fun g => negb (String.eqb (Js.typeof g) "string"))
      (Js.items_of groupIds) in
  if invalidGroupId then
    throw (KafkaJSNonRetriableError
             [Lit "Invalid groupId name: "; SubJSON (JBool invalidGroupId)])
  else
  with_locals
    (mkDeleteGroupsVars [] (strings_of (Js.items_of groupIds)))
    (retrier deleteGroups_attempt).

(** *** createTopics *)

(** Modelled from the spec: ../utils/waitFor, which is not part of the
    sources at hand.  The callback is polled at a fixed delay until it
    answers with a truthy value; an error of the callback rejects the
    wait; when the deadline passes first the wait fails with the timeout
    message.  The deadline is counted in polls. *)
Fixpoint waitFor_loop {L} (polls : nat) (fn : M World L JsValue)
    (opts : WaitOpts) : M World L JsValue :=
  match polls with
  | O => throw (KafkaJSTimeout [Lit (timeoutMessage opts)])
  | S polls' =>
      result <- fn ;;
      if Js.truthy result then ret result else waitFor_loop polls' fn opts
  end.

Definition waitFor {L} (fn : M World L JsValue) (opts : WaitOpts)
  : M World L JsValue :=
  waitFor_loop (polls_before_timeout cfg (delay opts)) fn opts.

Definition leader_callback {L} (fn : M World L JsValue) : M World L JsValue :=
  try_catch fn
    (fun e =>
       if negb (type_is e "LEADER_NOT_AVAILABLE") then throw e
       else ret (JBool false)).

Definition retryOnLeaderNotAvailable {L} (fn : M World L JsValue)
    (opts : WaitOpts) : M World L JsValue :=
  waitFor (leader_callback fn) opts.

Definition leader_wait_opts : WaitOpts :=
  mkWaitOpts 100 "Timed out while waiting for topic leaders".

(** The catch clause of the callback of [createTopics]. *)
Definition createTopics_catch {L} (e : JsError) : M World L (Attempt bool) :=
  if type_is e "NOT_CONTROLLER" then throw e
  else if type_is e "TOPIC_ALREADY_EXISTS" then ret (Resolved false)
  else ret (Bailed e).

Definition createTopics_attempt {L} (topics validateOnly timeout : JsValue)
    (waitForLeaders : JsValue) (topicNames : list string) (retryCount : nat)
  : M World L (Attempt bool) :=
  try_catch
    (call Cluster_refreshMetadata (cluster_refreshMetadata env) ;;;
     broker <- call Cluster_findControllerBroker
                 (cluster_findControllerBroker env) ;;
     call (Broker_createTopics broker topics validateOnly timeout)
       (broker_createTopics env broker topics validateOnly timeout) ;;;
     (if Js.truthy waitForLeaders then
        retryOnLeaderNotAvailable
          (call (Broker_metadata broker topicNames)
             (broker_metadata env broker topicNames))
          leader_wait_opts ;;;
        ret tt
      else ret tt) ;;;
     ret (Resolved true))
    createTopics_catch.

(** [waitForLeaders = true] in the parameter list. *)
Definition default_true (v : JsValue) : JsValue :=
  match v with JUndefined => JBool true | _ => v end.

Definition createTopics {L} (topics validateOnly timeout : JsValue)
    (waitForLeaders : JsValue) : M World L bool :=
  let waitForLeaders := default_true waitForLeaders in
  if negb (Js.truthy topics) || negb (Js.isArray topics) then
    throw (KafkaJSNonRetriableError [Lit "Invalid topics array "; Sub topics])
  else
  let items := Js.items_of topics in
  bad <- lift (Js.filter (Js.field_not_string "topic") items) ;;
  if Nat.ltb 0 (List.length bad) then
    throw (KafkaJSNonRetriableError
      [Lit "Invalid topics array, the topic names have to be a valid string"])
  else
  names <- lift (Js.map (fun x => Js.get x "topic") items) ;;
  let topicNames := Set_of [] (strings_of names) in
  if Nat.ltb (List.length topicNames) (List.length items) then
    throw (KafkaJSNonRetriableError
      [Lit "Invalid topics array, it cannot have multiple entries for the same topic"])
  else
  retrier (createTopics_attempt topics validateOnly timeout waitForLeaders
             topicNames).

(** *** fetchTopicOffsets *)

(** [const { partitions } = answer.pop()] *)
Definition pop_partitions (answer : list TopicOffsets)
  : Completion (list PartitionOffset) :=
  match pop answer with
  | None => Throw (TypeError "partitions")
  | Some t => Return (to_partitions t)
  end.

Definition pair_watermarks (lowPartitions : list PartitionOffset)
    (h : PartitionOffset) : Completion TopicOffset :=
  match List.find (fun l => N.eqb (po_partition l) (po_partition h))
          lowPartitions with
  | None => Throw (TypeError "offset")
  | Some l =>
      Return (mkTopicOffset (po_partition h) (po_offset h) (po_offset h)
                (po_offset l))
  end.

Fixpoint map_watermarks (lowPartitions highPartitions : list PartitionOffset)
  : Completion (list TopicOffset) :=
  match highPartitions with
  | [] => Return []
  | h :: hs =>
      match pair_watermarks lowPartitions h with
      | Throw e => Throw e
      | Return x =>
          match map_watermarks lowPartitions hs with
          | Throw e => Throw e
          | Return xs => Return (x :: xs)
          end
      end
  end.

Definition offsets_query (topic : JsValue) (fromBeginning : bool)
    (metadata : list PartitionMetadata) : list OffsetQuery :=
  [mkOffsetQuery topic fromBeginning (List.map partitionId metadata)].

(** The [try] block of the callback of [fetchTopicOffsets]. *)
Definition fetchTopicOffsets_try {L} (topic : JsValue)
  : M World L (Attempt (list TopicOffset)) :=
  call (Cluster_addTargetTopic topic) (cluster_addTargetTopic env topic) ;;;
  call Cluster_refreshMetadataIfNecessary
    (cluster_refreshMetadataIfNecessary env) ;;;
  metadata <- call (Cluster_findTopicPartitionMetadata topic)
                (cluster_findTopicPartitionMetadata env topic) ;;
  high <- call (Cluster_fetchTopicsOffset (offsets_query topic false metadata))
            (cluster_fetchTopicsOffset env
               (offsets_query topic false metadata)) ;;
  low <- call (Cluster_fetchTopicsOffset (offsets_query topic true metadata))
           (cluster_fetchTopicsOffset env
              (offsets_query topic true metadata)) ;;
  highPartitions <- lift (pop_partitions high) ;;
  lowPartitions <- lift (pop_partitions low) ;;
  entries <- lift (map_watermarks lowPartitions highPartitions) ;;
  ret (Resolved entries).

(** Its [catch] clause. *)
Definition fetchTopicOffsets_catch {L} (e : JsError)
  : M World L (Attempt (list TopicOffset)) :=
  if type_is e "UNKNOWN_TOPIC_OR_PARTITION" then
    call Cluster_refreshMetadata (cluster_refreshMetadata env) ;;;
    throw e
  else ret (Bailed e).

Definition fetchTopicOffsets_attempt {L} (topic : JsValue) (retryCount : nat)
  : M World L (Attempt (list TopicOffset)) :=
  try_catch (fetchTopicOffsets_try topic) fetchTopicOffsets_catch.

Definition fetchTopicOffsets {L} (topic : JsValue)
  : M World L (list TopicOffset) :=
  if negb (Js.truthy topic) || negb (String.eqb (Js.typeof topic) "string")
  then throw (KafkaJSNonRetriableError [Lit "Invalid topic "; Sub topic])
  else retrier (fetchTopicOffsets_attempt topic).

(** *** setOffsets and resetOffsets *)

Definition isConsumerGroupRunning (description : GroupDescription) : bool :=
  existsb (String.eqb (state description)) ["Empty"; "Dead"].

Definition findTopicPartitions {L} (topic : JsValue) : M World L (list N) :=
  call (Cluster_addTargetTopic topic) (cluster_addTargetTopic env topic) ;;;
  call Cluster_refreshMetadataIfNecessary
    (cluster_refreshMetadataIfNecessary env) ;;;
  metadata <- call (Cluster_findTopicPartitionMetadata topic)
                (cluster_findTopicPartitionMetadata env topic) ;;
  ret (sort (List.map partitionId metadata)).

(** The promise handed back by [setOffsets] is settled by the consumer:
    by its first FETCH event, after which the consumer is stopped, or by
    the rejection of [run].  The operation is followed until that promise
    is created and its executor has run; [Return tt] stands for it. *)
Definition setOffsets {L} (group topic : JsValue)
    (partitions : option (list SeekEntry)) : M World L unit :=
  if negb (Js.truthy group) then
    throw (KafkaJSNonRetriableError [Lit "Invalid groupId "; Sub group])
  else
  if negb (Js.truthy topic) then
    throw (KafkaJSNonRetriableError [Lit "Invalid topic "; Sub topic])
  else
  match partitions with
  | None => throw (KafkaJSNonRetriableError [Lit "Invalid partitions"])
  | Some seeks =>
      if Nat.eqb (List.length seeks) 0 then
        throw (KafkaJSNonRetriableError [Lit "Invalid partitions"])
      else
      call (Consumer_subscribe group topic)
        (consumer_subscribe env group topic) ;;;
      description <- call (Consumer_describeGroup group)
                       (consumer_describeGroup env group) ;;
      if negb (isConsumerGroupRunning description) then
        throw (KafkaJSNonRetriableError
          [Lit "The consumer group must have no running instances, current state: ";
           Sub (JStr (state description))])
      else
      call_ (Consumer_on_FETCH group) (consumer_on_FETCH env group) ;;;
      call_ (Consumer_run group) (consumer_run env group) ;;;
      (* This consumer doesn't need to consume any data *)
      call_ (Consumer_pause group topic) (consumer_pause env group topic) ;;;
      for_each
        (fun seekData =>
           call_ (Consumer_seek group topic seekData)
             (consumer_seek env group topic seekData))
        seeks
  end.

(** [earliest = false] in the parameter list. *)
Definition default_false (v : JsValue) : JsValue :=
  match v with JUndefined => JBool false | _ => v end.

(** The seek targets [resetOffsets] computes: every partition of the
    topic, at the cluster's default offset. *)
Definition partitionsToSeek {L} (topic earliest : JsValue)
  : M World L (list SeekEntry) :=
  partitions <- findTopicPartitions topic ;;
  map_M (fun p =>
           o <- call (Cluster_defaultOffset earliest)
                  (cluster_defaultOffset env earliest) ;;
           ret (mkSeekEntry (JNum (Z.of_N p)) o))
    partitions.

Definition resetOffsets {L} (group topic earliest : JsValue) : M World L unit :=
  let earliest := default_false earliest in
  if negb (Js.truthy group) then
    throw (KafkaJSNonRetriableError [Lit "Invalid groupId "; Sub group])
  else
  if negb (Js.truthy topic) then
    throw (KafkaJSNonRetriableError [Lit "Invalid topic "; Sub topic])
  else
  seeks <- partitionsToSeek topic earliest ;;
  setOffsets group topic (Some seeks).

(** *** describeCluster *)

Definition NO_CONTROLLER_ID : Z := -1.

(** [controllerId == null] *)
Definition loosely_null (v : JsValue) : bool :=
  match v with JUndefined | JNull => true | _ => false end.

Definition describeCluster {L} : M World L ClusterDescription :=
  md <- call (Cluster_metadata []) (cluster_metadata env []) ;;
  let brokers :=
    List.map
      (fun node =>
         JObj [("nodeId", Js.lookup "nodeId" node);
               ("host", Js.lookup "host" node);
               ("port", Js.lookup "port" node)])
      (md_brokers md) in
  let controller :=
    if loosely_null (md_controllerId md)
       || Js.is_number (md_controllerId md) NO_CONTROLLER_ID
    then JNull
    else md_controllerId md in
  ret (mkClusterDescription brokers controller (md_clusterId md)).

(** ** Vocabulary of the properties *)

(** The value of [arr.find], from the answer of [List.find]. *)
Definition found (o : option JsValue) : JsValue :=
  match o with Some e => e | None => JUndefined end.

(** The retrier reaches attempt [k] in state [s'] when the attempts
    before it threw. *)
Inductive retried {L A} (fn : nat -> M World L (Attempt A))
  : nat -> State World L -> nat -> State World L -> Prop :=
| retried_here k s : retried fn k s k s
| retried_next k s e s1 k' s' :
    fn k s = (Throw e, s1) ->
    retried fn (S k) s1 k' s' ->
    retried fn k s k' s'.

(** Attempt [k] of the retrier started in [s0] begins in state [s]. *)
Definition attempt_reached {L A} (fn : nat -> M World L (Attempt A))
    (s0 : State World L) (k : nat) (s : State World L) : Prop :=
  retried fn 0 s0 k s /\ k <= retries cfg.

Definition not_a_string (g : JsValue) : bool :=
  negb (String.eqb (Js.typeof g) "string").


(** What a message interpolates. *)
Definition mentions (m : Message) (v : JsValue) : Prop :=
  In (Sub v) m \/ In (SubJSON v) m.

(** A valid topics argument: an array whose entries carry the topic
    names [names], all strings, no name twice. *)
Definition valid_topics (items : list JsValue) (names : list string) : Prop :=
  Forall2 (fun x n => field "topic" x = JStr n) items names /\ NoDup names.

(** The leader poll finds no leader [n] times in a row. *)
Inductive unready {L} (cb : M World L JsValue)
  : nat -> State World L -> State World L -> Prop :=
| unready_done s : unready cb 0 s s
| unready_again n s v s1 s' :
    cb s = (Return v, s1) ->
    Js.truthy v = false ->
    unready cb n s1 s' ->
    unready cb (S n) s s'.

(** The state of an attempt of [createTopics] begun in [s], once the
    controller [b] has answered the create call and left the world [w3]. *)
Definition create_call (b : Broker) (items : list JsValue)
    (validateOnly timeout : JsValue) : Call :=
  Broker_createTopics b (JArr items) validateOnly timeout.

Definition after_create {L} (s : State World L) (b : Broker)
    (items : list JsValue) (validateOnly timeout : JsValue) (w3 : World)
  : State World L :=
  mkState w3
    (calls s ++ [Cluster_refreshMetadata; Cluster_findControllerBroker;
                 create_call b items validateOnly timeout])
    (locals s).

(** The leader wait of [createTopics]. *)
Definition leader_wait {L} (b : Broker) (names : list string)
  : M World L JsValue :=
  retryOnLeaderNotAvailable
    (call (Broker_metadata b names) (broker_metadata env b names))
    leader_wait_opts.

Definition ascending {V} (o : list (N * V)) : Prop :=
  StronglySorted N.lt (obj_keys o).

(** The groups filed in [brokersPerGroups], in the order of its keys. *)
Definition filed (o : list (N * list string)) : list string :=
  List.concat (List.map snd o).


(** The state an attempt of [deleteGroups] ends in. *)
Definition after_attempt (s1 : State World DeleteGroupsVars)
    (vars : DeleteGroupsVars) : State World DeleteGroupsVars :=
  mkState (world s1) (calls s1) vars.

(** The contract of [cluster.fetchTopicsOffset] for a query about one
    topic: the answer's last entry lists the queried partitions, each
    once; and for a partition, the offset answered from the beginning
    is not above the offset answered from the end just before. *)
Definition answers_every_partition : Prop :=
  forall (topic : JsValue) (fromBeginning : bool)
         (metadata : list PartitionMetadata) (w w' : World)
         (answer : list TopicOffsets) (ps : list PartitionOffset),
    cluster_fetchTopicsOffset env
      (offsets_query topic fromBeginning metadata) w
    = (Return answer, w') ->
    pop_partitions answer = Return ps ->
    Permutation (List.map po_partition ps) (List.map partitionId metadata).

Definition low_below_high : Prop :=
  forall (topic : JsValue) (metadata : list PartitionMetadata)
         (w1 w2 w3 : World) (high low : list TopicOffsets)
         (hs ls : list PartitionOffset),
    cluster_fetchTopicsOffset env (offsets_query topic false metadata) w1
    = (Return high, w2) ->
    cluster_fetchTopicsOffset env (offsets_query topic true metadata) w2
    = (Return low, w3) ->
    pop_partitions high = Return hs ->
    pop_partitions low = Return ls ->
    forall h l, In h hs -> In l ls -> po_partition l = po_partition h ->
                (po_offset l <= po_offset h)%Z.

(** The calls of an attempt of [fetchTopicOffsets] that went through, for
    the partition metadata it found. *)
Definition watermark_calls (topic : JsValue)
    (metadata : list PartitionMetadata) : list Call :=
  [Cluster_addTargetTopic topic; Cluster_refreshMetadataIfNecessary;
   Cluster_findTopicPartitionMetadata topic;
   Cluster_fetchTopicsOffset (offsets_query topic false metadata);
   Cluster_fetchTopicsOffset (offsets_query topic true metadata)].

(** The world after the seeks of [setOffsets]. *)
Definition seek_all (group topic : JsValue) (seeks : list SeekEntry)
    (w : World) : World :=
  fold_left (fun w seekData => consumer_seek env group topic seekData w)
    seeks w.

Definition keys_of (v : JsValue) : list string :=
  match v with JObj fs => List.map fst fs | _ => [] end.

Definition no_controller (controllerId : JsValue) : Prop :=
  controllerId = JNull \/ controllerId = JUndefined
  \/ controllerId = JNum (-1).

End Admin.

(** ** The other operations *)

(** The answers of [coordinator.offsetFetch] and of [cluster.metadata]. *)
Record OffsetFetchPartition := mkOffsetFetchPartition {
  ofp_partition : JsValue;
  ofp_offset : JsValue;
  ofp_metadata : JsValue
}.

Record OffsetFetchResponse := mkOffsetFetchResponse {
  ofr_topic : JsValue;
  ofr_partitions : list OffsetFetchPartition
}.

Record TopicMetadata := mkTopicMetadata {
  tm_topic : JsValue;
  tm_partitionMetadata : JsValue
}.

(** The argument of [describeAcls]. *)
Record AclFilter := mkAclFilter {
  af_resourceType : JsValue;
  af_resourceName : JsValue;
  af_resourcePatternTypeFilter : JsValue;
  af_principal : JsValue;
  af_host : JsValue;
  af_operation : JsValue;
  af_permissionType : JsValue
}.

(** The methods of the collaborators that only the operations below use.
    Their calls are not entered in the log of [State]: they show in the
    world they leave.  [cluster_brokerPool_brokers] lists the keys of
    [cluster.brokerPool.brokers], node ids, in the order they were added
    to the object; [cluster_findCoordinator] is
    [cluster.findGroupCoordinator] for a group id of any type;
    [cluster_topicMetadata] is the [topicMetadata] of [cluster.metadata]. *)
Record Env2 (World : Type) := mkEnv2 {
  cluster_targetTopics_delete : JsValue -> World -> World;
  cluster_brokerPool_brokers : World -> list N;
  cluster_findBroker : N -> World -> Completion Broker * World;
  cluster_findCoordinator : JsValue -> World -> Completion Broker * World;
  cluster_topicMetadata :
    JsValue -> World -> Completion (list TopicMetadata) * World;
  broker_createPartitions :
    Broker -> JsValue -> JsValue -> JsValue -> World -> Completion unit * World;
  broker_deleteTopics :
    Broker -> JsValue -> JsValue -> World -> Completion unit * World;
  broker_describeConfigs :
    Broker -> JsValue -> JsValue -> World -> Completion JsValue * World;
  broker_alterConfigs :
    Broker -> JsValue -> JsValue -> World -> Completion JsValue * World;
  broker_listGroups : Broker -> World -> Completion (list JsValue) * World;
  broker_offsetFetch :
    Broker -> JsValue -> JsValue -> list N -> World ->
    Completion (list OffsetFetchResponse) * World;
  broker_describeAcls : Broker -> AclFilter -> World -> Completion JsValue * World;
  broker_deleteAcls : Broker -> JsValue -> World -> Completion JsValue * World
}.

(** A call on a method of [Env2]. *)
Definition ask {World L A} (f : World -> Completion A * World) : M World L A :=
  fun s =>
    let (r, w) := f (world s) in
    (r, mkState w (calls s) (locals s)).

(** A call on a method of [Env2] that always returns. *)
Definition tell {World L} (f : World -> World) : M World L unit :=
  fun s => (Return tt, mkState (f (world s)) (calls s) (locals s)).

(** Reads the world without changing it. *)
Definition look {World L A} (f : World -> A) : M World L A :=
  fun s => (Return (f (world s)), s).

(** [for (var k in o)] on an object whose keys are node ids: the keys are
    visited in ascending order, whatever the order they were added in.
    The object is built anew from its keys, as [obj_set] builds one. *)
Definition for_in (keys : list N) : list N :=
  obj_keys (fold_left (fun o k => obj_set k tt o) keys []).

(** [typeof v !== 'string' && typeof v !== 'undefined'] *)
Definition neither_string_nor_undefined (v : JsValue) : bool :=
  negb (String.eqb (Js.typeof v) "string")
  && negb (String.eqb (Js.typeof v) "undefined").

(** The same, after reading property [k] of [x]. *)
Definition field_neither (k : string) (x : JsValue) : Completion bool :=
  match Js.get x k with
  | Throw e => Throw e
  | Return v => Return (neither_string_nor_undefined v)
  end.

(** [a === b]; two objects or arrays built apart are never identical. *)
Definition strict_equal (a b : JsValue) : bool :=
  match a, b with
  | JUndefined, JUndefined => true
  | JNull, JNull => true
  | JBool x, JBool y => Bool.eqb x y
  | JNum x, JNum y => Z.eqb x y
  | JStr x, JStr y => String.eqb x y
  | _, _ => false
  end.

(** [r => !r.name || typeof r.name !== 'string'] *)
Definition name_invalid (r : JsValue) : Completion bool :=
  match Js.get r "name" with
  | Throw e => Throw e
  | Return v =>
      Return (negb (Js.truthy v) || negb (String.eqb (Js.typeof v) "string"))
  end.

(** [r => !Array.isArray(r.configNames) && r.configNames != null] *)
Definition configNames_invalid (r : JsValue) : Completion bool :=
  match Js.get r "configNames" with
  | Throw e => Throw e
  | Return v => Return (negb (Js.isArray v) && negb (loosely_null v))
  end.

(** [r => !Array.isArray(r.configEntries)] *)
Definition configEntries_invalid (r : JsValue) : Completion bool :=
  match Js.get r "configEntries" with
  | Throw e => Throw e
  | Return v => Return (negb (Js.isArray v))
  end.

(** [e => typeof e.name !== 'string' || typeof e.value !== 'string'] *)
Definition entry_invalid (e : JsValue) : Completion bool :=
  match Js.get e "name" with
  | Throw err => Throw err
  | Return n =>
      if negb (String.eqb (Js.typeof n) "string") then Return true
      else
        match Js.get e "value" with
        | Throw err => Throw err
        | Return v => Return (negb (String.eqb (Js.typeof v) "string"))
        end
  end.

(** [r => r.configEntries.some(...)]; [some] is a method of arrays only. *)
Definition config_value_invalid (r : JsValue) : Completion bool :=
  match Js.get r "configEntries" with
  | Throw e => Throw e
  | Return (JArr entries) => Js.some entry_invalid entries
  | Return _ => Throw (TypeError "some")
  end.

(** One entry of the result of [fetchOffsets]. *)
Record FetchedOffset := mkFetchedOffset {
  fo_partition : JsValue;
  fo_offset : JsValue;
  fo_metadata : JsValue
}.

(** [({ partition, offset, metadata }) =>
     ({ partition, offset, metadata: metadata || null })] *)
Definition fetched (p : OffsetFetchPartition) : FetchedOffset :=
  mkFetchedOffset (ofp_partition p) (ofp_offset p)
    (if Js.truthy (ofp_metadata p) then ofp_metadata p else JNull).



Section AdminMore.

Variable World : Type.
Variable env : Env World.
Variable env2 : Env2 World.
Variable cfg : Config.
Variable enums : Enums.

(** *** createPartitions *)

Definition createPartitions_attempt {L}
    (topicPartitions validateOnly timeout : JsValue) (retryCount : nat)
  : M World L (Attempt unit) :=
  try_catch
    (call Cluster_refreshMetadata (cluster_refreshMetadata env) ;;;
     broker <- call Cluster_findControllerBroker
                 (cluster_findControllerBroker env) ;;
     ask (broker_createPartitions env2 broker topicPartitions validateOnly
            timeout) ;;;
     ret (Resolved tt))
    (rethrow_or_bail "NOT_CONTROLLER").

Definition createPartitions {L} (topicPartitions validateOnly timeout : JsValue)
  : M World L unit :=
  if negb (Js.truthy topicPartitions) || negb (Js.isArray topicPartitions) then
    throw (KafkaJSNonRetriableError
             [Lit "Invalid topic partitions array "; Sub topicPartitions])
  else
  let items := Js.items_of topicPartitions in
  if Nat.eqb (List.length items) 0 then
    throw (KafkaJSNonRetriableError [Lit "Empty topic partitions array"])
  else
  bad <- lift (Js.filter (Js.field_not_string "topic") items) ;;
  if Nat.ltb 0 (List.length bad) then
    throw (KafkaJSNonRetriableError
      [Lit "Invalid topic partitions array, the topic names have to be a valid string"])
  else
  names <- lift (Js.map (fun x => Js.get x "topic") items) ;;
  let topicNames := Set_of [] (strings_of names) in
  if Nat.ltb (List.length topicNames) (List.length items) then
    throw (KafkaJSNonRetriableError
      [Lit "Invalid topic partitions array, it cannot have multiple entries for the same topic"])
  else
  retrier cfg (createPartitions_attempt topicPartitions validateOnly timeout).

(** *** deleteTopics *)

(** The catch clause of the callback of [deleteTopics]; on
    REQUEST_TIMED_OUT it only logs before [bail]. *)
Definition deleteTopics_catch {L} (e : JsError) : M World L (Attempt unit) :=
  if type_is e "NOT_CONTROLLER" || type_is e "UNKNOWN_TOPIC_OR_PARTITION"
  then throw e
  else ret (Bailed e).

Definition deleteTopics_attempt {L} (topics timeout : JsValue)
    (retryCount : nat) : M World L (Attempt unit) :=
  try_catch
    (call Cluster_refreshMetadata (cluster_refreshMetadata env) ;;;
     broker <- call Cluster_findControllerBroker
                 (cluster_findControllerBroker env) ;;
     ask (broker_deleteTopics env2 broker topics timeout) ;;;
     (* Remove deleted topics *)
     for_each (fun topic => tell (cluster_targetTopics_delete env2 topic))
       (Js.items_of topics) ;;;
     call Cluster_refreshMetadata (cluster_refreshMetadata env) ;;;
     ret (Resolved tt))
    deleteTopics_catch.

Definition deleteTopics {L} (topics timeout : JsValue) : M World L unit :=
  if negb (Js.truthy topics) || negb (Js.isArray topics) then
    throw (KafkaJSNonRetriableError [Lit "Invalid topics array "; Sub topics])
  else
  if Nat.ltb 0 (List.length (List.filter not_a_string (Js.items_of topics)))
  then
    throw (KafkaJSNonRetriableError
             [Lit "Invalid topics array, the names must be a valid string"])
  else retrier cfg (deleteTopics_attempt topics timeout).

(** *** fetchOffsets *)

Definition fetchOffsets {L} (group topic : JsValue)
  : M World L (option (list FetchedOffset)) :=
  if negb (Js.truthy group) then
    throw (KafkaJSNonRetriableError [Lit "Invalid groupId "; Sub group])
  else
  if negb (Js.truthy topic) then
    throw (KafkaJSNonRetriableError [Lit "Invalid topic "; Sub topic])
  else
  partitions <- findTopicPartitions env topic ;;
  coordinator <- ask (cluster_findCoordinator env2 group) ;;
  responses <- ask (broker_offsetFetch env2 coordinator group topic
                      partitions) ;;
  ret (pop
         (List.map (fun response => List.map fetched (ofr_partitions response))
            (List.filter (fun response => strict_equal (ofr_topic response) topic)
               responses))).

(** *** describeConfigs and alterConfigs *)

Definition describeConfigs_attempt {L} (resources includeSynonyms : JsValue)
    (retryCount : nat) : M World L (Attempt JsValue) :=
  try_catch
    (call Cluster_refreshMetadata (cluster_refreshMetadata env) ;;;
     broker <- call Cluster_findControllerBroker
                 (cluster_findControllerBroker env) ;;
     response <- ask (broker_describeConfigs env2 broker resources
                        includeSynonyms) ;;
     ret (Resolved response))
    (rethrow_or_bail "NOT_CONTROLLER").

Definition describeConfigs {L} (resources includeSynonyms : JsValue)
  : M World L JsValue :=
  if negb (Js.truthy resources) || negb (Js.isArray resources) then
    throw (KafkaJSNonRetriableError
             [Lit "Invalid resources array "; Sub resources])
  else
  let items := Js.items_of resources in
  if Nat.eqb (List.length items) 0 then
    throw (KafkaJSNonRetriableError [Lit "Resources array cannot be empty"])
  else
  invalidType <- lift (Js.find
    (Js.field_not_in (RESOURCE_TYPES enums) "type") items) ;;
  if Js.truthy invalidType then
    m <- lift (invalid_enum_message "Invalid resource type " "type"
                 invalidType) ;;
    throw (KafkaJSNonRetriableError m)
  else
  invalidName <- lift (Js.find name_invalid items) ;;
  if Js.truthy invalidName then
    m <- lift (invalid_enum_message "Invalid resource name " "name"
                 invalidName) ;;
    throw (KafkaJSNonRetriableError m)
  else
  invalidConfigs <- lift (Js.find configNames_invalid items) ;;
  if Js.truthy invalidConfigs then
    m <- lift (invalid_enum_message "Invalid resource configNames "
                 "configNames" invalidConfigs) ;;
    throw (KafkaJSNonRetriableError m)
  else
  retrier cfg (describeConfigs_attempt resources includeSynonyms).

Definition alterConfigs_attempt {L} (resources validateOnly : JsValue)
    (retryCount : nat) : M World L (Attempt JsValue) :=
  try_catch
    (call Cluster_refreshMetadata (cluster_refreshMetadata env) ;;;
     broker <- call Cluster_findControllerBroker
                 (cluster_findControllerBroker env) ;;
     response <- ask (broker_alterConfigs env2 broker resources
                        (JBool (Js.truthy validateOnly))) ;;
     ret (Resolved response))
    (rethrow_or_bail "NOT_CONTROLLER").

Definition alterConfigs {L} (resources validateOnly : JsValue)
  : M World L JsValue :=
  if negb (Js.truthy resources) || negb (Js.isArray resources) then
    throw (KafkaJSNonRetriableError
             [Lit "Invalid resources array "; Sub resources])
  else
  let items := Js.items_of resources in
  if Nat.eqb (List.length items) 0 then
    throw (KafkaJSNonRetriableError [Lit "Resources array cannot be empty"])
  else
  invalidType <- lift (Js.find
    (Js.field_not_in (RESOURCE_TYPES enums) "type") items) ;;
  if Js.truthy invalidType then
    m <- lift (invalid_enum_message "Invalid resource type " "type"
                 invalidType) ;;
    throw (KafkaJSNonRetriableError m)
  else
  invalidName <- lift (Js.find name_invalid items) ;;
  if Js.truthy invalidName then
    m <- lift (invalid_enum_message "Invalid resource name " "name"
                 invalidName) ;;
    throw (KafkaJSNonRetriableError m)
  else
  invalidConfigs <- lift (Js.find configEntries_invalid items) ;;
  if Js.truthy invalidConfigs then
    m <- lift (invalid_enum_message "Invalid resource configEntries "
                 "configEntries" invalidConfigs) ;;
    throw (KafkaJSNonRetriableError m)
  else
  invalidConfigValue <- lift (Js.find config_value_invalid items) ;;
  if Js.truthy invalidConfigValue then
    throw (KafkaJSNonRetriableError
             [Lit "Invalid resource config value: "; SubJSON invalidConfigValue])
  else
  retrier cfg (alterConfigs_attempt resources validateOnly).

(** *** fetchTopicMetadata *)



(** *** listGroups *)

Fixpoint listGroups_loop {L} (nodes : list N) (groups : list JsValue)
  : M World L (list JsValue) :=
  match nodes with
  | [] => ret groups
  | node :: nodes' =>
      broker <- ask (cluster_findBroker env2 node) ;;
      response <- ask (broker_listGroups env2 broker) ;;
      listGroups_loop nodes' (groups ++ response)
  end.

Definition listGroups {L} : M World L (list JsValue) :=
  call Cluster_refreshMetadata (cluster_refreshMetadata env) ;;;
  nodes <- look (cluster_brokerPool_brokers env2) ;;
  listGroups_loop (for_in nodes) [].

(** *** describeAcls and deleteAcls *)

Definition describeAcls_attempt {L} (filter : AclFilter) (retryCount : nat)
  : M World L (Attempt JsValue) :=
  try_catch
    (call Cluster_refreshMetadata (cluster_refreshMetadata env) ;;;
     broker <- call Cluster_findControllerBroker
                 (cluster_findControllerBroker env) ;;
     response <- ask (broker_describeAcls env2 broker filter) ;;
     resources <- lift (Js.get response "resources") ;;
     ret (Resolved (JObj [("resources", resources)])))
    (rethrow_or_bail "NOT_CONTROLLER").

Definition describeAcls {L} (filter : AclFilter) : M World L JsValue :=
  (* Validate principal *)
  if neither_string_nor_undefined (af_principal filter) then
    throw (KafkaJSNonRetriableError
      [Lit "Invalid principal, the principal have to be a valid string"])
  else
  (* Validate host *)
  if neither_string_nor_undefined (af_host filter) then
    throw (KafkaJSNonRetriableError
      [Lit "Invalid host, the host have to be a valid string"])
  else
  (* Validate resourceName *)
  if neither_string_nor_undefined (af_resourceName filter) then
    throw (KafkaJSNonRetriableError
      [Lit "Invalid resourceName, the resourceName have to be a valid string"])
  else
  (* Validate operation *)
  if negb (Js.values_include (OPERATION_TYPES enums) (af_operation filter)) then
    throw (KafkaJSNonRetriableError
      [Lit "Invalid operation type "; Sub (af_operation filter)])
  else
  (* Validate resourcePatternTypeFilter *)
  if negb (Js.values_include (RESOURCE_PATTERN_TYPES enums)
             (af_resourcePatternTypeFilter filter)) then
    throw (KafkaJSNonRetriableError
      [Lit "Invalid resource pattern filter type ";
       Sub (af_resourcePatternTypeFilter filter)])
  else
  (* Validate permissionType *)
  if negb (Js.values_include (PERMISSION_TYPES enums)
             (af_permissionType filter)) then
    throw (KafkaJSNonRetriableError
      [Lit "Invalid permission type "; Sub (af_permissionType filter)])
  else
  (* Validate resourceType *)
  if negb (Js.values_include (RESOURCE_TYPES enums) (af_resourceType filter))
  then
    throw (KafkaJSNonRetriableError
      [Lit "Invalid resource type "; Sub (af_resourceType filter)])
  else
  retrier cfg (describeAcls_attempt filter).

Definition deleteAcls_attempt {L} (filters : JsValue) (retryCount : nat)
  : M World L (Attempt JsValue) :=
  try_catch
    (call Cluster_refreshMetadata (cluster_refreshMetadata env) ;;;
     broker <- call Cluster_findControllerBroker
                 (cluster_findControllerBroker env) ;;
     response <- ask (broker_deleteAcls env2 broker filters) ;;
     filterResponses <- lift (Js.get response "filterResponses") ;;
     ret (Resolved (JObj [("filterResponses", filterResponses)])))
    (rethrow_or_bail "NOT_CONTROLLER").

Definition deleteAcls {L} (filters : JsValue) : M World L JsValue :=
  if negb (Js.truthy filters) || negb (Js.isArray filters) then
    throw (KafkaJSNonRetriableError [Lit "Invalid ACL Filter array "; Sub filters])
  else
  let items := Js.items_of filters in
  if Nat.eqb (List.length items) 0 then
    throw (KafkaJSNonRetriableError [Lit "Empty ACL Filter array"])
  else
  (* Validate principal *)
  bad <- lift (Js.some (field_neither "principal") items) ;;
  if bad : bool then
    throw (KafkaJSNonRetriableError
      [Lit "Invalid ACL Filter array, the principals have to be a valid string"])
  else
  (* Validate host *)
  bad <- lift (Js.some (field_neither "host") items) ;;
  if bad : bool then
    throw (KafkaJSNonRetriableError
      [Lit "Invalid ACL Filter array, the hosts have to be a valid string"])
  else
  (* Validate resourceName *)
  bad <- lift (Js.some (field_neither "resourceName") items) ;;
  if bad : bool then
    throw (KafkaJSNonRetriableError
      [Lit "Invalid ACL Filter array, the resourceNames have to be a valid string"])
  else
  (* Validate operation *)
  invalidType <- lift (Js.find
    (Js.field_not_in (OPERATION_TYPES enums) "operation") items) ;;
  if Js.truthy invalidType then
    m <- lift (invalid_enum_message "Invalid operation type " "operation"
                 invalidType) ;;
    throw (KafkaJSNonRetriableError m)
  else
  (* Validate resourcePatternTypes *)
  invalidType <- lift (Js.find
    (Js.field_not_in (RESOURCE_PATTERN_TYPES enums) "resourcePatternType")
    items) ;;
  if Js.truthy invalidType then
    m <- lift (invalid_enum_message "Invalid resource pattern type "
                 "resourcePatternType" invalidType) ;;
    throw (KafkaJSNonRetriableError m)
  else
  (* Validate permissionTypes *)
  invalidType <- lift (Js.find
    (Js.field_not_in (PERMISSION_TYPES enums) "permissionType") items) ;;
  if Js.truthy invalidType then
    m <- lift (invalid_enum_message "Invalid permission type "
                 "permissionType" invalidType) ;;
    throw (KafkaJSNonRetriableError m)
  else
  (* Validate resourceTypes *)
  invalidType <- lift (Js.find
    (Js.field_not_in (RESOURCE_TYPES enums) "resourceType") items) ;;
  if Js.truthy invalidType then
    m <- lift (invalid_enum_message "Invalid resource type " "resourceType"
                 invalidType) ;;
    throw (KafkaJSNonRetriableError m)
  else
  retrier cfg (deleteAcls_attempt filters).

End AdminMore.

(** ** Vocabulary of the further properties *)

(** The calls of an attempt that reaches the controller. *)
Definition controller_calls : list Call :=
  [Cluster_refreshMetadata; Cluster_findControllerBroker].

(** A rule-less batch: no rule of [acl_precedence] is violated. *)
Definition well_formed (enums : Enums) (acl : JsValue) : bool :=
  negb (malformed enums acl).

(** The error thrown for a topic list with a repeated name. *)
Definition duplicate_topics : JsError :=
  KafkaJSNonRetriableError
    [Lit "Invalid topics array, it cannot have multiple entries for the same topic"].

(** [n] times the calls [cs]. *)
Fixpoint times (n : nat) (cs : list Call) : list Call :=
  match n with
  | O => []
  | S n' => cs ++ times n' cs
  end.

(** A high-watermark answer names a partition the low-watermark answer
    lacks. *)
Definition lacks_low (lowPartitions highPartitions : list PartitionOffset)
  : bool :=
  existsb
    (fun h =>
       negb (existsb (fun l => N.eqb (po_partition l) (po_partition h))
               lowPartitions))
    highPartitions.

(** The partition a seek entry of [resetOffsets] stands for. *)
Definition seek_partition (p : N) : JsValue := JNum (Z.of_N p).



(** What [createPartitions] takes: a non-empty array of entries whose
    topics are strings, no topic twice. *)
Definition partitions_argument (topicPartitions : JsValue) : Prop :=
  exists items names,
    topicPartitions = JArr items /\ items <> [] /\ valid_topics items names.

Definition nonempty_string (v : JsValue) : bool :=
  match v with JStr s => negb (String.eqb s "") | _ => false end.

(** A config entry with a string name and a string value. *)
Definition config_entry (e : JsValue) : bool :=
  is_string (field "name" e) && is_string (field "value" e).

(** A resource as [alterConfigs] wants it: a type of the table, a
    non-empty string as name, an array of config entries. *)
Definition config_resource (enums : Enums) (r : JsValue) : bool :=
  Js.values_include (RESOURCE_TYPES enums) (field "type" r)
  && nonempty_string (field "name" r)
  && match field "configEntries" r with
     | JArr entries => forallb config_entry entries
     | _ => false
     end.

Definition config_resources (enums : Enums) (resources : JsValue) : bool :=
  match resources with
  | JArr (r :: l) => forallb (config_resource enums) (r :: l)
  | _ => false
  end.

(** [false], [0] and ['']: the falsy values that have properties to
    read. *)
Definition falsy_primitive (v : JsValue) : bool :=
  match v with
  | JBool false => true
  | JNum 0 => true
  | JStr "" => true
  | _ => false
  end.

(** The [configNames] of a resource are an array, or absent. *)
Definition configNames_fine (r : JsValue) : bool :=
  match r with
  | JUndefined | JNull => false
  | _ =>
      Js.isArray (field "configNames" r)
      || loosely_null (field "configNames" r)
  end.

(** The world after [topics] were deleted from [cluster.targetTopics],
    one after the other. *)
Definition forget_topics {World} (env2 : Env2 World) (topics : list JsValue)
    (w : World) : World :=
  fold_left (fun w' topic => cluster_targetTopics_delete env2 topic w')
    topics w.

(** The calls of a complete attempt of [deleteTopics]. *)
Definition delete_calls : list Call :=
  controller_calls ++ [Cluster_refreshMetadata].

(** The calls by which the partitions of a topic are looked up. *)
Definition partition_calls (topic : JsValue) : list Call :=
  [Cluster_addTargetTopic topic; Cluster_refreshMetadataIfNecessary;
   Cluster_findTopicPartitionMetadata topic].

(** The brokers [nodes] answer [listGroups] one after the other: broker
    by broker, the lookup of the broker and its answer, from world [w] to
    world [w']. *)
Inductive gathered {World} (env2 : Env2 World)
  : list N -> World -> list (list JsValue) -> World -> Prop :=
| gathered_nil w : gathered env2 [] w [] w
| gathered_cons node nodes w broker w1 response w2 answers w' :
    cluster_findBroker env2 node w = (Return broker, w1) ->
    broker_listGroups env2 broker w1 = (Return response, w2) ->
    gathered env2 nodes w2 answers w' ->
    gathered env2 (node :: nodes) w (response :: answers) w'.

(** A string, or left out. *)
Definition optional_string (v : JsValue) : bool :=
  match v with JStr _ | JUndefined => true | _ => false end.

(** A filter [describeAcls] takes: the names are strings or left out, the
    four enumerated fields are members of their tables. *)
Definition acl_filter (enums : Enums) (filter : AclFilter) : bool :=
  optional_string (af_principal filter)
  && optional_string (af_host filter)
  && optional_string (af_resourceName filter)
  && Js.values_include (OPERATION_TYPES enums) (af_operation filter)
  && Js.values_include (RESOURCE_PATTERN_TYPES enums)
       (af_resourcePatternTypeFilter filter)
  && Js.values_include (PERMISSION_TYPES enums) (af_permissionType filter)
  && Js.values_include (RESOURCE_TYPES enums) (af_resourceType filter).

(** A resource as [describeConfigs] wants it: a type of the table, a
    non-empty string as name, config names that are an array or absent. *)
Definition query_resource (enums : Enums) (r : JsValue) : bool :=
  Js.values_include (RESOURCE_TYPES enums) (field "type" r)
  && nonempty_string (field "name" r)
  && (Js.isArray (field "configNames" r)
      || loosely_null (field "configNames" r)).



(** Entry [e] of the result of [fetchTopicOffsets] is made of the
    from-end answer [h] and of a from-beginning answer for the partition of
    [h]. *)
Definition pairs_watermarks (fromBeginning : list PartitionOffset)
    (h : PartitionOffset) (e : TopicOffset) : Prop :=
  partition e = po_partition h
  /\ offset e = po_offset h
  /\ high e = po_offset h
  /\ exists l,
       In l fromBeginning
       /\ po_partition l = po_partition h
       /\ low e = po_offset l.

(** The order of the default [sort]: the numbers compared as the strings
    of their decimal numerals. *)
Definition as_strings (p q : N) : Prop :=
  String.leb (decimal p) (decimal q) = true.

(** ** A scripted cluster

    A small cluster to run the operations on: the world counts the
    metadata refreshes and the leader polls made so far and remembers the
    topics created; a script fixes what the brokers and the consumer
    answer. *)

Record Sim := mkSim {
  refreshes : nat;
  polls : nat;
  created : list string
}.

Record Script := mkScript {
  controller_node : N;
  coordinator_of : string -> N;
  delete_answer : nat -> N -> list string -> Completion (list GroupResult);
  metadata_answer : nat -> Completion JsValue;
  group_state : string;
  topic_partitions : list N;
  watermarks : N -> Z * Z;
  cluster_info : ClusterMetadata
}.

Definition watermark (sc : Script) (fromBeginning : bool) (p : N) : Z :=
  if fromBeginning then fst (watermarks sc p) else snd (watermarks sc p).

Definition topic_names (topics : JsValue) : list string :=
  strings_of (List.map (field "topic") (Js.items_of topics)).

Definition simulate (sc : Script) : Env Sim :=
  {| cluster_refreshMetadata := fun w =>
       (Return tt, mkSim (S (refreshes w)) (polls w) (created w));
     cluster_refreshMetadataIfNecessary := fun w => (Return tt, w);
     cluster_addTargetTopic := fun _ w => (Return tt, w);
     cluster_findControllerBroker := fun w =>
       (Return (mkBroker (controller_node sc)), w);
     cluster_findGroupCoordinator := fun g w =>
       (Return (mkBroker (coordinator_of sc g)), w);
     cluster_findTopicPartitionMetadata := fun _ w =>
       (Return (List.map mkPartitionMetadata (topic_partitions sc)), w);
     cluster_fetchTopicsOffset := fun qs w =>
       (Return
          (List.map
             (fun q =>
                mkTopicOffsets (q_topic q)
                  (List.map
                     (fun p => mkPartitionOffset p
                                 (watermark sc (q_fromBeginning q) p))
                     (List.rev (q_partitions q))))
             qs), w);
     cluster_metadata := fun _ w => (Return (cluster_info sc), w);
     cluster_defaultOffset := fun earliest w =>
       (Return (JNum (if Js.truthy earliest then -2 else -1)), w);
     broker_createTopics := fun _ topics _ _ w =>
       if existsb (fun n => existsb (String.eqb n) (created w))
            (topic_names topics)
       then (Throw (Thrown (Some "TOPIC_ALREADY_EXISTS")
                      "Topic with this name already exists"), w)
       else (Return tt,
             mkSim (refreshes w) (polls w) (created w ++ topic_names topics));
     broker_createAcls := fun _ _ w => (Return tt, w);
     broker_deleteGroups := fun b groups w =>
       (delete_answer sc (refreshes w) (nodeId b) groups, w);
     broker_metadata := fun _ _ w =>
       (metadata_answer sc (polls w),
        mkSim (refreshes w) (S (polls w)) (created w));
     consumer_subscribe := fun _ _ w => (Return tt, w);
     consumer_describeGroup := fun _ w =>
       (Return (mkGroupDescription (group_state sc)), w);
     consumer_on_FETCH := fun _ w => w;
     consumer_run := fun _ w => w;
     consumer_pause := fun _ _ w => w;
     consumer_seek := fun _ _ _ w => w |}.

Definition deleted (groups : list string) : list GroupResult :=
  List.map (fun g => mkGroupResult g 0 JUndefined) groups.

(** A healthy cluster of three brokers: node 0 is the controller, the
    groups are coordinated by node 2, except ["b"] by node 1. *)
Definition healthy : Script :=
  {| controller_node := 0;
     coordinator_of := fun g => if String.eqb g "b" then 1%N else 2%N;
     delete_answer := fun _ _ groups => Return (deleted groups);
     metadata_answer := fun _ => Return (JObj [("topicMetadata", JArr [])]);
     group_state := "Empty";
     topic_partitions := [0; 1; 2]%N;
     watermarks := fun p => (0, 10 + Z.of_N p)%Z;
     cluster_info :=
       mkClusterMetadata
         [[("nodeId", JNum 0); ("host", JStr "kafka-0"); ("port", JNum 9092);
           ("rack", JNull)];
          [("nodeId", JNum 1); ("host", JStr "kafka-1"); ("port", JNum 9092)]]
         (JStr "cluster-1") (JNum 0) |}.

Definition with_delete_answer
    (f : nat -> N -> list string -> Completion (list GroupResult))
    (sc : Script) : Script :=
  mkScript (controller_node sc) (coordinator_of sc) f (metadata_answer sc)
    (group_state sc) (topic_partitions sc) (watermarks sc) (cluster_info sc).

Definition with_metadata_answer (f : nat -> Completion JsValue) (sc : Script)
  : Script :=
  mkScript (controller_node sc) (coordinator_of sc) (delete_answer sc) f
    (group_state sc) (topic_partitions sc) (watermarks sc) (cluster_info sc).

Definition with_group_state (st : string) (sc : Script) : Script :=
  mkScript (controller_node sc) (coordinator_of sc) (delete_answer sc)
    (metadata_answer sc) st (topic_partitions sc) (watermarks sc)
    (cluster_info sc).

Definition with_controller (c : JsValue) (sc : Script) : Script :=
  mkScript (controller_node sc) (coordinator_of sc) (delete_answer sc)
    (metadata_answer sc) (group_state sc) (topic_partitions sc) (watermarks sc)
    (mkClusterMetadata (md_brokers (cluster_info sc))
       (md_clusterId (cluster_info sc)) c).

Definition start : State Sim unit := mkState (mkSim 0 0 []) [] tt.

Definition five_retries : Config := mkConfig 5 (fun _ => 3).

(** The enumerations with the numbering of the Kafka protocol. *)
Definition kafka_enums : Enums :=
  {| RESOURCE_TYPES :=
       [("UNKNOWN", 0); ("ANY", 1); ("TOPIC", 2); ("GROUP", 3); ("CLUSTER", 4);
        ("TRANSACTIONAL_ID", 5); ("DELEGATION_TOKEN", 6)]%Z;
     OPERATION_TYPES :=
       [("UNKNOWN", 0); ("ANY", 1); ("ALL", 2); ("READ", 3); ("WRITE", 4);
        ("CREATE", 5); ("DELETE", 6); ("ALTER", 7); ("DESCRIBE", 8);
        ("CLUSTER_ACTION", 9); ("DESCRIBE_CONFIGS", 10);
        ("ALTER_CONFIGS", 11); ("IDEMPOTENT_WRITE", 12)]%Z;
     PERMISSION_TYPES :=
       [("UNKNOWN", 0); ("ANY", 1); ("DENY", 2); ("ALLOW", 3)]%Z;
     RESOURCE_PATTERN_TYPES :=
       [("UNKNOWN", 0); ("ANY", 1); ("MATCH", 2); ("LITERAL", 3);
        ("PREFIXED", 4)]%Z |}.

(** The ACL entry of the tests: deny everything on topic foo to User:foo. *)
Definition acl_entry (operation : JsValue) : JsValue :=
  JObj [("resourceType", JNum 2); ("resourceName", JStr "foo");
        ("resourcePatternType", JNum 3); ("principal", JStr "User:foo");
        ("host", JStr "*"); ("operation", operation);
        ("permissionType", JNum 2)].

(** The coordinator of node 1 is not available during the first pass. *)
Definition coordinator_down_once : Script :=
  with_delete_answer
    (fun pass node groups =>
       if Nat.eqb pass 1 && N.eqb node 1 then
         Throw (Thrown (Some "COORDINATOR_NOT_AVAILABLE")
                  "The coordinator is not available")
       else Return (deleted groups))
    healthy.

(** Group b still has members: its deletion fails with NON_EMPTY_GROUP. *)
Definition answer_b_busy (groups : list string) : list GroupResult :=
  List.map
    (fun g => mkGroupResult g (if String.eqb g "b" then 68 else 0) JUndefined)
    groups.

Definition group_b_busy : Script :=
  with_delete_answer (fun _ _ groups => Return (answer_b_busy groups)) healthy.

(** The leaders of a new topic never show up. *)
Definition leaderless : Script :=
  with_metadata_answer
    (fun _ => Throw (Thrown (Some "LEADER_NOT_AVAILABLE")
                       "There is no leader for this topic-partition"))
    healthy.

Definition abc : list string := ["a"; "b"; "c"].

Definition one_topic : list JsValue :=
  [JObj [("topic", JStr "t"); ("numPartitions", JNum 1)]].

Definition seek_first : list SeekEntry := [mkSeekEntry (JNum 0) (JStr "5")].

Definition deleting_abc : State Sim DeleteGroupsVars :=
  mkState (mkSim 0 0 []) [] (mkDeleteGroupsVars [] abc).

(** The answers of the first fan-out on the cluster where group b is
    busy, and the state it leaves. *)
Definition busy_answers : list (list GroupResult) :=
  [answer_b_busy ["b"]; answer_b_busy ["a"; "c"]].

Definition busy_calls : list Call :=
  [Cluster_refreshMetadata; Cluster_findGroupCoordinator "a";
   Cluster_findGroupCoordinator "b"; Cluster_findGroupCoordinator "c";
   Broker_deleteGroups (mkBroker 1) ["b"];
   Broker_deleteGroups (mkBroker 2) ["a"; "c"]].

Definition busy_fanned : State Sim DeleteGroupsVars :=
  mkState (mkSim 1 0 []) busy_calls (mkDeleteGroupsVars [] abc).

Definition busy_end : State Sim DeleteGroupsVars :=
  mkState (mkSim 1 0 []) busy_calls (mkDeleteGroupsVars [] ["b"]).

Definition b_is_busy : JsError :=
  KafkaJSDeleteGroupsError [Lit "Error in DeleteGroups"]
    [mkGroupResult "b" 68 JUndefined].

Definition create_one_topic : Call :=
  Broker_createTopics (mkBroker 0) (JArr one_topic) JUndefined JUndefined.

(** The state after a first [createTopics] of topic t on the healthy
    cluster, and after a second one. *)
Definition created_once : State Sim unit :=
  mkState (mkSim 1 1 ["t"])
    [Cluster_refreshMetadata; Cluster_findControllerBroker; create_one_topic;
     Broker_metadata (mkBroker 0) ["t"]]
    tt.

Definition created_twice : State Sim unit :=
  mkState (mkSim 2 1 ["t"])
    [Cluster_refreshMetadata; Cluster_findControllerBroker; create_one_topic;
     Broker_metadata (mkBroker 0) ["t"];
     Cluster_refreshMetadata; Cluster_findControllerBroker; create_one_topic]
    tt.

Definition leaders_timed_out : State Sim unit :=
  mkState (mkSim 1 3 ["t"])
    [Cluster_refreshMetadata; Cluster_findControllerBroker; create_one_topic;
     Broker_metadata (mkBroker 0) ["t"]; Broker_metadata (mkBroker 0) ["t"];
     Broker_metadata (mkBroker 0) ["t"]]
    tt.

Definition healthy_offsets : list TopicOffset :=
  [mkTopicOffset 2 12 12 0; mkTopicOffset 1 11 11 0; mkTopicOffset 0 10 10 0].

Definition described : list Call :=
  [Consumer_subscribe (JStr "g") (JStr "t"); Consumer_describeGroup (JStr "g")].

(** *** Faulty clusters and the further collaborators *)

Definition unknown_topic : JsError :=
  Thrown (Some "UNKNOWN_TOPIC_OR_PARTITION")
    "This server does not host this topic-partition".

Definition not_controller : JsError :=
  Thrown (Some "NOT_CONTROLLER")
    "This is not the correct controller for this cluster".

Definition timed_out : JsError :=
  Thrown (Some "REQUEST_TIMED_OUT") "The request timed out".

Definition policy_violation : JsError :=
  Thrown (Some "POLICY_VIOLATION")
    "Request parameters do not satisfy the configured policy".

(** The healthy cluster with four of its methods replaced. *)
Definition rewired
    (add : JsValue -> Sim -> Completion unit * Sim)
    (refresh : Sim -> Completion unit * Sim)
    (fetch : list OffsetQuery -> Sim -> Completion (list TopicOffsets) * Sim)
    (create : Broker -> JsValue -> JsValue -> JsValue -> Sim ->
              Completion unit * Sim)
  : Env Sim :=
  {| cluster_refreshMetadata := refresh;
     cluster_refreshMetadataIfNecessary :=
       cluster_refreshMetadataIfNecessary (simulate healthy);
     cluster_addTargetTopic := add;
     cluster_findControllerBroker :=
       cluster_findControllerBroker (simulate healthy);
     cluster_findGroupCoordinator :=
       cluster_findGroupCoordinator (simulate healthy);
     cluster_findTopicPartitionMetadata :=
       cluster_findTopicPartitionMetadata (simulate healthy);
     cluster_fetchTopicsOffset := fetch;
     cluster_metadata := cluster_metadata (simulate healthy);
     cluster_defaultOffset := cluster_defaultOffset (simulate healthy);
     broker_createTopics := create;
     broker_createAcls := broker_createAcls (simulate healthy);
     broker_deleteGroups := broker_deleteGroups (simulate healthy);
     broker_metadata := broker_metadata (simulate healthy);
     consumer_subscribe := consumer_subscribe (simulate healthy);
     consumer_describeGroup := consumer_describeGroup (simulate healthy);
     consumer_on_FETCH := consumer_on_FETCH (simulate healthy);
     consumer_run := consumer_run (simulate healthy);
     consumer_pause := consumer_pause (simulate healthy);
     consumer_seek := consumer_seek (simulate healthy) |}.

(** No topic can be added to the target topics. *)
Definition topic_unknown : Env Sim :=
  rewired (fun _ w => (Throw unknown_topic, w))
    (cluster_refreshMetadata (simulate healthy))
    (cluster_fetchTopicsOffset (simulate healthy))
    (broker_createTopics (simulate healthy)).

(** The from-beginning answers name partition 0 only. *)
Definition low_incomplete : Env Sim :=
  rewired (cluster_addTargetTopic (simulate healthy))
    (cluster_refreshMetadata (simulate healthy))
    (fun qs w =>
       (Return
          (List.map
             (fun q =>
                mkTopicOffsets (q_topic q)
                  (List.map
                     (fun p => mkPartitionOffset p
                                 (watermark healthy (q_fromBeginning q) p))
                     (if q_fromBeginning q then [0%N] else q_partitions q)))
             qs), w))
    (broker_createTopics (simulate healthy)).

(** The broker taken for the controller never is the controller. *)
Definition controller_moved : Env Sim :=
  rewired (cluster_addTargetTopic (simulate healthy))
    (cluster_refreshMetadata (simulate healthy))
    (cluster_fetchTopicsOffset (simulate healthy))
    (fun _ _ _ _ w => (Throw not_controller, w)).

(** The metadata can be refreshed once; later refreshes time out. *)
Definition one_refresh : Env Sim :=
  rewired (cluster_addTargetTopic (simulate healthy))
    (fun w =>
       if Nat.ltb 0 (refreshes w) then (Throw timed_out, w)
       else (Return tt, mkSim (S (refreshes w)) (polls w) (created w)))
    (cluster_fetchTopicsOffset (simulate healthy))
    (broker_createTopics (simulate healthy)).

(** A topic without partitions. *)
Definition without_partitions : Script :=
  mkScript (controller_node healthy) (coordinator_of healthy)
    (delete_answer healthy) (metadata_answer healthy) (group_state healthy) []
    (watermarks healthy) (cluster_info healthy).

(** What the brokers answer to the further requests. *)
Record Answers := mkAnswers {
  createPartitions_answer : Completion unit;
  deleteTopics_answer : Completion unit;
  alterConfigs_answer : Completion JsValue;
  offsetFetch_answer : list OffsetFetchResponse
}.

(** The further collaborators of the scripted cluster: two brokers, 1 and
    0, added to the broker pool in this order, each with one group; node 2
    coordinates every group; the target topics are the topics created. *)
Definition simulate2 (a : Answers) : Env2 Sim :=
  {| cluster_targetTopics_delete := fun topic w =>
       mkSim (refreshes w) (polls w)
         (List.filter (fun n => negb (strict_equal (JStr n) topic)) (created w));
     cluster_brokerPool_brokers := fun _ => [1; 0]%N;
     cluster_findBroker := fun n w => (Return (mkBroker n), w);
     cluster_findCoordinator := fun _ w => (Return (mkBroker 2), w);
     cluster_topicMetadata := fun _ w => (Return [], w);
     broker_createPartitions := fun _ _ _ _ w => (createPartitions_answer a, w);
     broker_deleteTopics := fun _ _ _ w => (deleteTopics_answer a, w);
     broker_describeConfigs := fun _ resources _ w =>
       (Return (JObj [("throttleTime", JNum 0); ("resources", resources)]), w);
     broker_alterConfigs := fun _ _ _ w => (alterConfigs_answer a, w);
     broker_listGroups := fun b w =>
       (Return [JObj [("groupId", JStr (if N.eqb (nodeId b) 0 then "g0" else "g1"));
                      ("protocolType", JStr "consumer")]], w);
     broker_offsetFetch := fun _ _ _ _ w => (Return (offsetFetch_answer a), w);
     broker_describeAcls := fun _ _ w =>
       (Return (JObj [("throttleTime", JNum 0); ("errorCode", JNum 0);
                      ("resources", JArr [])]), w);
     broker_deleteAcls := fun _ _ w =>
       (Return (JObj [("throttleTime", JNum 0); ("filterResponses", JArr [])]),
        w) |}.

(** Committed offsets of group g on topic t: the answer also carries an
    entry for another topic. *)
Definition committed : list OffsetFetchResponse :=
  [mkOffsetFetchResponse (JStr "t")
     [mkOffsetFetchPartition (JNum 0) (JStr "5") (JStr "");
      mkOffsetFetchPartition (JNum 1) (JStr "7") (JStr "checkpoint")];
   mkOffsetFetchResponse (JStr "u")
     [mkOffsetFetchPartition (JNum 0) (JStr "1") JNull]].

Definition obliging : Answers :=
  mkAnswers (Return tt) (Return tt) (Return (JObj [("resources", JArr [])]))
    committed.

Definition refusing (e : JsError) : Answers :=
  mkAnswers (Throw e) (Throw e) (Throw e) [].

Definition three_partitions : list PartitionMetadata :=
  List.map mkPartitionMetadata [0; 1; 2]%N.

(** A topic whose partitions the cluster lists as 2, 10, 1. *)
Definition scattered : Script :=
  mkScript (controller_node healthy) (coordinator_of healthy)
    (delete_answer healthy) (metadata_answer healthy) (group_state healthy)
    [2; 10; 1]%N (watermarks healthy) (cluster_info healthy).

Definition scattered_partitions : list PartitionMetadata :=
  List.map mkPartitionMetadata [2; 10; 1]%N.

Definition scattered_seeks : list SeekEntry :=
  [mkSeekEntry (JNum 1) (JNum (-1)); mkSeekEntry (JNum 10) (JNum (-1));
   mkSeekEntry (JNum 2) (JNum (-1))].

Definition one_partition_count : JsValue :=
  JArr [JObj [("topic", JStr "t"); ("count", JNum 3)]].

Definition one_resource : JsValue :=
  JArr [JObj [("type", JNum 2); ("name", JStr "t");
              ("configEntries",
               JArr [JObj [("name", JStr "cleanup.policy");
                           ("value", JStr "compact")]])]].

(** A resources array that starts with [0]; its second resource has
    neither a type of the table nor a string as name. *)
Definition slipping : JsValue :=
  JArr [JNum 0; JObj [("type", JNum 999); ("name", JNum 7)]].

(** Topics t and u were created. *)
Definition two_topics : State Sim unit := mkState (mkSim 0 0 ["t"; "u"]) [] tt.

Definition any_topic_acls : AclFilter :=
  mkAclFilter (JNum 2) JUndefined (JNum 3) JUndefined JUndefined (JNum 1)
    (JNum 1).

(** One well-formed resource query. *)
Definition one_query : list JsValue :=
  [JObj [("type", JNum 2); ("name", JStr "t")]].


(** ** Properties *)

Unset Implicit Arguments.

Section AdminProperties.

Variable World : Type.
Variable env : Env World.
Variable cfg : Config.
Variable enums : Enums.

(** *** Validation of an ACL batch *)

Lemma get_present (x : JsValue) (k : string) :
  not_nullish x = true -> Js.get x k = Return (field k x).
Proof. destruct x; simpl; intros H; try reflexivity; discriminate H. Qed.

Lemma typeof_string (v : JsValue) :
  negb (String.eqb (Js.typeof v) "string") = negb (is_string v).
Proof. destruct v; reflexivity. Qed.

Lemma some_field_not_string (k : string) (items : list JsValue) :
  forallb not_nullish items = true ->
  Js.some (Js.field_not_string k) items
  = Return (existsb (not_string_field k) items).
Proof.
  induction items as [|x l IH]; simpl; intros H; [reflexivity|].
  apply andb_prop in H. destruct H as [Hx Hl].
  unfold Js.field_not_string. rewrite (get_present _ _ Hx), typeof_string.
  fold (not_string_field k x).
  destruct (not_string_field k x); simpl; [reflexivity|].
  apply IH, Hl.
Qed.

Lemma find_field_not_in (table : list (string * Z)) (k : string)
    (items : list JsValue) :
  forallb not_nullish items = true ->
  Js.find (Js.field_not_in table k) items
  = Return (found (List.find (not_member_field table k) items)).
Proof.
  induction items as [|x l IH]; simpl; intros H; [reflexivity|].
  apply andb_prop in H. destruct H as [Hx Hl].
  unfold Js.field_not_in. rewrite (get_present _ _ Hx).
  fold (not_member_field table k x).
  destruct (not_member_field table k x); simpl; [reflexivity|].
  apply IH, Hl.
Qed.

(** An entry with a string principal is an object, hence truthy. *)
Lemma string_field_truthy (k : string) (e : JsValue) :
  not_string_field k e = false -> Js.truthy e = true.
Proof. destruct e; simpl; intros H; try reflexivity; discriminate H. Qed.

Lemma found_truthy (p : JsValue -> bool) (k : string) (items : list JsValue)
    (e : JsValue) :
  existsb (not_string_field k) items = false ->
  List.find p items = Some e ->
  Js.truthy e = true /\ not_nullish e = true.
Proof.
  intros Hall Hfind. apply find_some in Hfind. destruct Hfind as [Hin _].
  assert (Hk : not_string_field k e = false).
  { destruct (not_string_field k e) eqn:E; [|reflexivity].
    rewrite <- Hall. symmetry. apply existsb_exists. eauto. }
  split; [eapply string_field_truthy; eauto|].
  destruct e; simpl in *; try reflexivity; discriminate Hk.
Qed.



(** One enum check of [createAcls]: either it reports the first entry out
    of the table, or the batch has no such entry and the check passes. *)
Lemma enum_check {L} (what k : string) (table : list (string * Z))
    (items : list JsValue) (rest : M World L bool) (s : State World L) :
  forallb not_nullish items = true ->
  existsb (not_string_field "principal") items = false ->
  (invalidType <- lift (Js.find (Js.field_not_in table k) items) ;;
   if Js.truthy invalidType then
     m <- lift (invalid_enum_message what k invalidType) ;;
     throw (KafkaJSNonRetriableError m)
   else rest) s
  = match List.find (not_member_field table k) items with
    | Some e =>
        (Throw (KafkaJSNonRetriableError
                  [Lit what; Sub (field k e); Lit ": "; SubJSON e]), s)
    | None => rest s
    end.
Proof.
  intros Hpresent Hprincipal.
  unfold bind at 1, lift at 1. rewrite (find_field_not_in _ _ _ Hpresent).
  destruct (List.find (not_member_field table k) items) as [e|] eqn:Hfind;
    simpl; [|reflexivity].
  destruct (found_truthy _ _ _ _ Hprincipal Hfind) as [Ht Hn].
  rewrite Ht. unfold bind, lift, invalid_enum_message.
  rewrite (get_present _ _ Hn). reflexivity.
Qed.







(** *** The retrier *)

Lemma retrier_from_eq {L A} (left k : nat) (fn : nat -> M World L (Attempt A))
    (s : State World L) :
  retrier_from left k fn s
  = match fn k s with
    | (Return (Resolved a), s') => (Return a, s')
    | (Return (Bailed e), s') => (Throw e, s')
    | (Throw e, s') =>
        match left with
        | O => (Throw e, s')
        | S left' => retrier_from left' (S k) fn s'
        end
    end.
Proof. destruct left; reflexivity. Qed.

Lemma retried_le {L A} (fn : nat -> M World L (Attempt A)) k s k' s' :
  retried fn k s k' s' -> k <= k'.
Proof. induction 1; lia. Qed.

Lemma retrier_from_retried {L A} (fn : nat -> M World L (Attempt A))
    k s k' s' :
  retried fn k s k' s' ->
  forall left, k' - k <= left ->
    retrier_from left k fn s = retrier_from (left - (k' - k)) k' fn s'.
Proof.
  induction 1 as [k s|k s e s1 k' s' Hfn Hrest IH]; intros left Hle.
  - replace (left - (k - k)) with left by lia. reflexivity.
  - pose proof (retried_le _ _ _ _ _ Hrest) as Hk.
    rewrite retrier_from_eq, Hfn.
    destruct left as [|left]; [lia|].
    rewrite IH by lia. f_equal. lia.
Qed.

Lemma retrier_reached {L A} (fn : nat -> M World L (Attempt A)) s0 k s :
  attempt_reached cfg fn s0 k s ->
  retrier cfg fn s0
  = match fn k s with
    | (Return (Resolved a), s') => (Return a, s')
    | (Return (Bailed e), s') => (Throw e, s')
    | (Throw e, s') =>
        match retries cfg - k with
        | O => (Throw e, s')
        | S left' => retrier_from left' (S k) fn s'
        end
    end.
Proof.
  intros [Hretried Hk]. unfold retrier.
  rewrite (retrier_from_retried _ _ _ _ _ Hretried) by lia.
  rewrite retrier_from_eq. replace (retries cfg - (k - 0)) with (retries cfg - k) by lia.
  reflexivity.
Qed.

(** *** Validation of the group ids *)



Lemma deleteGroups_not_strings {L} (items : list JsValue) (s : State World L) :
  existsb not_a_string items = true ->
  deleteGroups env cfg (JArr items) s
  = (Throw (KafkaJSNonRetriableError
              [Lit "Invalid groupId name: "; SubJSON (JBool true)]), s).
Proof.
  intros H. unfold deleteGroups. cbn [Js.truthy Js.isArray negb orb Js.items_of].
  fold not_a_string. rewrite H. reflexivity.
Qed.



(** C9.  The message [deleteGroups] raises for an array with an element
    that is not a string interpolates the boolean answer of [some], the
    same for every such array; no group id of the array is in it (unless
    the id is the boolean [true] itself). *)
Theorem deleteGroups_invalid_id_message :
  forall (L : Type) (items : list JsValue) (s : State World L),
    existsb not_a_string items = true ->
    exists m,
      deleteGroups env cfg (JArr items) s
      = (Throw (KafkaJSNonRetriableError m), s)
      /\ m = [Lit "Invalid groupId name: "; SubJSON (JBool true)]
      /\ forall g, In g items -> g <> JBool true -> ~ mentions m g.
Proof.
  intros L items s H. eexists. split; [apply deleteGroups_not_strings, H|].
  split; [reflexivity|].
  intros g _ Hg [Hin|Hin]; simpl in Hin.
  - destruct Hin as [Hin|[Hin|[]]]; discriminate Hin.
  - destruct Hin as [Hin|[Hin|[]]]; [discriminate Hin|].
    injection Hin as <-. apply Hg. reflexivity.
Qed.

(** *** createTopics *)

Lemma get_topic (x : JsValue) (n : string) :
  field "topic" x = JStr n -> Js.get x "topic" = Return (JStr n).
Proof. destruct x; simpl; intros H; try discriminate H. rewrite H. reflexivity. Qed.

Lemma filter_valid_topics (items : list JsValue) (names : list string) :
  Forall2 (fun x n => field "topic" x = JStr n) items names ->
  Js.filter (Js.field_not_string "topic") items = Return [].
Proof.
  induction 1 as [|x n l ns Hx _ IH]; [reflexivity|].
  cbn [Js.filter]. unfold Js.field_not_string at 1.
  rewrite (get_topic _ _ Hx), IH. reflexivity.
Qed.

Lemma map_valid_topics (items : list JsValue) (names : list string) :
  Forall2 (fun x n => field "topic" x = JStr n) items names ->
  Js.map (fun x => Js.get x "topic") items = Return (List.map JStr names).
Proof.
  induction 1 as [|x n l ns Hx _ IH]; [reflexivity|].
  cbn [Js.map]. rewrite (get_topic _ _ Hx), IH. reflexivity.
Qed.

Lemma strings_of_strings (names : list string) :
  strings_of (List.map JStr names) = names.
Proof.
  induction names as [|n l IH]; [reflexivity|].
  unfold strings_of in *. simpl. rewrite IH. reflexivity.
Qed.

Lemma existsb_eqb_In (n : string) (seen : list string) :
  existsb (String.eqb n) seen = true <-> In n seen.
Proof.
  rewrite existsb_exists. split.
  - intros [x [Hin Heq]]. apply String.eqb_eq in Heq. subst. exact Hin.
  - intros Hin. exists n. split; [exact Hin|apply String.eqb_refl].
Qed.

Lemma Set_of_distinct (names seen : list string) :
  NoDup names -> (forall n, In n names -> ~ In n seen) ->
  Set_of seen names = names.
Proof.
  revert seen. induction names as [|n l IH]; intros seen Hnd Hfresh;
    [reflexivity|].
  inversion Hnd as [|? ? Hn Hl]; subst. cbn [Set_of].
  destruct (existsb (String.eqb n) seen) eqn:E.
  - apply existsb_eqb_In in E. exfalso. apply (Hfresh n); simpl; auto.
  - f_equal. apply IH; [exact Hl|].
    intros m Hm [<-|Hs]; [contradiction|].
    apply (Hfresh m); simpl; auto.
Qed.

(** A valid argument passes the validation and reaches the retrier. *)
Lemma createTopics_validated {L} (items : list JsValue) (names : list string)
    (validateOnly timeout waitForLeaders : JsValue) (s : State World L) :
  valid_topics items names ->
  createTopics env cfg (JArr items) validateOnly timeout waitForLeaders s
  = retrier cfg
      (createTopics_attempt env cfg (JArr items) validateOnly timeout
         (default_true waitForLeaders) names) s.
Proof.
  intros [Hitems Hnd]. unfold createTopics.
  cbn [Js.truthy Js.isArray negb orb Js.items_of].
  unfold bind at 1, lift at 1. rewrite (filter_valid_topics _ _ Hitems).
  change (Nat.ltb 0 (List.length (@nil JsValue))) with false. cbv iota.
  unfold bind at 1, lift at 1. rewrite (map_valid_topics _ _ Hitems).
  rewrite strings_of_strings.
  rewrite (Set_of_distinct _ _ Hnd) by (intros ? ? []).
  rewrite (Forall2_length Hitems), Nat.ltb_irrefl. reflexivity.
Qed.

Lemma waitFor_loop_unready {L} (cb : M World L JsValue) (opts : WaitOpts)
    n s s' :
  unready cb n s s' ->
  waitFor_loop n cb opts s
  = (Throw (KafkaJSTimeout [Lit (timeoutMessage opts)]), s').
Proof.
  induction 1 as [s|n s v s1 s' Hcb Hv _ IH]; [reflexivity|].
  cbn [waitFor_loop]. unfold bind. rewrite Hcb, Hv. exact IH.
Qed.

(** The part of an attempt of [createTopics] up to the answer of the
    broker's create call. *)
Section CreateAttempt.

Variable L : Type.
Variables (items : list JsValue) (names : list string).
Variables (validateOnly timeout waitForLeaders : JsValue).
Variables (s : State World L) (w1 w2 : World) (b : Broker).
Hypothesis Hrefresh : cluster_refreshMetadata env (world s) = (Return tt, w1).
Hypothesis Hcontroller :
  cluster_findControllerBroker env w1 = (Return b, w2).

Lemma createTopics_attempt_created (k : nat) (w3 : World) :
  broker_createTopics env b (JArr items) validateOnly timeout w2
  = (Return tt, w3) ->
  createTopics_attempt env cfg (JArr items) validateOnly timeout
    waitForLeaders names k s
  = if Js.truthy waitForLeaders then
      match leader_wait env cfg b names
              (after_create s b items validateOnly timeout w3) with
      | (Return _, s4) => (Return (Resolved true), s4)
      | (Throw e, s4) => createTopics_catch e s4
      end
    else (Return (Resolved true),
          after_create s b items validateOnly timeout w3).
Proof.
  intros Hcreate. unfold createTopics_attempt, try_catch.
  unfold bind at 1, call at 1. rewrite Hrefresh.
  unfold bind at 1, call at 1. cbn [world calls locals]. rewrite Hcontroller.
  unfold bind at 1, call at 1. cbn [world calls locals]. rewrite Hcreate.
  rewrite <- !app_assoc. cbn [app].
  fold (create_call b items validateOnly timeout).
  fold (after_create s b items validateOnly timeout w3).
  destruct (Js.truthy waitForLeaders); [|reflexivity].
  unfold bind. fold (@leader_wait World env cfg L b names).
  destruct (leader_wait env cfg b names
              (after_create s b items validateOnly timeout w3))
    as [[v|e] s4]; reflexivity.
Qed.

Lemma createTopics_attempt_refused (k : nat) (e : JsError) (w3 : World) :
  broker_createTopics env b (JArr items) validateOnly timeout w2
  = (Throw e, w3) ->
  createTopics_attempt env cfg (JArr items) validateOnly timeout
    waitForLeaders names k s
  = createTopics_catch e
      (after_create s b items validateOnly timeout w3).
Proof.
  intros Hcreate. unfold createTopics_attempt, try_catch.
  unfold bind at 1, call at 1. rewrite Hrefresh.
  unfold bind at 1, call at 1. cbn [world calls locals]. rewrite Hcontroller.
  unfold bind at 1, call at 1. cbn [world calls locals]. rewrite Hcreate.
  rewrite <- !app_assoc. reflexivity.
Qed.

End CreateAttempt.

Lemma type_is_other (e : JsError) (a b : string) :
  type_is e a = true -> String.eqb a b = false -> type_is e b = false.
Proof.
  unfold type_is. destruct (error_type e) as [ty|]; [|discriminate].
  intros Ha Hab. apply String.eqb_eq in Ha. subst. exact Hab.
Qed.

(** An attempt of [createTopics] throws nothing but NOT_CONTROLLER. *)
Lemma createTopics_attempt_throws {L} (topics validateOnly timeout : JsValue)
    (waitForLeaders : JsValue) (names : list string) (k : nat)
    (s s' : State World L) (e : JsError) :
  createTopics_attempt env cfg topics validateOnly timeout waitForLeaders
    names k s = (Throw e, s') ->
  type_is e "NOT_CONTROLLER" = true.
Proof.
  unfold createTopics_attempt, try_catch.
  match goal with |- context [match ?m s with _ => _ end] =>
    destruct (m s) as [[a|e0] s1] end; [discriminate|].
  unfold createTopics_catch.
  destruct (type_is e0 "NOT_CONTROLLER") eqn:E.
  - intros H. injection H as <- _. exact E.
  - destruct (type_is e0 "TOPIC_ALREADY_EXISTS"); discriminate.
Qed.

(** C5, as amended.  For a valid topics argument, on whichever attempt
    the controller is reached: when the broker's create call succeeds,
    [createTopics] resolves to [true] if no leader wait was asked for, and
    also if the leader wait that follows completes; when the create call
    throws an error of type TOPIC_ALREADY_EXISTS, [createTopics] resolves
    to [false] and does not reject. *)
Theorem createTopics_true_or_false :
  forall (L : Type) (items : list JsValue) (names : list string)
         (validateOnly timeout waitForLeaders : JsValue)
         (s0 s : State World L) (k : nat) (w1 w2 : World) (b : Broker),
    valid_topics items names ->
    attempt_reached cfg
      (createTopics_attempt env cfg (JArr items) validateOnly timeout
         (default_true waitForLeaders) names) s0 k s ->
    cluster_refreshMetadata env (world s) = (Return tt, w1) ->
    cluster_findControllerBroker env w1 = (Return b, w2) ->
    (forall w3,
       broker_createTopics env b (JArr items) validateOnly timeout w2
       = (Return tt, w3) ->
       (Js.truthy (default_true waitForLeaders) = false ->
        createTopics env cfg (JArr items) validateOnly timeout waitForLeaders s0
        = (Return true, after_create s b items validateOnly timeout w3))
       /\ (forall v s4,
             Js.truthy (default_true waitForLeaders) = true ->
             leader_wait env cfg b names
               (after_create s b items validateOnly timeout w3)
             = (Return v, s4) ->
             createTopics env cfg (JArr items) validateOnly timeout
               waitForLeaders s0
             = (Return true, s4)))
    /\ (forall e w3,
          broker_createTopics env b (JArr items) validateOnly timeout w2
          = (Throw e, w3) ->
          type_is e "TOPIC_ALREADY_EXISTS" = true ->
          createTopics env cfg (JArr items) validateOnly timeout waitForLeaders s0
          = (Return false, after_create s b items validateOnly timeout w3)).
Proof.
  intros L items names validateOnly timeout waitForLeaders s0 s k w1 w2 b
    Hvalid Hreached Hrefresh Hcontroller.
  rewrite (createTopics_validated _ _ _ _ _ _ Hvalid).
  rewrite (retrier_reached _ _ _ _ Hreached).
  split.
  - intros w3 Hcreate.
    rewrite (createTopics_attempt_created L items names validateOnly timeout
               _ s w1 w2 b Hrefresh Hcontroller k w3 Hcreate).
    split.
    + intros Hno. rewrite Hno. reflexivity.
    + intros v s4 Hyes Hwait. rewrite Hyes, Hwait. reflexivity.
  - intros e w3 Hcreate Hexists.
    rewrite (createTopics_attempt_refused L items names validateOnly timeout
               _ s w1 w2 b Hrefresh Hcontroller k e w3 Hcreate).
    unfold createTopics_catch.
    rewrite (type_is_other _ _ "NOT_CONTROLLER" Hexists) by reflexivity.
    rewrite Hexists. reflexivity.
Qed.

(** C6.  In an attempt of [createTopics] that waits for leaders, after a
    create call that succeeded: (1) a metadata query that throws
    LEADER_NOT_AVAILABLE counts as the answer [false] and the poll loop
    goes on with one poll less; (2) any other error of the query leaves
    the loop as it is; (3) when no poll of the loop's own budget finds the
    leaders, [createTopics] rejects at once with the message
    'Timed out while waiting for topic leaders'; (4) the error of an
    exhausted outer retry is the last NOT_CONTROLLER error thrown, never
    that timeout. *)
Theorem leader_wait_timeout_is_distinct :
  forall (L : Type) (items : list JsValue) (names : list string)
         (validateOnly timeout waitForLeaders : JsValue)
         (s0 s : State World L) (k : nat) (w1 w2 w3 : World) (b : Broker),
    let attempt :=
      createTopics_attempt env cfg (JArr items) validateOnly timeout
        (default_true waitForLeaders) names in
    let poll := call (Broker_metadata b names) (broker_metadata env b names) in
    let timed_out :=
      KafkaJSTimeout [Lit "Timed out while waiting for topic leaders"] in
    valid_topics items names ->
    Js.truthy (default_true waitForLeaders) = true ->
    attempt_reached cfg attempt s0 k s ->
    cluster_refreshMetadata env (world s) = (Return tt, w1) ->
    cluster_findControllerBroker env w1 = (Return b, w2) ->
    broker_createTopics env b (JArr items) validateOnly timeout w2
    = (Return tt, w3) ->
    (forall (n : nat) (e : JsError) (s3 s4 : State World L),
       poll s3 = (Throw e, s4) ->
       type_is e "LEADER_NOT_AVAILABLE" = true ->
       leader_callback poll s3 = (Return (JBool false), s4)
       /\ waitFor_loop (S n) (leader_callback poll) leader_wait_opts s3
          = waitFor_loop n (leader_callback poll) leader_wait_opts s4)
    /\ (forall (n : nat) (e : JsError) (s3 s4 : State World L),
          poll s3 = (Throw e, s4) ->
          type_is e "LEADER_NOT_AVAILABLE" = false ->
          waitFor_loop (S n) (leader_callback poll) leader_wait_opts s3
          = (Throw e, s4))
    /\ (forall s4,
          unready (leader_callback poll)
            (polls_before_timeout cfg (delay leader_wait_opts))
            (after_create s b items validateOnly timeout w3) s4 ->
          createTopics env cfg (JArr items) validateOnly timeout waitForLeaders s0
          = (Throw timed_out, s4))
    /\ (forall (sn s' : State World L) (e : JsError),
          attempt_reached cfg attempt s0 (retries cfg) sn ->
          attempt (retries cfg) sn = (Throw e, s') ->
          createTopics env cfg (JArr items) validateOnly timeout waitForLeaders s0
          = (Throw e, s')
          /\ type_is e "NOT_CONTROLLER" = true
          /\ e <> timed_out).
Proof.
  intros L items names validateOnly timeout waitForLeaders s0 s k w1 w2 w3 b
    attempt poll timed_out Hvalid Hwait Hreached Hrefresh Hcontroller Hcreate.
  subst attempt. split; [|split; [|split]].
  - intros n e s3 s4 Hpoll Hlna.
    assert (Hcb : leader_callback poll s3 = (Return (JBool false), s4)).
    { unfold leader_callback, try_catch. rewrite Hpoll, Hlna. reflexivity. }
    split; [exact Hcb|].
    cbn [waitFor_loop]. unfold bind at 1. rewrite Hcb. reflexivity.
  - intros n e s3 s4 Hpoll Hother.
    cbn [waitFor_loop]. unfold bind at 1, leader_callback at 1, try_catch.
    rewrite Hpoll, Hother. reflexivity.
  - intros s4 Hunready.
    rewrite (createTopics_validated _ _ _ _ _ _ Hvalid).
    rewrite (retrier_reached _ _ _ _ Hreached).
    rewrite (createTopics_attempt_created L items names validateOnly timeout
               _ s w1 w2 b Hrefresh Hcontroller k w3 Hcreate).
    rewrite Hwait. unfold leader_wait, retryOnLeaderNotAvailable, waitFor.
    fold poll. rewrite (waitFor_loop_unready _ _ _ _ _ Hunready).
    reflexivity.
  - intros sn s' e Hlast Hthrow.
    pose proof (createTopics_attempt_throws _ _ _ _ _ _ _ _ _ Hthrow) as Hty.
    split; [|split; [exact Hty|]].
    + rewrite (createTopics_validated _ _ _ _ _ _ Hvalid).
      rewrite (retrier_reached _ _ _ _ Hlast). rewrite Hthrow.
      rewrite Nat.sub_diag. reflexivity.
    + intros ->. discriminate Hty.
Qed.

(** *** fetchTopicOffsets *)

Lemma retrier_from_returns {L A} (fn : nat -> M World L (Attempt A))
    (left k : nat) (s s' : State World L) (v : A) :
  retrier_from left k fn s = (Return v, s') ->
  exists k' s0, fn k' s0 = (Return (Resolved v), s').
Proof.
  revert k s. induction left as [|left IH]; intros k s;
    rewrite retrier_from_eq;
    destruct (fn k s) as [[[a|e]|e] s1] eqn:Hfn; intros H;
    try discriminate H;
    try (injection H as <- <-; exists k, s; exact Hfn).
  apply IH in H. exact H.
Qed.

Ltac run_call H E :=
  unfold bind at 1, call at 1 in H; cbn [world calls locals] in H;
  match type of H with
  | context [let (_, _) := ?f ?w in _] =>
      destruct (f w) as [[?|?] ?] eqn:E; cbn [world calls locals] in H;
      [|discriminate H]
  end.

Ltac run_lift H E :=
  unfold bind at 1, lift at 1 in H;
  match type of H with
  | context [match ?c with Return _ => _ | Throw _ => _ end] =>
      destruct c as [?|?] eqn:E; [|discriminate H]
  end.

Lemma fetchTopicOffsets_catch_inv {L} (e : JsError) (s s' : State World L)
    (v : list TopicOffset) :
  fetchTopicOffsets_catch env e s <> (Return (Resolved v), s').
Proof.
  unfold fetchTopicOffsets_catch.
  destruct (type_is e "UNKNOWN_TOPIC_OR_PARTITION"); [|discriminate].
  unfold bind, call, throw.
  destruct (cluster_refreshMetadata env (world s)) as [[[]|e'] w];
    discriminate.
Qed.

(** What a resolved attempt of [fetchTopicOffsets] went through. *)
Lemma fetchTopicOffsets_try_inv {L} (topic : JsValue) (s s' : State World L)
    (entries : list TopicOffset) :
  fetchTopicOffsets_try env topic s = (Return (Resolved entries), s') ->
  exists wa wb metadata wc high wd low we,
    cluster_addTargetTopic env topic (world s) = (Return tt, wa)
    /\ cluster_refreshMetadataIfNecessary env wa = (Return tt, wb)
    /\ cluster_findTopicPartitionMetadata env topic wb = (Return metadata, wc)
    /\ cluster_fetchTopicsOffset env (offsets_query topic false metadata) wc
       = (Return high, wd)
    /\ cluster_fetchTopicsOffset env (offsets_query topic true metadata) wd
       = (Return low, we)
    /\ calls s' = calls s ++ watermark_calls topic metadata
    /\ exists highPartitions lowPartitions,
         pop_partitions high = Return highPartitions
         /\ pop_partitions low = Return lowPartitions
         /\ map_watermarks lowPartitions highPartitions = Return entries.
Proof.
  unfold fetchTopicOffsets_try. intros H.
  run_call H Eadd. run_call H Eref. run_call H Emd.
  run_call H Ehigh. run_call H Elow.
  run_lift H Ehp. run_lift H Elp. run_lift H Emap.
  injection H as <- <-.
  match goal with u : unit |- _ => destruct u end.
  match goal with u : unit |- _ => destruct u end.
  do 8 eexists.
  split; [reflexivity|]. split; [exact Eref|]. split; [exact Emd|].
  split; [exact Ehigh|]. split; [exact Elow|].
  split; [cbn [calls]; rewrite <- !app_assoc; reflexivity|].
  do 2 eexists.
  split; [exact Ehp|]. split; [exact Elp|]. exact Emap.
Qed.

Lemma map_watermarks_inv (lowPartitions highPartitions : list PartitionOffset)
    (entries : list TopicOffset) :
  map_watermarks lowPartitions highPartitions = Return entries ->
  Forall2
    (fun h e =>
       partition e = po_partition h /\ offset e = po_offset h
       /\ high e = po_offset h
       /\ exists l, In l lowPartitions
                    /\ po_partition l = po_partition h
                    /\ low e = po_offset l)
    highPartitions entries.
Proof.
  revert entries.
  induction highPartitions as [|h hs IH]; intros entries H; cbn in H.
  - injection H as <-. constructor.
  - unfold pair_watermarks in H.
    destruct (List.find (fun l => N.eqb (po_partition l) (po_partition h))
                lowPartitions) as [l|] eqn:Hfind; [|discriminate H].
    destruct (map_watermarks lowPartitions hs) as [xs|] eqn:Hrest;
      [|discriminate H].
    injection H as <-. constructor; [|apply IH; reflexivity].
    apply find_some in Hfind. destruct Hfind as [Hin Heq].
    apply N.eqb_eq in Heq. cbn. repeat split; eauto.
Qed.

(** C7.  With a cluster that answers an offset query with the queried
    partitions and whose from-beginning offsets are not above its
    from-end offsets: a successful [fetchTopicOffsets] returns, for the
    partition metadata the cluster listed for the topic in the attempt
    that went through (its calls end the log), exactly one entry per
    partition id (as many entries as partitions).  The entries follow the
    from-end answer of that attempt, partition by partition: an entry has
    the partition of its answer, the offset of that answer as [offset] and
    as [high], and as [low] the offset of a from-beginning answer for the
    same partition; hence [offset = high] and [low <= high]. *)
Theorem fetchTopicOffsets_one_entry_per_partition :
  forall (L : Type) (topic : JsValue) (s s' : State World L)
         (entries : list TopicOffset),
    answers_every_partition env ->
    low_below_high env ->
    fetchTopicOffsets env cfg topic s = (Return entries, s') ->
    exists w1 metadata w2 before fromEnd w3 fromBeginning w4 hs ls,
      cluster_findTopicPartitionMetadata env topic w1 = (Return metadata, w2)
      /\ cluster_fetchTopicsOffset env (offsets_query topic false metadata) w2
         = (Return fromEnd, w3)
      /\ cluster_fetchTopicsOffset env (offsets_query topic true metadata) w3
         = (Return fromBeginning, w4)
      /\ pop_partitions fromEnd = Return hs
      /\ pop_partitions fromBeginning = Return ls
      /\ calls s' = before ++ watermark_calls topic metadata
      /\ Permutation (List.map partition entries)
           (List.map partitionId metadata)
      /\ List.length entries = List.length metadata
      /\ Forall2 (pairs_watermarks ls) hs entries
      /\ Forall (fun e => offset e = high e /\ (low e <= high e)%Z) entries.
Proof.
  intros L topic s s' entries Hshape Hwater Hrun.
  unfold fetchTopicOffsets in Hrun.
  destruct (negb (Js.truthy topic)
            || negb (String.eqb (Js.typeof topic) "string"));
    [discriminate Hrun|].
  apply retrier_from_returns in Hrun. destruct Hrun as (k & s0 & Hattempt).
  unfold fetchTopicOffsets_attempt, try_catch in Hattempt.
  destruct (fetchTopicOffsets_try env topic s0) as [[a|e] s1] eqn:Htry;
    [|exfalso; eapply fetchTopicOffsets_catch_inv; eassumption].
  injection Hattempt as -> ->.
  apply fetchTopicOffsets_try_inv in Htry.
  destruct Htry as (wa & wb & metadata & wc & fromEnd & wd & fromBeginning
                    & we & _ & _ & Hmd & Hhigh & Hlow & Hcalls
                    & hs & ls & Hhs & Hls & Hmap).
  apply map_watermarks_inv in Hmap.
  exists wb, metadata, wc, (calls s0), fromEnd, wd, fromBeginning, we, hs, ls.
  split; [exact Hmd|]. split; [exact Hhigh|]. split; [exact Hlow|].
  split; [exact Hhs|]. split; [exact Hls|]. split; [exact Hcalls|].
  assert (Hparts : List.map partition entries = List.map po_partition hs).
  { clear -Hmap. induction Hmap as [|h e hs' es (Hp & _) _ IH];
      [reflexivity|]. cbn. rewrite Hp, IH. reflexivity. }
  pose proof (Hshape _ _ _ _ _ _ _ Hhigh Hhs) as Hperm.
  split; [rewrite Hparts; exact Hperm|].
  split.
  { rewrite <- (length_map partition entries), Hparts.
    rewrite (Permutation_length Hperm). apply length_map. }
  split; [exact Hmap|].
  pose proof (Hwater _ _ _ _ _ _ _ _ _ Hhigh Hlow Hhs Hls) as Hle.
  clear -Hmap Hle.
  induction Hmap as [|h e hs' es (Hp & Ho & Hh & l & Hin & Hpl & Hl) _ IH];
    constructor.
  - split; [congruence|]. rewrite Hl, Hh. apply Hle; simpl; auto.
  - apply IH. intros h' l' Hh' Hl' Heq. apply Hle; simpl; auto.
Qed.

(** *** deleteGroups: objects keyed by node id *)

Lemma obj_set_keys_In {V} (k : N) (v : V) (o : list (N * V)) (x : N) :
  In x (obj_keys (obj_set k v o)) -> x = k \/ In x (obj_keys o).
Proof.
  induction o as [|[k' v'] o IH]; cbn.
  - intros [<-|[]]. left. reflexivity.
  - destruct (N.eqb k k') eqn:E; [apply N.eqb_eq in E; subst; cbn; tauto|].
    destruct (N.ltb k k'); cbn; [intuition auto|].
    intros [<-|H]; [tauto|]. apply IH in H. tauto.
Qed.

Lemma obj_set_ascending {V} (k : N) (v : V) (o : list (N * V)) :
  ascending o -> ascending (obj_set k v o).
Proof.
  unfold ascending. induction o as [|[k' v'] o IH]; cbn; intros H.
  - constructor; constructor.
  - inversion H as [|? ? Hs Hall]; subst.
    destruct (N.eqb k k') eqn:E.
    { apply N.eqb_eq in E. subst. cbn. constructor; assumption. }
    destruct (N.ltb k k') eqn:Elt; cbn.
    + apply N.ltb_lt in Elt. constructor; [exact H|].
      constructor; [exact Elt|].
      eapply Forall_impl; [|exact Hall]. intros a Ha. cbn in Ha. lia.
    + apply N.ltb_ge in Elt. apply N.eqb_neq in E.
      constructor; [apply IH, Hs|].
      apply Forall_forall. intros x Hx. apply obj_set_keys_In in Hx.
      destruct Hx as [->|Hx]; [lia|].
      rewrite Forall_forall in Hall. apply Hall, Hx.
Qed.






(** *** deleteGroups: the fan-out *)





(** The fan-out leaves the closure variables alone. *)
Lemma call_locals {L A} (c : Call) (f : World -> Completion A * World)
    (s : State World L) :
  locals (snd (call c f s)) = locals s.
Proof. unfold call. destruct (f (world s)). reflexivity. Qed.

Lemma assign_coordinators_locals {L} (ids : list string) pg pn
    (s : State World L) :
  locals (snd (assign_coordinators env ids pg pn s)) = locals s.
Proof.
  revert pg pn s. induction ids as [|group ids IH]; intros pg pn s;
    [reflexivity|].
  cbn [assign_coordinators]. unfold bind at 1.
  pose proof (call_locals (Cluster_findGroupCoordinator group)
                (cluster_findGroupCoordinator env group) s) as Hc.
  destruct (call (Cluster_findGroupCoordinator group)
              (cluster_findGroupCoordinator env group) s) as [[b|e] s1];
    cbn [snd] in *; [|exact Hc].
  rewrite IH. exact Hc.
Qed.

Lemma deleteGroups_request_locals {L} pg pn (n : N) (s : State World L) :
  locals (snd (deleteGroups_request env pg pn n s)) = locals s.
Proof.
  unfold deleteGroups_request.
  destruct (obj_get n pn); [|reflexivity].
  destruct (obj_get n pg); [apply call_locals|reflexivity].
Qed.

Lemma promise_all_locals {L A} (ms : list (M World L A)) :
  (forall m, In m ms -> forall s, locals (snd (m s)) = locals s) ->
  forall s, locals (snd (promise_all ms s)) = locals s.
Proof.
  induction ms as [|m ms IH]; intros Hms s; [reflexivity|].
  cbn [promise_all].
  pose proof (Hms m (or_introl eq_refl) s) as Hm.
  destruct (m s) as [r s1]. cbn [snd] in Hm.
  pose proof (IH (fun m' H => Hms m' (or_intror H)) s1) as Hrest.
  destruct (promise_all ms s1) as [rs s2]. cbn [snd] in *. congruence.
Qed.

Lemma deleteGroups_fanout_locals {L} (ids : list string) (s : State World L) :
  locals (snd (deleteGroups_fanout env ids s)) = locals s.
Proof.
  unfold deleteGroups_fanout. unfold bind at 1.
  pose proof (call_locals Cluster_refreshMetadata
                (cluster_refreshMetadata env) s) as Hc.
  destruct (call Cluster_refreshMetadata (cluster_refreshMetadata env) s)
    as [[[]|e] s1]; cbn [snd] in *; [|exact Hc].
  unfold bind at 1.
  pose proof (assign_coordinators_locals ids (@nil (N * list string))
                (@nil (N * Broker)) s1) as Ha.
  destruct (assign_coordinators env ids [] [] s1) as [[objs|e] s2];
    cbn [snd] in *; [|congruence].
  rewrite promise_all_locals; [congruence|].
  intros m Hin. apply in_map_iff in Hin. destruct Hin as (n & <- & _).
  apply deleteGroups_request_locals.
Qed.

Lemma detail_same (r : GroupResult) : detail r = r.
Proof. destruct r. reflexivity. Qed.

Lemma errors_of_failed (res : list (list GroupResult)) :
  errors_of res = List.filter failed (flatten res).
Proof.
  unfold errors_of. f_equal. f_equal.
  rewrite <- (map_id res) at 2. apply map_ext. intros l.
  rewrite <- (map_id l) at 2. apply map_ext, detail_same.
Qed.

Lemma deleteGroups_attempt_eq (k : nat) (s : State World DeleteGroupsVars) :
  deleteGroups_attempt env k s
  = let ids := clonedGroupIds (locals s) in
    if Nat.eqb (List.length ids) 0 then (Return (Resolved []), s)
    else
      match deleteGroups_fanout env ids s with
      | (Throw e, s1) => deleteGroups_catch e s1
      | (Return res, s1) =>
          let errors := errors_of res in
          if Nat.ltb 0 (List.length errors) then
            (Return (Bailed (KafkaJSDeleteGroupsError
                               [Lit "Error in DeleteGroups"] errors)),
             after_attempt s1
               (mkDeleteGroupsVars (results (locals s))
                  (List.map groupId errors)))
          else
            (Return (Resolved (flatten res)),
             after_attempt s1
               (mkDeleteGroupsVars (flatten res) (List.map groupId errors)))
      end.
Proof.
  unfold deleteGroups_attempt, try_catch.
  unfold bind at 1, get_locals at 1. cbv zeta.
  destruct (Nat.eqb (List.length (clonedGroupIds (locals s))) 0);
    [reflexivity|].
  unfold bind at 1.
  destruct (deleteGroups_fanout env (clonedGroupIds (locals s)) s)
    as [[res|e] s1]; [|reflexivity].
  unfold bind at 1, set_locals at 1.
  destruct (Nat.ltb 0 (List.length (errors_of res))); reflexivity.
Qed.








(** C3.  An attempt of [deleteGroups] whose requests were all answered
    and whose flattened per-group results hold an entry with a non-zero
    error code: (1) leaves in [clonedGroupIds], the target of a next
    attempt, exactly the group ids of the failed entries; (2) raises the
    aggregate error that carries these failed entries; the error has no
    type the catch clause retries on, so it is handed to [bail]: (3) the
    retrier rejects with it and makes no later attempt, whatever the
    retries left, so no group is asked for again. *)
Theorem deleteGroups_shrinks_to_failed :
  forall (k : nat) (s s1 : State World DeleteGroupsVars)
         (res : list (list GroupResult)),
    clonedGroupIds (locals s) <> [] ->
    deleteGroups_fanout env (clonedGroupIds (locals s)) s = (Return res, s1) ->
    List.filter failed (flatten res) <> [] ->
    let errors := List.filter failed (flatten res) in
    let failure := KafkaJSDeleteGroupsError [Lit "Error in DeleteGroups"] errors in
    let s2 :=
      after_attempt s1
        (mkDeleteGroupsVars (results (locals s)) (List.map groupId errors)) in
    clonedGroupIds (locals s2) = List.map groupId errors
    /\ deleteGroups_attempt env k s = (Return (Bailed failure), s2)
    /\ (forall left,
          retrier_from left k (deleteGroups_attempt env) s = (Throw failure, s2))
    /\ calls s2 = calls s1.
Proof.
  intros k s s1 res Hids Hfan Herrors errors failure s2.
  assert (Hattempt : deleteGroups_attempt env k s = (Return (Bailed failure), s2)).
  { rewrite deleteGroups_attempt_eq. cbv zeta.
    destruct (clonedGroupIds (locals s)) as [|g ids] eqn:E; [contradiction|].
    change (Nat.eqb (List.length (g :: ids)) 0) with false. cbv iota.
    rewrite Hfan, errors_of_failed. fold errors.
    destruct errors as [|x l] eqn:Ee; [contradiction|]. reflexivity. }
  split; [reflexivity|]. split; [exact Hattempt|]. split; [|reflexivity].
  intros left. rewrite retrier_from_eq, Hattempt. reflexivity.
Qed.

(** *** setOffsets and resetOffsets *)

Lemma group_state_checked (d : GroupDescription) :
  isConsumerGroupRunning d = true <-> state d = "Empty" \/ state d = "Dead".
Proof.
  unfold isConsumerGroupRunning. cbn [existsb]. rewrite orb_false_r.
  rewrite orb_true_iff, !String.eqb_eq. reflexivity.
Qed.

Lemma for_each_seek {L} (group topic : JsValue) (seeks : list SeekEntry)
    (s : State World L) :
  for_each
    (fun seekData =>
       call_ (Consumer_seek group topic seekData)
         (consumer_seek env group topic seekData))
    seeks s
  = (Return tt,
     mkState (seek_all env group topic seeks (world s))
       (calls s ++ List.map (Consumer_seek group topic) seeks) (locals s)).
Proof.
  revert s. induction seeks as [|x l IH]; intros s.
  - destruct s. simpl. rewrite app_nil_r. reflexivity.
  - cbn [for_each]. unfold bind at 1, call_ at 1. rewrite IH.
    cbn [world calls locals List.map seek_all fold_left].
    rewrite <- app_assoc. reflexivity.
Qed.

(** C4.  Once [setOffsets] has subscribed its consumer and obtained the
    description of the group: a state other than Empty and Dead makes it
    raise a [KafkaJSNonRetriableError], and the log then ends with the
    description (no [run], no [pause], no [seek]); with the state Empty or
    Dead it registers the FETCH listener, starts [run], pauses the topic
    and seeks every listed partition to its requested offset, in order.
    [resetOffsets] computes its seek targets and continues as
    [setOffsets]. *)
Theorem setOffsets_terminal_state_guard :
  forall (L : Type) (group topic : JsValue) (seeks : list SeekEntry)
         (s : State World L) (w1 w2 : World) (d : GroupDescription),
    Js.truthy group = true ->
    Js.truthy topic = true ->
    seeks <> [] ->
    consumer_subscribe env group topic (world s) = (Return tt, w1) ->
    consumer_describeGroup env group w1 = (Return d, w2) ->
    let described :=
      calls s ++ [Consumer_subscribe group topic; Consumer_describeGroup group]
    in
    (state d <> "Empty" -> state d <> "Dead" ->
     setOffsets env group topic (Some seeks) s
     = (Throw (KafkaJSNonRetriableError
          [Lit "The consumer group must have no running instances, current state: ";
           Sub (JStr (state d))]),
        mkState w2 described (locals s)))
    /\ (state d = "Empty" \/ state d = "Dead" ->
        setOffsets env group topic (Some seeks) s
        = (Return tt,
           mkState
             (seek_all env group topic seeks
                (consumer_pause env group topic
                   (consumer_run env group (consumer_on_FETCH env group w2))))
             (described
                ++ [Consumer_on_FETCH group; Consumer_run group;
                    Consumer_pause group topic]
                ++ List.map (Consumer_seek group topic) seeks)
             (locals s)))
    /\ (forall (earliest : JsValue) (s0 : State World L),
          partitionsToSeek env topic (default_false earliest) s0
          = (Return seeks, s) ->
          resetOffsets env group topic earliest s0
          = setOffsets env group topic (Some seeks) s).
Proof.
  intros L group topic seeks s w1 w2 d Hg Ht Hne Hsub Hdesc described.
  assert (Hlen : Nat.eqb (List.length seeks) 0 = false)
    by (destruct seeks; [contradiction|reflexivity]).
  assert (Hrun :
    setOffsets env group topic (Some seeks) s
    = (if negb (isConsumerGroupRunning d) then
         throw (KafkaJSNonRetriableError
           [Lit "The consumer group must have no running instances, current state: ";
            Sub (JStr (state d))])
       else
         call_ (Consumer_on_FETCH group) (consumer_on_FETCH env group) ;;;
         call_ (Consumer_run group) (consumer_run env group) ;;;
         call_ (Consumer_pause group topic) (consumer_pause env group topic) ;;;
         for_each
           (fun seekData =>
              call_ (Consumer_seek group topic seekData)
                (consumer_seek env group topic seekData))
           seeks)
        (mkState w2 described (locals s))).
  { unfold setOffsets. rewrite Hg, Ht, Hlen. cbn [negb].
    unfold bind at 1, call at 1. rewrite Hsub.
    unfold bind at 1, call at 1. cbn [world calls locals]. rewrite Hdesc.
    unfold described. rewrite <- app_assoc. reflexivity. }
  split; [|split].
  - intros HE HD. rewrite Hrun.
    destruct (isConsumerGroupRunning d) eqn:E; [|reflexivity].
    apply group_state_checked in E. tauto.
  - intros Hst. rewrite Hrun.
    apply group_state_checked in Hst. rewrite Hst. cbn [negb].
    set (seek := for_each _ seeks).
    unfold bind, call_. cbn [world calls locals].
    subst seek. rewrite for_each_seek. cbn [world calls locals].
    rewrite <- !app_assoc. reflexivity.
  - intros earliest s0 Hseeks. unfold resetOffsets. rewrite Hg, Ht.
    cbn [negb]. unfold bind at 1. rewrite Hseeks. reflexivity.
Qed.

(** *** describeCluster *)

Lemma controller_null_iff (c : JsValue) :
  loosely_null c || Js.is_number c NO_CONTROLLER_ID = true <-> no_controller c.
Proof.
  unfold no_controller, NO_CONTROLLER_ID. split.
  - destruct c; simpl; intros H; try discriminate H; auto.
    apply Z.eqb_eq in H. subst. auto.
  - intros [->|[->| ->]]; reflexivity.
Qed.

(** C10.  When the cluster answers the metadata query, [describeCluster]
    returns [controller = null] exactly when the [controllerId] of the
    metadata is [null], [undefined] or -1, and the [controllerId] itself
    otherwise; its broker list has, for each broker of the metadata in
    order, an object with exactly the fields nodeId, host and port, read
    from that broker. *)
Theorem describeCluster_controller_and_brokers :
  forall (L : Type) (s : State World L) (md : ClusterMetadata) (w' : World),
    cluster_metadata env [] (world s) = (Return md, w') ->
    exists d,
      describeCluster env s
      = (Return d, mkState w' (calls s ++ [Cluster_metadata []]) (locals s))
      /\ (controller d = JNull <-> no_controller (md_controllerId md))
      /\ (~ no_controller (md_controllerId md) ->
          controller d = md_controllerId md)
      /\ clusterId d = md_clusterId md
      /\ Forall2
           (fun node b =>
              keys_of b = ["nodeId"; "host"; "port"]
              /\ forall k, In k ["nodeId"; "host"; "port"] ->
                           field k b = Js.lookup k node)
           (md_brokers md) (brokers d).
Proof.
  intros L s md w' Hmd. eexists. split.
  { unfold describeCluster, bind, call. rewrite Hmd. reflexivity. }
  cbn [controller clusterId brokers].
  pose proof (controller_null_iff (md_controllerId md)) as Hiff.
  destruct (loosely_null (md_controllerId md)
            || Js.is_number (md_controllerId md) NO_CONTROLLER_ID) eqn:E.
  - split; [split; intros _; [apply Hiff|]; reflexivity|].
    split; [intros Hn; exfalso; apply Hn, Hiff; reflexivity|].
    split; [reflexivity|]. induction (md_brokers md); constructor; auto.
    split; [reflexivity|]. intros k [<-|[<-|[<-|[]]]]; reflexivity.
  - split.
    { split; intros H; [left; exact H|apply Hiff in H; discriminate H]. }
    split; [reflexivity|]. split; [reflexivity|].
    induction (md_brokers md); constructor; auto.
    split; [reflexivity|]. intros k [<-|[<-|[<-|[]]]]; reflexivity.
Qed.

End AdminProperties.


(** ** Runs on the scripted cluster *)

(** The cases of the test suite of [createAcls]. *)
Example createAcls_not_an_array :
  createAcls (simulate healthy) five_retries kafka_enums
    (JStr "this-is-not-an-array") start
  = (Throw (KafkaJSNonRetriableError
              [Lit "Invalid ACL array "; Sub (JStr "this-is-not-an-array")]),
     start).
Proof. reflexivity. Qed.

Example createAcls_invalid_operation :
  createAcls (simulate healthy) five_retries kafka_enums
    (JArr [acl_entry (JNum 123)]) start
  = (Throw (KafkaJSNonRetriableError
              [Lit "Invalid operation type "; Sub (JNum 123); Lit ": ";
               SubJSON (acl_entry (JNum 123))]),
     start).
Proof. reflexivity. Qed.

Example createAcls_accepted :
  createAcls (simulate healthy) five_retries kafka_enums
    (JArr [acl_entry (JNum 2)]) start
  = (Return true,
     mkState (mkSim 1 0 [])
       [Cluster_refreshMetadata; Cluster_findControllerBroker;
        Broker_createAcls (mkBroker 0) (JArr [acl_entry (JNum 2)])]
       tt).
Proof. reflexivity. Qed.



(** A call-level failure makes [deleteGroups] go through all the groups
    again, also those a coordinator had already answered for. *)
Example deleteGroups_retried_after_call_failure :
  deleteGroups (simulate coordinator_down_once) five_retries
    (JArr (List.map JStr abc)) start
  = (Return (deleted ["b"; "a"; "c"]),
     mkState (mkSim 2 0 [])
       [Cluster_refreshMetadata; Cluster_findGroupCoordinator "a";
        Cluster_findGroupCoordinator "b"; Cluster_findGroupCoordinator "c";
        Broker_deleteGroups (mkBroker 1) ["b"];
        Broker_deleteGroups (mkBroker 2) ["a"; "c"];
        Cluster_refreshMetadata; Cluster_findGroupCoordinator "a";
        Cluster_findGroupCoordinator "b"; Cluster_findGroupCoordinator "c";
        Broker_deleteGroups (mkBroker 1) ["b"];
        Broker_deleteGroups (mkBroker 2) ["a"; "c"]]
       tt).
Proof. reflexivity. Qed.

(** A group-level failure ends [deleteGroups] at once. *)
Example deleteGroups_group_failure_is_fatal :
  deleteGroups (simulate group_b_busy) five_retries
    (JArr (List.map JStr abc)) start
  = (Throw b_is_busy, mkState (mkSim 1 0 []) busy_calls tt).
Proof. reflexivity. Qed.







Lemma deleteGroups_shrinks_to_failed_witness :
  clonedGroupIds (locals busy_end) = ["b"]
  /\ deleteGroups_attempt (simulate group_b_busy) 0 deleting_abc
     = (Return (Bailed b_is_busy), busy_end)
  /\ retrier_from 5 0 (deleteGroups_attempt (simulate group_b_busy))
       deleting_abc
     = (Throw b_is_busy, busy_end)
  /\ calls busy_end = calls busy_fanned.
Proof.
  assert (Hids : clonedGroupIds (locals deleting_abc) <> [])
    by discriminate.
  assert (Herrors : List.filter failed (flatten busy_answers) <> [])
    by discriminate.
  destruct (deleteGroups_shrinks_to_failed _ (simulate group_b_busy) 0
              deleting_abc busy_fanned busy_answers Hids eq_refl Herrors)
    as (H1 & H2 & H3 & H4).
  split; [exact H1|]. split; [exact H2|]. split; [exact (H3 5)|exact H4].
Defined.

Example setOffsets_seeks_when_empty :
  setOffsets (simulate healthy) (JStr "g") (JStr "t") (Some seek_first) start
  = (Return tt,
     mkState (mkSim 0 0 [])
       (described
          ++ [Consumer_on_FETCH (JStr "g"); Consumer_run (JStr "g");
              Consumer_pause (JStr "g") (JStr "t");
              Consumer_seek (JStr "g") (JStr "t")
                (mkSeekEntry (JNum 0) (JStr "5"))])
       tt).
Proof. reflexivity. Qed.

Lemma setOffsets_terminal_state_guard_witness :
  setOffsets (simulate (with_group_state "Stable" healthy)) (JStr "g") (JStr "t")
    (Some seek_first) start
  = (Throw (KafkaJSNonRetriableError
       [Lit "The consumer group must have no running instances, current state: ";
        Sub (JStr "Stable")]),
     mkState (mkSim 0 0 []) described tt).
Proof.
  assert (Hseeks : seek_first <> []) by discriminate.
  destruct (setOffsets_terminal_state_guard _
              (simulate (with_group_state "Stable" healthy)) unit
              (JStr "g") (JStr "t") seek_first start (mkSim 0 0 [])
              (mkSim 0 0 []) (mkGroupDescription "Stable") eq_refl eq_refl
              Hseeks eq_refl eq_refl)
    as (Hrefuses & _ & _).
  apply Hrefuses; discriminate.
Defined.

Lemma one_topic_valid : valid_topics one_topic ["t"].
Proof.
  split; [repeat constructor|].
  repeat constructor. intros [].
Qed.

Lemma first_attempt {L A : Type} (cfg : Config)
    (fn : nat -> M Sim L (Attempt A)) (s : State Sim L) :
  attempt_reached cfg fn s 0 s.
Proof. split; [constructor|apply Nat.le_0_l]. Qed.

Lemma createTopics_true_or_false_witness :
  createTopics (simulate healthy) five_retries (JArr one_topic) JUndefined
    JUndefined JUndefined start
  = (Return true, created_once)
  /\ createTopics (simulate healthy) five_retries (JArr one_topic) JUndefined
       JUndefined JUndefined created_once
     = (Return false, created_twice).
Proof.
  split.
  - destruct (createTopics_true_or_false _ (simulate healthy) five_retries unit
                one_topic ["t"] JUndefined JUndefined JUndefined start start 0
                (mkSim 1 0 []) (mkSim 1 0 []) (mkBroker 0) one_topic_valid
                (first_attempt _ _ _) eq_refl eq_refl) as (Hcreated & _).
    destruct (Hcreated (mkSim 1 0 ["t"]) eq_refl) as (_ & Hwaited).
    apply (Hwaited (JObj [("topicMetadata", JArr [])]) created_once eq_refl).
    reflexivity.
  - destruct (createTopics_true_or_false _ (simulate healthy) five_retries unit
                one_topic ["t"] JUndefined JUndefined JUndefined created_once
                created_once 0 (mkSim 2 1 ["t"]) (mkSim 2 1 ["t"]) (mkBroker 0)
                one_topic_valid (first_attempt _ _ _) eq_refl eq_refl)
      as (_ & Hexists).
    apply (Hexists (Thrown (Some "TOPIC_ALREADY_EXISTS")
                      "Topic with this name already exists")
             (mkSim 2 1 ["t"]) eq_refl eq_refl).
Defined.

(** The create call of the broker succeeds, the leaders never show up:
    [createTopics] rejects. *)
Lemma createTopics_created_yet_rejected :
  ~ (forall w3,
       broker_createTopics (simulate leaderless) (mkBroker 0) (JArr one_topic)
         JUndefined JUndefined (mkSim 1 0 [])
       = (Return tt, w3) ->
       fst (createTopics (simulate leaderless) five_retries (JArr one_topic)
              JUndefined JUndefined JUndefined start)
       = Return true).
Proof.
  intros H. specialize (H (mkSim 1 0 ["t"]) eq_refl).
  vm_compute in H. discriminate H.
Qed.

Lemma leader_wait_timeout_is_distinct_witness :
  createTopics (simulate leaderless) five_retries (JArr one_topic) JUndefined
    JUndefined JUndefined start
  = (Throw (KafkaJSTimeout [Lit "Timed out while waiting for topic leaders"]),
     leaders_timed_out).
Proof.
  destruct (leader_wait_timeout_is_distinct _ (simulate leaderless) five_retries
              unit one_topic ["t"] JUndefined JUndefined JUndefined start start
              0 (mkSim 1 0 []) (mkSim 1 0 []) (mkSim 1 0 ["t"]) (mkBroker 0)
              one_topic_valid eq_refl (first_attempt _ _ _) eq_refl eq_refl
              eq_refl) as (_ & _ & Htimeout & _).
  apply Htimeout.
  eapply unready_again; [reflexivity|reflexivity|].
  eapply unready_again; [reflexivity|reflexivity|].
  eapply unready_again; [reflexivity|reflexivity|].
  apply unready_done.
Defined.

Lemma simulate_answers_every_partition (sc : Script) :
  answers_every_partition (simulate sc).
Proof.
  intros topic fromBeginning metadata w w' answer ps H Hps.
  cbn in H. injection H as <- _. cbn in Hps. injection Hps as <-.
  rewrite map_map. cbn. rewrite map_id. symmetry. apply Permutation_rev.
Qed.

Lemma simulate_low_below_high (sc : Script) :
  (forall p, (fst (watermarks sc p) <= snd (watermarks sc p))%Z) ->
  low_below_high (simulate sc).
Proof.
  intros Hsc topic metadata w1 w2 w3 high low hs ls Hh Hl Hhs Hls h l Hin Hil Heq.
  cbn in Hh, Hl. injection Hh as <- _. injection Hl as <- _.
  cbn in Hhs, Hls. injection Hhs as <-. injection Hls as <-.
  apply in_map_iff in Hin. destruct Hin as (p & <- & _).
  apply in_map_iff in Hil. destruct Hil as (q & <- & _).
  cbn in *. subst q. apply Hsc.
Qed.

Lemma healthy_watermarks :
  forall p, (fst (watermarks healthy p) <= snd (watermarks healthy p))%Z.
Proof. intros p. change (0 <= 10 + Z.of_N p)%Z. lia. Qed.

Lemma fetchTopicOffsets_one_entry_per_partition_witness :
  exists w1 metadata w2 before fromEnd w3 fromBeginning w4 hs ls,
    cluster_findTopicPartitionMetadata (simulate healthy) (JStr "t") w1
    = (Return metadata, w2)
    /\ cluster_fetchTopicsOffset (simulate healthy)
         (offsets_query (JStr "t") false metadata) w2
       = (Return fromEnd, w3)
    /\ cluster_fetchTopicsOffset (simulate healthy)
         (offsets_query (JStr "t") true metadata) w3
       = (Return fromBeginning, w4)
    /\ pop_partitions fromEnd = Return hs
    /\ pop_partitions fromBeginning = Return ls
    /\ calls
         (snd (fetchTopicOffsets (simulate healthy) five_retries (JStr "t")
                 start))
       = before ++ watermark_calls (JStr "t") metadata
    /\ Permutation (List.map partition healthy_offsets)
         (List.map partitionId metadata)
    /\ List.length healthy_offsets = List.length metadata
    /\ Forall2 (pairs_watermarks ls) hs healthy_offsets
    /\ Forall (fun e => offset e = high e /\ (low e <= high e)%Z)
         healthy_offsets.
Proof.
  eapply (fetchTopicOffsets_one_entry_per_partition _ (simulate healthy)
            five_retries unit (JStr "t") start
            (snd (fetchTopicOffsets (simulate healthy) five_retries (JStr "t")
                    start))
            healthy_offsets
            (simulate_answers_every_partition healthy)
            (simulate_low_below_high healthy healthy_watermarks)).
  vm_compute. reflexivity.
Defined.



Lemma deleteGroups_invalid_id_message_witness :
  exists m,
    deleteGroups (simulate healthy) five_retries (JArr [JStr "a"; JNum 1]) start
    = (Throw (KafkaJSNonRetriableError m), start)
    /\ m = [Lit "Invalid groupId name: "; SubJSON (JBool true)]
    /\ forall g, In g [JStr "a"; JNum 1] -> g <> JBool true -> ~ mentions m g.
Proof.
  apply deleteGroups_invalid_id_message. reflexivity.
Defined.

Example describeCluster_without_controller :
  fst (describeCluster (simulate (with_controller (JNum (-1)) healthy)) start)
  = Return
      (mkClusterDescription
         [JObj [("nodeId", JNum 0); ("host", JStr "kafka-0");
                ("port", JNum 9092)];
          JObj [("nodeId", JNum 1); ("host", JStr "kafka-1");
                ("port", JNum 9092)]]
         JNull (JStr "cluster-1")).
Proof. reflexivity. Qed.

Lemma describeCluster_controller_and_brokers_witness :
  exists d,
    describeCluster (simulate healthy) start
    = (Return d, mkState (mkSim 0 0 []) [Cluster_metadata []] tt)
    /\ (controller d = JNull <-> no_controller (JNum 0))
    /\ (~ no_controller (JNum 0) -> controller d = JNum 0)
    /\ clusterId d = JStr "cluster-1"
    /\ Forall2
         (fun node b =>
            keys_of b = ["nodeId"; "host"; "port"]
            /\ forall k, In k ["nodeId"; "host"; "port"] ->
                         field k b = Js.lookup k node)
         (md_brokers (cluster_info healthy)) (brokers d).
Proof.
  apply (describeCluster_controller_and_brokers _ (simulate healthy) unit start
           (cluster_info healthy) (mkSim 0 0 [])).
  reflexivity.
Defined.

(** ** Further properties *)

Section MoreProperties.

Variable World : Type.
Variable env : Env World.
Variable env2 : Env2 World.
Variable cfg : Config.
Variable enums : Enums.

(** *** createAcls: batches that pass the validation *)

Lemma existsb_find_none {A} (p : A -> bool) (l : list A) :
  existsb p l = false -> List.find p l = None.
Proof.
  induction l as [|x l IH]; cbn; [reflexivity|].
  destruct (p x); [discriminate|]. exact IH.
Qed.

(** A batch that violates no rule passes every check of [createAcls]. *)
Lemma createAcls_validated {L} (acl : JsValue) (s : State World L) :
  entries_present acl = true ->
  well_formed enums acl = true ->
  createAcls env cfg enums acl s = retrier cfg (createAcls_attempt env acl) s.
Proof.
  unfold well_formed, malformed, acl_precedence, entries_present.
  intros Hpresent Hgood. apply negb_true_iff in Hgood.
  cbn [existsb] in Hgood. rewrite orb_false_r in Hgood.
  repeat (apply orb_false_iff in Hgood;
          let H := fresh "Hrule" in destruct Hgood as [H Hgood]).
  destruct acl as [| | | | |items|]; try discriminate Hrule.
  destruct items as [|x l]; [discriminate Hrule|].
  assert (Hlen : Nat.eqb (List.length (x :: l)) 0 = false) by reflexivity.
  revert Hpresent Hgood Hrule0 Hrule1 Hrule2 Hrule3 Hrule4 Hrule5 Hlen.
  generalize (x :: l). clear x l Hrule.
  intros items Hpresent Hres Hprincipal Hhost Hname Hop Hpat Hperm Hlen.
  cbn [violates Js.items_of breaks] in *.
  unfold createAcls. cbn [Js.truthy Js.isArray negb orb Js.items_of].
  rewrite Hlen.
  unfold bind at 1, lift at 1.
  rewrite (some_field_not_string "principal" _ Hpresent), Hprincipal.
  unfold bind at 1, lift at 1.
  rewrite (some_field_not_string "host" _ Hpresent), Hhost.
  unfold bind at 1, lift at 1.
  rewrite (some_field_not_string "resourceName" _ Hpresent), Hname.
  rewrite (enum_check World _ _ _ _ _ s Hpresent Hprincipal).
  rewrite (existsb_find_none _ _ Hop).
  rewrite (enum_check World _ _ _ _ _ s Hpresent Hprincipal).
  rewrite (existsb_find_none _ _ Hpat).
  rewrite (enum_check World _ _ _ _ _ s Hpresent Hprincipal).
  rewrite (existsb_find_none _ _ Hperm).
  rewrite (enum_check World _ _ _ _ _ s Hpresent Hprincipal).
  rewrite (existsb_find_none _ _ Hres).
  reflexivity.
Qed.

(** X1.  A batch of ACL entries that violates no validation rule is handed
    to the controller as it is: after the metadata refresh and the lookup
    of the controller, when the broker accepts the batch, [createAcls]
    resolves to [true], and these three calls are all it made. *)
Theorem createAcls_well_formed_accepted :
  forall (L : Type) (acl : JsValue) (s : State World L) (w1 w2 w3 : World)
         (b : Broker),
    entries_present acl = true ->
    well_formed enums acl = true ->
    cluster_refreshMetadata env (world s) = (Return tt, w1) ->
    cluster_findControllerBroker env w1 = (Return b, w2) ->
    broker_createAcls env b acl w2 = (Return tt, w3) ->
    createAcls env cfg enums acl s
    = (Return true,
       mkState w3 (calls s ++ controller_calls ++ [Broker_createAcls b acl])
         (locals s)).
Proof.
  intros L acl s w1 w2 w3 b Hpresent Hgood Hrefresh Hcontroller Hbroker.
  rewrite (createAcls_validated _ _ Hpresent Hgood).
  unfold retrier. rewrite retrier_from_eq.
  unfold createAcls_attempt, try_catch.
  unfold bind at 1, call at 1. rewrite Hrefresh.
  unfold bind at 1, call at 1. cbn [world calls locals]. rewrite Hcontroller.
  unfold bind at 1, call at 1. cbn [world calls locals]. rewrite Hbroker.
  unfold ret, controller_calls. rewrite <- !app_assoc. reflexivity.
Qed.

(** *** createTopics: repeated names and errors of the create call *)

Lemma Set_of_length (names seen : list string) :
  List.length (Set_of seen names) <= List.length names.
Proof.
  revert seen. induction names as [|n l IH]; intros seen; cbn; [lia|].
  destruct (existsb (String.eqb n) seen); cbn.
  - specialize (IH seen). lia.
  - specialize (IH (n :: seen)). lia.
Qed.

Lemma Set_of_shorter (names seen : list string) :
  ~ (NoDup names /\ forall n, In n names -> ~ In n seen) ->
  List.length (Set_of seen names) < List.length names.
Proof.
  revert seen. induction names as [|n l IH]; intros seen Hdup.
  - exfalso. apply Hdup. split; [constructor|intros ? []].
  - cbn [Set_of]. destruct (existsb (String.eqb n) seen) eqn:E.
    + pose proof (Set_of_length l seen). cbn. lia.
    + cbn. apply -> Nat.succ_lt_mono. apply IH. intros [Hnd Hfresh].
      apply Hdup. split.
      * constructor; [|exact Hnd]. intros Hin.
        apply (Hfresh n Hin). left. reflexivity.
      * intros m [<-|Hm] Hseen.
        -- apply existsb_eqb_In in Hseen. congruence.
        -- apply (Hfresh m Hm). right. exact Hseen.
Qed.

(** X2.  [createTopics] refuses a topic list in which a name occurs twice:
    for entries whose topic names are the strings [names], a repeated name
    raises the duplicate-entries error before any call is made. *)
Theorem createTopics_duplicates_rejected :
  forall (L : Type) (items : list JsValue) (names : list string)
         (validateOnly timeout waitForLeaders : JsValue) (s : State World L),
    Forall2 (fun x n => field "topic" x = JStr n) items names ->
    ~ NoDup names ->
    createTopics env cfg (JArr items) validateOnly timeout waitForLeaders s
    = (Throw duplicate_topics, s).
Proof.
  intros L items names validateOnly timeout waitForLeaders s Hitems Hdup.
  unfold createTopics.
  cbn [Js.truthy Js.isArray negb orb Js.items_of].
  unfold bind at 1, lift at 1. rewrite (filter_valid_topics _ _ Hitems).
  change (Nat.ltb 0 (List.length (@nil JsValue))) with false. cbv iota.
  unfold bind at 1, lift at 1. rewrite (map_valid_topics _ _ Hitems).
  rewrite strings_of_strings, (Forall2_length Hitems).
  assert (Hlt : List.length (Set_of [] names) < List.length names).
  { apply Set_of_shorter. intros [Hnd _]. exact (Hdup Hnd). }
  apply Nat.ltb_lt in Hlt. rewrite Hlt. reflexivity.
Qed.

Lemma retried_snoc {L A} (fn : nat -> M World L (Attempt A)) k s k' s' e s'' :
  retried fn k s k' s' ->
  fn k' s' = (Throw e, s'') ->
  retried fn k s (S k') s''.
Proof.
  induction 1 as [k s|k s e1 s1 k' s' Hfn _ IH]; intros Hlast.
  - eapply retried_next; [exact Hlast|constructor].
  - eapply retried_next; [exact Hfn|]. apply IH, Hlast.
Qed.

(** X3.  How [createTopics] sorts an error of the broker's create call,
    on whichever attempt it is thrown: NOT_CONTROLLER starts another
    attempt while retries are left; an error that is neither
    NOT_CONTROLLER nor TOPIC_ALREADY_EXISTS rejects [createTopics] with
    that very error, at once. *)
Theorem createTopics_create_error :
  forall (L : Type) (items : list JsValue) (names : list string)
         (validateOnly timeout waitForLeaders : JsValue)
         (s0 s : State World L) (k : nat) (w1 w2 w3 : World) (b : Broker)
         (e : JsError),
    let attempt :=
      createTopics_attempt env cfg (JArr items) validateOnly timeout
        (default_true waitForLeaders) names in
    valid_topics items names ->
    attempt_reached cfg attempt s0 k s ->
    cluster_refreshMetadata env (world s) = (Return tt, w1) ->
    cluster_findControllerBroker env w1 = (Return b, w2) ->
    broker_createTopics env b (JArr items) validateOnly timeout w2
    = (Throw e, w3) ->
    (type_is e "NOT_CONTROLLER" = true -> k < retries cfg ->
     attempt_reached cfg attempt s0 (S k)
       (after_create s b items validateOnly timeout w3))
    /\ (type_is e "NOT_CONTROLLER" = false ->
        type_is e "TOPIC_ALREADY_EXISTS" = false ->
        createTopics env cfg (JArr items) validateOnly timeout waitForLeaders s0
        = (Throw e, after_create s b items validateOnly timeout w3)).
Proof.
  intros L items names validateOnly timeout waitForLeaders s0 s k w1 w2 w3 b e
    attempt Hvalid Hreached Hrefresh Hcontroller Hcreate.
  assert (Hattempt :
    attempt k s
    = createTopics_catch e (after_create s b items validateOnly timeout w3)).
  { apply (createTopics_attempt_refused World env cfg L items names validateOnly
             timeout _ s w1 w2 b Hrefresh Hcontroller k e w3 Hcreate). }
  split.
  - intros Hnc Hk. destruct Hreached as [Hretried _].
    split; [|lia]. eapply retried_snoc; [exact Hretried|].
    rewrite Hattempt. unfold createTopics_catch. rewrite Hnc. reflexivity.
  - intros Hnc Hexists. subst attempt.
    rewrite (createTopics_validated World env cfg _ _ _ _ _ _ Hvalid).
    rewrite (retrier_reached World cfg _ _ _ _ Hreached).
    rewrite Hattempt.
    unfold createTopics_catch. rewrite Hnc, Hexists. reflexivity.
Qed.

(** *** deleteGroups: what an attempt throws, what a call resolves to *)

(** X4.  An attempt of [deleteGroups] throws (and so asks for a retry)
    only errors of type NOT_CONTROLLER or COORDINATOR_NOT_AVAILABLE, and
    such an attempt leaves [results] and [clonedGroupIds] as they were: the
    next attempt asks for the same groups again. *)
Theorem deleteGroups_attempt_throws_retriable :
  forall (k : nat) (s s' : State World DeleteGroupsVars) (e : JsError),
    deleteGroups_attempt env k s = (Throw e, s') ->
    (type_is e "NOT_CONTROLLER" = true
     \/ type_is e "COORDINATOR_NOT_AVAILABLE" = true)
    /\ locals s' = locals s.
Proof.
  intros k s s' e. rewrite deleteGroups_attempt_eq. cbv zeta.
  destruct (Nat.eqb (List.length (clonedGroupIds (locals s))) 0);
    [discriminate|].
  pose proof (deleteGroups_fanout_locals World env
                (clonedGroupIds (locals s)) s) as Hlocals.
  destruct (deleteGroups_fanout env (clonedGroupIds (locals s)) s)
    as [[res|e0] s1]; cbn [snd] in Hlocals.
  - destruct (Nat.ltb 0 (List.length (errors_of res))); discriminate.
  - unfold deleteGroups_catch.
    destruct (type_is e0 "NOT_CONTROLLER"
              || type_is e0 "COORDINATOR_NOT_AVAILABLE") eqn:E;
      [|discriminate].
    intros H. injection H as <- <-. split; [|exact Hlocals].
    apply orb_true_iff. exact E.
Qed.

Lemma filter_nil_Forall {A} (p : A -> bool) (l : list A) :
  List.filter p l = [] -> Forall (fun x => p x = false) l.
Proof.
  induction l as [|x l IH]; cbn; [constructor|].
  destruct (p x) eqn:E; [discriminate|]. intros H. constructor; auto.
Qed.

(** X5.  Whatever [deleteGroups] is called with, a value it resolves to
    holds only entries with error code 0: an answer with a failed entry
    never comes back as a result. *)
Theorem deleteGroups_resolves_to_successes :
  forall (L : Type) (groupIds : JsValue) (s s' : State World L)
         (v : list GroupResult),
    deleteGroups env cfg groupIds s = (Return v, s') ->
    Forall (fun r => errorCode r = 0%Z) v.
Proof.
  intros L groupIds s s' v H. unfold deleteGroups in H.
  destruct (negb (Js.truthy groupIds) || negb (Js.isArray groupIds));
    [discriminate H|].
  cbv zeta in H.
  destruct (existsb (fun g => negb (String.eqb (Js.typeof g) "string"))
              (Js.items_of groupIds)); [discriminate H|].
  unfold with_locals, retrier in H.
  match type of H with context [retrier_from _ _ _ ?s1] =>
    destruct (retrier_from (retries cfg) 0 (deleteGroups_attempt env) s1)
      as [[a|e] s2] eqn:Hloop; [|discriminate H] end.
  injection H as <- _.
  apply retrier_from_returns in Hloop. destruct Hloop as (k & s0 & Hattempt).
  rewrite deleteGroups_attempt_eq in Hattempt. cbv zeta in Hattempt.
  destruct (Nat.eqb (List.length (clonedGroupIds (locals s0))) 0).
  { injection Hattempt as <- _. constructor. }
  destruct (deleteGroups_fanout env (clonedGroupIds (locals s0)) s0)
    as [[res|e0] s1].
  - destruct (Nat.ltb 0 (List.length (errors_of res))) eqn:Herr;
      [discriminate Hattempt|].
    injection Hattempt as <- _.
    apply Nat.ltb_ge in Herr. rewrite errors_of_failed in Herr.
    destruct (List.filter failed (flatten res)) eqn:Hf; [|cbn in Herr; lia].
    apply filter_nil_Forall in Hf.
    eapply Forall_impl; [|exact Hf]. intros r Hr. unfold failed in Hr.
    apply negb_false_iff, Z.eqb_eq in Hr. exact Hr.
  - unfold deleteGroups_catch in Hattempt.
    destruct (type_is e0 "NOT_CONTROLLER"
              || type_is e0 "COORDINATOR_NOT_AVAILABLE"); discriminate Hattempt.
Qed.

Lemma find_some_existsb_gen {A} (p : A -> bool) (l : list A) (x : A) :
  List.find p l = Some x -> existsb p l = true.
Proof.
  intros H. apply find_some in H. apply existsb_exists. exists x. exact H.
Qed.

(** *** fetchTopicOffsets: unknown topics and incomplete answers *)

Lemma fetchTopicOffsets_unknown_loop {L} (topic : JsValue) (e : JsError) :
  type_is e "UNKNOWN_TOPIC_OR_PARTITION" = true ->
  (forall w, exists w', cluster_addTargetTopic env topic w = (Throw e, w')) ->
  (forall w, exists w', cluster_refreshMetadata env w = (Return tt, w')) ->
  forall (left k : nat) (s : State World L),
  exists s',
    retrier_from left k (fetchTopicOffsets_attempt env topic) s = (Throw e, s')
    /\ calls s'
       = calls s
         ++ times (S left) [Cluster_addTargetTopic topic; Cluster_refreshMetadata]
    /\ locals s' = locals s.
Proof.
  intros Htype Hadd Hrefresh.
  assert (Hattempt : forall k (s : State World L), exists w,
    fetchTopicOffsets_attempt env topic k s
    = (Throw e,
       mkState w
         (calls s ++ [Cluster_addTargetTopic topic; Cluster_refreshMetadata])
         (locals s))).
  { intros k s. destruct (Hadd (world s)) as [w1 Hw1].
    destruct (Hrefresh w1) as [w2 Hw2]. exists w2.
    unfold fetchTopicOffsets_attempt, try_catch, fetchTopicOffsets_try.
    unfold bind at 1, call at 1. rewrite Hw1.
    unfold fetchTopicOffsets_catch. rewrite Htype.
    unfold bind, call, throw. cbn [world calls locals]. rewrite Hw2.
    rewrite <- app_assoc. reflexivity. }
  induction left as [|left IH]; intros k s; rewrite retrier_from_eq;
    destruct (Hattempt k s) as [w Hw]; rewrite Hw.
  - eexists. split; [reflexivity|]. cbn [times calls locals].
    rewrite app_nil_r. auto.
  - destruct (IH (S k)
               (mkState w
                  (calls s ++ [Cluster_addTargetTopic topic;
                               Cluster_refreshMetadata]) (locals s)))
      as (s' & Hrun & Hcalls & Hlocals).
    exists s'. split; [exact Hrun|]. split; [|exact Hlocals].
    rewrite Hcalls. cbn [calls]. rewrite <- app_assoc. reflexivity.
Qed.

(** X6.  For a topic the cluster does not know (adding it to the target
    topics fails with UNKNOWN_TOPIC_OR_PARTITION, whatever the state of the
    cluster), [fetchTopicOffsets] refreshes the metadata after every failed
    attempt, uses up all its retries, and rejects with that error. *)
Theorem fetchTopicOffsets_unknown_topic :
  forall (L : Type) (name : string) (e : JsError) (s : State World L),
    name <> "" ->
    type_is e "UNKNOWN_TOPIC_OR_PARTITION" = true ->
    (forall w, exists w',
       cluster_addTargetTopic env (JStr name) w = (Throw e, w')) ->
    (forall w, exists w', cluster_refreshMetadata env w = (Return tt, w')) ->
    exists s',
      fetchTopicOffsets env cfg (JStr name) s = (Throw e, s')
      /\ calls s'
         = calls s
           ++ times (S (retries cfg))
                [Cluster_addTargetTopic (JStr name); Cluster_refreshMetadata]
      /\ locals s' = locals s.
Proof.
  intros L name e s Hname Htype Hadd Hrefresh.
  unfold fetchTopicOffsets. cbn [Js.truthy Js.typeof].
  apply String.eqb_neq in Hname. rewrite Hname. cbn [negb orb String.eqb].
  change (negb (String.eqb "string" "string")) with false. cbv iota.
  apply fetchTopicOffsets_unknown_loop; assumption.
Qed.

Lemma map_watermarks_lacking (lowPartitions highPartitions : list PartitionOffset) :
  lacks_low lowPartitions highPartitions = true ->
  map_watermarks lowPartitions highPartitions = Throw (TypeError "offset").
Proof.
  unfold lacks_low.
  induction highPartitions as [|h hs IH]; cbn [existsb map_watermarks];
    [discriminate|].
  unfold pair_watermarks.
  destruct (List.find (fun l => N.eqb (po_partition l) (po_partition h))
              lowPartitions) as [l|] eqn:Hfind; [|reflexivity].
  rewrite (find_some_existsb_gen _ _ _ Hfind). cbn [negb orb].
  intros H. rewrite (IH H). reflexivity.
Qed.

(** X7.  When the from-beginning answer of the cluster lacks a partition
    that the from-end answer names, [fetchTopicOffsets] returns no partial
    result: it rejects with the [TypeError] of reading [offset] of
    [undefined], at once (the error has no type to retry on). *)
Theorem fetchTopicOffsets_missing_low_watermark :
  forall (L : Type) (topic : JsValue) (s : State World L)
         (w1 w2 w3 w4 w5 : World) (metadata : list PartitionMetadata)
         (high low : list TopicOffsets) (hs ls : list PartitionOffset),
    Js.truthy topic = true ->
    Js.typeof topic = "string" ->
    cluster_addTargetTopic env topic (world s) = (Return tt, w1) ->
    cluster_refreshMetadataIfNecessary env w1 = (Return tt, w2) ->
    cluster_findTopicPartitionMetadata env topic w2 = (Return metadata, w3) ->
    cluster_fetchTopicsOffset env (offsets_query topic false metadata) w3
    = (Return high, w4) ->
    cluster_fetchTopicsOffset env (offsets_query topic true metadata) w4
    = (Return low, w5) ->
    pop_partitions high = Return hs ->
    pop_partitions low = Return ls ->
    lacks_low ls hs = true ->
    fetchTopicOffsets env cfg topic s
    = (Throw (TypeError "offset"),
       mkState w5 (calls s ++ watermark_calls topic metadata) (locals s)).
Proof.
  intros L topic s w1 w2 w3 w4 w5 metadata high low hs ls Ht Hty
    Hadd Href Hmd Hhigh Hlow Hhs Hls Hlack.
  unfold fetchTopicOffsets. rewrite Ht, Hty.
  change (negb true || negb (String.eqb "string" "string")) with false.
  cbv iota. unfold retrier. rewrite retrier_from_eq.
  unfold fetchTopicOffsets_attempt, try_catch, fetchTopicOffsets_try.
  unfold bind at 1, call at 1. rewrite Hadd.
  unfold bind at 1, call at 1. cbn [world calls locals]. rewrite Href.
  unfold bind at 1, call at 1. cbn [world calls locals]. rewrite Hmd.
  unfold bind at 1, call at 1. cbn [world calls locals]. rewrite Hhigh.
  unfold bind at 1, call at 1. cbn [world calls locals]. rewrite Hlow.
  unfold bind at 1, lift at 1. rewrite Hhs.
  unfold bind at 1, lift at 1. rewrite Hls.
  unfold bind at 1, lift at 1. rewrite (map_watermarks_lacking _ _ Hlack).
  unfold fetchTopicOffsets_catch. cbn [type_is error_type]. unfold ret.
  unfold watermark_calls. rewrite <- !app_assoc. reflexivity.
Qed.

(** *** resetOffsets: the seek targets *)

Lemma sort_insert_perm (n : N) (l : list N) :
  Permutation (sort_insert n l) (n :: l).
Proof.
  induction l as [|m l IH]; cbn; [reflexivity|].
  destruct (String.leb (decimal n) (decimal m)); [reflexivity|].
  rewrite IH. apply perm_swap.
Qed.

Lemma sort_perm (l : list N) : Permutation (sort l) l.
Proof.
  unfold sort. induction l as [|n l IH]; cbn; [reflexivity|].
  rewrite sort_insert_perm, IH. reflexivity.
Qed.

Lemma default_offsets_partitions {L} (earliest : JsValue) (ps : list N)
    (s s' : State World L) (seeks : list SeekEntry) :
  map_M
    (fun p =>
       o <- call (Cluster_defaultOffset earliest)
              (cluster_defaultOffset env earliest) ;;
       ret (mkSeekEntry (JNum (Z.of_N p)) o))
    ps s
  = (Return seeks, s') ->
  List.map se_partition seeks = List.map seek_partition ps.
Proof.
  revert s s' seeks. induction ps as [|p ps IH]; intros s s' seeks H.
  - cbn in H. injection H as <- _. reflexivity.
  - cbn [map_M] in H. unfold bind at 1 in H.
    unfold bind at 1, call at 1 in H.
    destruct (cluster_defaultOffset env earliest (world s)) as [[o|e] w];
      [|discriminate H].
    unfold ret at 1 in H. unfold bind at 1 in H.
    match type of H with context [map_M ?f ps ?s1] =>
      destruct (map_M f ps s1) as [[ys|e] s2] eqn:Hrest; [|discriminate H] end.
    injection H as <- _. cbn. f_equal. eapply IH. exact Hrest.
Qed.

Lemma sort_insert_sorted (n : N) (l : list N) :
  Sorted as_strings l -> Sorted as_strings (sort_insert n l).
Proof.
  induction l as [|m l IH]; intros Hl; cbn [sort_insert].
  - repeat constructor.
  - destruct (String.leb (decimal n) (decimal m)) eqn:E.
    + constructor; [exact Hl|]. constructor. exact E.
    + inversion Hl as [|? ? Hs Hhd]; subst.
      assert (Hmn : as_strings m n).
      { unfold as_strings.
        destruct (String.leb_total (decimal n) (decimal m)) as [H|H];
          [congruence|exact H]. }
      constructor; [apply IH, Hs|].
      destruct l as [|m' l']; cbn [sort_insert]; [constructor; exact Hmn|].
      destruct (String.leb (decimal n) (decimal m')); constructor;
        [exact Hmn|].
      inversion Hhd; subst. assumption.
Qed.

Lemma sort_sorted (l : list N) : Sorted as_strings (sort l).
Proof.
  unfold sort. induction l as [|n l IH]; cbn [fold_right]; [constructor|].
  apply sort_insert_sorted, IH.
Qed.

(** X8.  The seek targets [resetOffsets] computes are the partitions the
    cluster lists for the topic, each exactly once, in the order of the
    default [sort]: ascending as the strings of their decimal numerals
    (partition 10 comes before partition 2). *)
Theorem resetOffsets_targets_every_partition :
  forall (L : Type) (topic earliest : JsValue) (s s' : State World L)
         (w1 w2 w3 : World) (metadata : list PartitionMetadata)
         (seeks : list SeekEntry),
    cluster_addTargetTopic env topic (world s) = (Return tt, w1) ->
    cluster_refreshMetadataIfNecessary env w1 = (Return tt, w2) ->
    cluster_findTopicPartitionMetadata env topic w2 = (Return metadata, w3) ->
    partitionsToSeek env topic earliest s = (Return seeks, s') ->
    let partitions := sort (List.map partitionId metadata) in
    List.map se_partition seeks = List.map seek_partition partitions
    /\ Sorted as_strings partitions
    /\ Permutation partitions (List.map partitionId metadata)
    /\ Permutation (List.map se_partition seeks)
         (List.map (fun m => seek_partition (partitionId m)) metadata)
    /\ List.length seeks = List.length metadata.
Proof.
  intros L topic earliest s s' w1 w2 w3 metadata seeks Hadd Href Hmd Hrun
    partitions.
  unfold partitionsToSeek, findTopicPartitions in Hrun.
  unfold bind at 1 in Hrun. unfold bind at 1, call at 1 in Hrun.
  rewrite Hadd in Hrun.
  unfold bind at 1, call at 1 in Hrun. cbn [world calls locals] in Hrun.
  rewrite Href in Hrun.
  unfold bind at 1, call at 1 in Hrun. cbn [world calls locals] in Hrun.
  rewrite Hmd in Hrun. unfold ret at 1 in Hrun.
  apply default_offsets_partitions in Hrun. fold partitions in Hrun.
  assert (Hperm : Permutation (List.map se_partition seeks)
                    (List.map (fun m => seek_partition (partitionId m)) metadata)).
  { rewrite Hrun, <- (map_map partitionId seek_partition).
    apply Permutation_map, sort_perm. }
  split; [exact Hrun|]. split; [apply sort_sorted|].
  split; [apply sort_perm|]. split; [exact Hperm|].
  rewrite <- (length_map se_partition seeks), (Permutation_length Hperm).
  apply length_map.
Qed.

(** X9.  [resetOffsets] on a topic for which the cluster lists no
    partition stops at [setOffsets]' check of its partitions: it raises
    'Invalid partitions' after the three metadata calls, without asking for
    a default offset and without touching a consumer. *)
Theorem resetOffsets_without_partitions :
  forall (L : Type) (group topic earliest : JsValue) (s : State World L)
         (w1 w2 w3 : World),
    Js.truthy group = true ->
    Js.truthy topic = true ->
    cluster_addTargetTopic env topic (world s) = (Return tt, w1) ->
    cluster_refreshMetadataIfNecessary env w1 = (Return tt, w2) ->
    cluster_findTopicPartitionMetadata env topic w2 = (Return [], w3) ->
    resetOffsets env group topic earliest s
    = (Throw (KafkaJSNonRetriableError [Lit "Invalid partitions"]),
       mkState w3
         (calls s
            ++ [Cluster_addTargetTopic topic; Cluster_refreshMetadataIfNecessary;
                Cluster_findTopicPartitionMetadata topic])
         (locals s)).
Proof.
  intros L group topic earliest s w1 w2 w3 Hg Ht Hadd Href Hmd.
  unfold resetOffsets. rewrite Hg, Ht. cbn [negb].
  unfold bind at 1, partitionsToSeek, findTopicPartitions.
  unfold bind at 1. unfold bind at 1, call at 1. rewrite Hadd.
  unfold bind at 1, call at 1. cbn [world calls locals]. rewrite Href.
  unfold bind at 1, call at 1. cbn [world calls locals]. rewrite Hmd.
  unfold ret at 1. cbn [List.map sort fold_right map_M]. unfold ret at 1.
  unfold setOffsets. rewrite Hg, Ht. cbn [negb List.length Nat.eqb].
  unfold throw. rewrite <- !app_assoc. reflexivity.
Qed.

(** *** deleteGroups: one request per coordinator *)








(** *** Operations that go through the controller *)

(** When every attempt starts with the call [c], so does the retried
    operation. *)
Lemma retrier_from_first_call {L A} (fn : nat -> M World L (Attempt A))
    (c : Call) :
  (forall k s, exists cs, calls (snd (fn k s)) = calls s ++ c :: cs) ->
  forall left k s, exists cs,
    calls (snd (retrier_from left k fn s)) = calls s ++ c :: cs.
Proof.
  intros Hfn. induction left as [|left IH]; intros k s;
    rewrite retrier_from_eq;
    destruct (Hfn k s) as [cs Hcs]; destruct (fn k s) as [[[a|e]|e] s1];
    cbn [snd] in *; eauto.
  destruct (IH (S k) s1) as [cs' Hcs']. exists (cs ++ c :: cs').
  rewrite Hcs', Hcs, <- app_assoc. reflexivity.
Qed.

(** An attempt that refreshes the metadata, looks the controller up and
    then talks to that broker only. *)
Lemma controller_attempt_first_call {L A}
    (body : Broker -> M World L (Attempt A)) :
  (forall b s, calls (snd (body b s)) = calls s) ->
  forall s, exists cs,
    calls (snd (try_catch
                  (call Cluster_refreshMetadata (cluster_refreshMetadata env) ;;;
                   broker <- call Cluster_findControllerBroker
                               (cluster_findControllerBroker env) ;;
                   body broker)
                  (rethrow_or_bail "NOT_CONTROLLER") s))
    = calls s ++ Cluster_refreshMetadata :: cs.
Proof.
  intros Hbody s. unfold try_catch, rethrow_or_bail.
  unfold bind at 1, call at 1.
  destruct (cluster_refreshMetadata env (world s)) as [[[]|e] w1].
  - unfold bind at 1, call at 1. cbn [world calls locals].
    destruct (cluster_findControllerBroker env w1) as [[b|e] w2].
    + match goal with |- context [body b ?s1] =>
        pose proof (Hbody b s1) as Hb; destruct (body b s1) as [[r|e] s2] end;
        cbn [snd calls] in Hb.
      * exists [Cluster_findControllerBroker]. cbn [snd]. rewrite Hb.
        rewrite <- app_assoc. reflexivity.
      * exists [Cluster_findControllerBroker].
        destruct (type_is e "NOT_CONTROLLER"); cbn [snd throw ret];
          rewrite Hb, <- app_assoc; reflexivity.
    + exists [Cluster_findControllerBroker].
      destruct (type_is e "NOT_CONTROLLER"); cbn [snd throw ret calls];
        rewrite <- app_assoc; reflexivity.
  - exists []. destruct (type_is e "NOT_CONTROLLER"); reflexivity.
Qed.

Lemma ask_calls {L A} (f : World -> Completion A * World) (s : State World L) :
  calls (snd (ask f s)) = calls s.
Proof. unfold ask. destruct (f (world s)). reflexivity. Qed.

(** *** createPartitions: what is validated *)

Lemma filter_nil_topics (items : list JsValue) :
  Js.filter (Js.field_not_string "topic") items = Return [] ->
  exists names, Forall2 (fun x n => field "topic" x = JStr n) items names.
Proof.
  induction items as [|x l IH]; intros H; [exists []; constructor|].
  cbn [Js.filter] in H. unfold Js.field_not_string at 1 in H.
  destruct (Js.get x "topic") as [v|e] eqn:Hget; [|discriminate H].
  destruct (Js.filter (Js.field_not_string "topic") l) as [r|e];
    [|discriminate H].
  destruct v; cbn in H; try discriminate H.
  destruct r; [|discriminate H].
  destruct (IH eq_refl) as [names Hnames]. exists (s :: names).
  constructor; [|exact Hnames].
  destruct x; cbn in Hget; try discriminate Hget.
  injection Hget as Hget. exact Hget.
Qed.

Lemma createPartitions_validated {L}
    (topicPartitions validateOnly timeout : JsValue) (s : State World L) :
  partitions_argument topicPartitions ->
  createPartitions env env2 cfg topicPartitions validateOnly timeout s
  = retrier cfg
      (createPartitions_attempt env env2 topicPartitions validateOnly timeout) s.
Proof.
  intros (items & names & -> & Hne & Hitems & Hnd).
  assert (Hlen : Nat.eqb (List.length items) 0 = false)
    by (destruct items; [contradiction|reflexivity]).
  unfold createPartitions.
  cbn [Js.truthy Js.isArray negb orb Js.items_of]. rewrite Hlen.
  unfold bind at 1, lift at 1. rewrite (filter_valid_topics _ _ Hitems).
  change (Nat.ltb 0 (List.length (@nil JsValue))) with false. cbv iota.
  unfold bind at 1, lift at 1. rewrite (map_valid_topics _ _ Hitems).
  rewrite strings_of_strings.
  rewrite (Set_of_distinct _ _ Hnd) by (intros ? ? []).
  rewrite (Forall2_length Hitems), Nat.ltb_irrefl. reflexivity.
Qed.

Lemma Set_of_full (names seen : list string) :
  List.length (Set_of seen names) = List.length names -> NoDup names.
Proof.
  assert (H : forall names seen,
    List.length (Set_of seen names) = List.length names ->
    NoDup names /\ forall n, In n names -> ~ In n seen).
  { clear. induction names as [|n l IH]; intros seen Hsize.
    - split; [constructor|intros ? []].
    - cbn [Set_of] in Hsize.
      destruct (existsb (String.eqb n) seen) eqn:E.
      + pose proof (Set_of_length l seen). cbn in Hsize. lia.
      + cbn in Hsize. injection Hsize as Hsize.
        destruct (IH _ Hsize) as [Hnd Hfresh]. split.
        * constructor; [|exact Hnd]. intros Hin.
          apply (Hfresh n Hin). left. reflexivity.
        * intros m [<-|Hm] Hseen.
          -- apply existsb_eqb_In in Hseen. congruence.
          -- apply (Hfresh m Hm). right. exact Hseen. }
  intros Hsize. exact (proj1 (H names seen Hsize)).
Qed.

Lemma createPartitions_cases {L}
    (topicPartitions validateOnly timeout : JsValue) (s : State World L) :
  partitions_argument topicPartitions
  \/ exists e,
       createPartitions env env2 cfg topicPartitions validateOnly timeout s
       = (Throw e, s).
Proof.
  unfold createPartitions.
  destruct topicPartitions as [| |b|n|str|items|fs];
    try (right; eexists; cbn [Js.isArray negb]; rewrite ?orb_true_r;
         reflexivity).
  cbn [Js.truthy Js.isArray negb orb Js.items_of].
  destruct (Nat.eqb (List.length items) 0) eqn:Hlen;
    [right; eexists; reflexivity|].
  unfold bind at 1, lift at 1.
  destruct (Js.filter (Js.field_not_string "topic") items) as [bad|e] eqn:Hbad;
    [|right; eexists; reflexivity].
  destruct bad as [|b bad]; [|right; eexists; reflexivity].
  change (Nat.ltb 0 (List.length (@nil JsValue))) with false. cbv iota.
  destruct (filter_nil_topics _ Hbad) as [names Hitems].
  unfold bind at 1, lift at 1. rewrite (map_valid_topics _ _ Hitems).
  rewrite strings_of_strings, (Forall2_length Hitems).
  destruct (Nat.ltb (List.length (Set_of [] names)) (List.length names))
    eqn:Hsize; [right; eexists; reflexivity|].
  left. exists items, names. split; [reflexivity|].
  split; [intros ->; discriminate Hlen|]. split; [exact Hitems|].
  apply Nat.ltb_ge in Hsize. pose proof (Set_of_length names []) as Hle.
  apply (Set_of_full names []). lia.
Qed.

(** X11.  [createPartitions] turns to the cluster exactly for a non-empty
    array of entries whose topics are strings, no topic twice: for such an
    argument its first call is the metadata refresh of the first attempt;
    any other argument is rejected with the world and the log of calls as
    they were. *)
Theorem createPartitions_validation :
  forall (L : Type) (topicPartitions validateOnly timeout : JsValue)
         (s : State World L),
    (partitions_argument topicPartitions ->
     exists cs,
       calls (snd (createPartitions env env2 cfg topicPartitions validateOnly
                     timeout s))
       = calls s ++ Cluster_refreshMetadata :: cs)
    /\ (~ partitions_argument topicPartitions ->
        exists e,
          createPartitions env env2 cfg topicPartitions validateOnly timeout s
          = (Throw e, s)).
Proof.
  intros L topicPartitions validateOnly timeout s. split.
  - intros Hvalid. rewrite (createPartitions_validated _ _ _ _ Hvalid).
    unfold retrier. apply retrier_from_first_call. intros k s0.
    unfold createPartitions_attempt.
    apply (controller_attempt_first_call
             (fun broker =>
                ask (broker_createPartitions env2 broker topicPartitions
                       validateOnly timeout) ;;;
                ret (Resolved tt))).
    intros b s1. unfold bind, ret.
    pose proof (ask_calls
                  (broker_createPartitions env2 b topicPartitions validateOnly
                     timeout) s1) as Hask.
    destruct (ask _ s1) as [[[]|e] s2]; exact Hask.
  - intros Hinvalid.
    destruct (createPartitions_cases topicPartitions validateOnly timeout s)
      as [Hvalid|Hthrow]; [contradiction|exact Hthrow].
Qed.

(** *** alterConfigs: what is validated *)

Lemma find_all_false (f : JsValue -> Completion bool) (items : list JsValue) :
  Forall (fun x => f x = Return false) items ->
  Js.find f items = Return JUndefined.
Proof.
  induction 1 as [|x l Hx _ IH]; [reflexivity|].
  cbn [Js.find]. rewrite Hx. exact IH.
Qed.

Lemma find_inv (f : JsValue -> Completion bool) (items : list JsValue)
    (v : JsValue) :
  Js.find f items = Return v ->
  (In v items /\ f v = Return true)
  \/ Forall (fun x => f x = Return false) items.
Proof.
  induction items as [|x l IH]; intros H; [right; constructor|].
  cbn [Js.find] in H. destruct (f x) as [[]|e] eqn:Hx; [| |discriminate H].
  - injection H as <-. left. split; [left; reflexivity|exact Hx].
  - destruct (IH H) as [[Hin Hv]|Hall].
    + left. split; [right; exact Hin|exact Hv].
    + right. constructor; assumption.
Qed.

Lemma some_entry_invalid (entries : list JsValue) :
  Js.some entry_invalid entries = Return (negb (forallb config_entry entries))
  \/ exists e, Js.some entry_invalid entries = Throw e.
Proof.
  induction entries as [|x l IH]; [left; reflexivity|].
  cbn [Js.some forallb]. unfold entry_invalid at 1 3, config_entry at 1.
  destruct x as [| |b|n|str|items|fs];
    try (right; eexists; reflexivity); cbn [Js.get field];
    try (left; reflexivity).
  destruct (Js.lookup "name" fs); cbn; try (left; reflexivity).
  destruct (Js.lookup "value" fs); cbn; try (left; reflexivity).
  exact IH.
Qed.

Lemma config_resource_object (r : JsValue) :
  config_resource enums r = true -> exists fs, r = JObj fs.
Proof.
  unfold config_resource. intros H.
  apply andb_prop in H. destruct H as [H _].
  apply andb_prop in H. destruct H as [_ H].
  destruct r; try discriminate H. eauto.
Qed.

Lemma nonempty_string_name (v : JsValue) :
  negb (Js.truthy v) || negb (String.eqb (Js.typeof v) "string")
  = negb (nonempty_string v).
Proof.
  destruct v; cbn; try reflexivity; try apply orb_true_r.
  rewrite negb_involutive. apply orb_false_r.
Qed.

(** The four per-resource checks, on an object. *)
Lemma config_resource_checks (fs : list (string * JsValue)) :
  config_resource enums (JObj fs) = true ->
  Js.field_not_in (RESOURCE_TYPES enums) "type" (JObj fs) = Return false
  /\ name_invalid (JObj fs) = Return false
  /\ configEntries_invalid (JObj fs) = Return false
  /\ config_value_invalid (JObj fs) = Return false.
Proof.
  unfold config_resource, Js.field_not_in, name_invalid, configEntries_invalid,
    config_value_invalid.
  cbn [Js.get field]. intros H.
  apply andb_prop in H. destruct H as [H Hentries].
  apply andb_prop in H. destruct H as [Htype Hname].
  rewrite Htype, nonempty_string_name, Hname.
  destruct (Js.lookup "configEntries" fs) as [| | | | |entries|];
    try discriminate Hentries.
  repeat split.
  destruct (some_entry_invalid entries) as [Hsome|[e Hsome]].
  - rewrite Hsome, Hentries. reflexivity.
  - exfalso. revert Hentries Hsome. clear.
    induction entries as [|x l IH]; [discriminate 2|].
    cbn [forallb Js.some]. intros H. apply andb_prop in H.
    destruct H as [Hx Hl]. unfold config_entry in Hx.
    apply andb_prop in Hx. destruct Hx as [Hn Hv].
    destruct x; try discriminate Hn.
    unfold entry_invalid at 1. cbn [Js.get field] in *.
    destruct (Js.lookup "name" fields); try discriminate Hn.
    destruct (Js.lookup "value" fields); try discriminate Hv.
    cbn. exact (IH Hl).
Qed.

Lemma config_value_checked (r : JsValue) :
  config_value_invalid r = Return false ->
  exists fs entries,
    r = JObj fs /\ Js.lookup "configEntries" fs = JArr entries
    /\ forallb config_entry entries = true.
Proof.
  unfold config_value_invalid. intros H.
  destruct r as [| |b|n|str|items|fs]; try discriminate H.
  cbn [Js.get] in H.
  destruct (Js.lookup "configEntries" fs) as [| | | | |entries|] eqn:Hce;
    try discriminate H.
  exists fs, entries. split; [reflexivity|]. split; [exact Hce|].
  destruct (some_entry_invalid entries) as [Hsome|[e Hsome]];
    rewrite Hsome in H; [|discriminate H].
  injection H as H. apply negb_false_iff in H. exact H.
Qed.

Lemma config_value_caught (r : JsValue) :
  config_value_invalid r = Return true -> Js.truthy r = true.
Proof.
  unfold config_value_invalid.
  destruct r; cbn [Js.get]; try discriminate 1. reflexivity.
Qed.

Lemma alterConfigs_validated {L} (resources validateOnly : JsValue)
    (s : State World L) :
  config_resources enums resources = true ->
  alterConfigs env env2 cfg enums resources validateOnly s
  = retrier cfg (alterConfigs_attempt env env2 resources validateOnly) s.
Proof.
  intros Hvalid. destruct resources as [| | | | |items|];
    try discriminate Hvalid.
  assert (Hlen : Nat.eqb (List.length items) 0 = false)
    by (destruct items; [discriminate Hvalid|reflexivity]).
  assert (Hall : Forall (fun r => config_resource enums r = true) items).
  { destruct items; [discriminate Hvalid|]. apply Forall_forall.
    unfold config_resources in Hvalid. rewrite forallb_forall in Hvalid.
    exact Hvalid. }
  clear Hvalid. unfold alterConfigs.
  cbn [Js.truthy Js.isArray negb orb Js.items_of]. rewrite Hlen.
  assert (Hchecks : forall f,
    (forall fs, config_resource enums (JObj fs) = true ->
                f (JObj fs) = Return false) ->
    Js.find f items = Return JUndefined).
  { intros f Hf. apply find_all_false.
    eapply Forall_impl; [|exact Hall]. cbn beta. intros r Hr.
    destruct (config_resource_object _ Hr) as [fs ->]. apply Hf, Hr. }
  unfold bind at 1, lift at 1.
  rewrite (Hchecks _ (fun fs H => proj1 (config_resource_checks fs H))).
  cbn [Js.truthy]. unfold bind at 1, lift at 1.
  rewrite (Hchecks _ (fun fs H => proj1 (proj2 (config_resource_checks fs H)))).
  cbn [Js.truthy]. unfold bind at 1, lift at 1.
  rewrite (Hchecks _
             (fun fs H => proj1 (proj2 (proj2 (config_resource_checks fs H))))).
  cbn [Js.truthy]. unfold bind at 1, lift at 1.
  rewrite (Hchecks _
             (fun fs H => proj2 (proj2 (proj2 (config_resource_checks fs H))))).
  reflexivity.
Qed.

Lemma alterConfigs_cases {L} (resources validateOnly : JsValue)
    (s : State World L) :
  config_resources enums resources = true
  \/ exists e,
       alterConfigs env env2 cfg enums resources validateOnly s = (Throw e, s).
Proof.
  unfold alterConfigs.
  destruct resources as [| |b|n|str|items|fs];
    try (right; eexists; cbn [Js.isArray negb]; rewrite ?orb_true_r;
         reflexivity).
  cbn [Js.truthy Js.isArray negb orb Js.items_of].
  destruct (Nat.eqb (List.length items) 0) eqn:Hlen;
    [right; eexists; reflexivity|].
  unfold bind at 1, lift at 1.
  destruct (Js.find (Js.field_not_in (RESOURCE_TYPES enums) "type") items)
    as [v1|e] eqn:H1; [|right; eexists; reflexivity].
  destruct (Js.truthy v1) eqn:T1.
  { right. unfold bind, lift, throw.
    destruct (invalid_enum_message _ _ v1); eexists; reflexivity. }
  unfold bind at 1, lift at 1.
  destruct (Js.find name_invalid items) as [v2|e] eqn:H2;
    [|right; eexists; reflexivity].
  destruct (Js.truthy v2) eqn:T2.
  { right. unfold bind, lift, throw.
    destruct (invalid_enum_message _ _ v2); eexists; reflexivity. }
  unfold bind at 1, lift at 1.
  destruct (Js.find configEntries_invalid items) as [v3|e] eqn:H3;
    [|right; eexists; reflexivity].
  destruct (Js.truthy v3) eqn:T3.
  { right. unfold bind, lift, throw.
    destruct (invalid_enum_message _ _ v3); eexists; reflexivity. }
  unfold bind at 1, lift at 1.
  destruct (Js.find config_value_invalid items) as [v4|e] eqn:H4;
    [|right; eexists; reflexivity].
  destruct (Js.truthy v4) eqn:T4; [right; eexists; reflexivity|].
  left. apply find_inv in H4. destruct H4 as [[_ H4]|H4].
  { apply config_value_caught in H4. congruence. }
  assert (Hobj : forall v, In v items -> Js.truthy v = true).
  { intros v Hv. rewrite Forall_forall in H4.
    destruct (config_value_checked _ (H4 v Hv)) as (fs & _ & -> & _).
    reflexivity. }
  apply find_inv in H1. destruct H1 as [[H1 _]|H1];
    [rewrite (Hobj _ H1) in T1; discriminate T1|].
  apply find_inv in H2. destruct H2 as [[H2 _]|H2];
    [rewrite (Hobj _ H2) in T2; discriminate T2|].
  assert (Hall : forallb (config_resource enums) items = true).
  { apply forallb_forall. intros r Hr. rewrite Forall_forall in H1, H2, H4.
    destruct (config_value_checked _ (H4 r Hr)) as (fs & entries & -> & Hce & He).
    specialize (H1 _ Hr). specialize (H2 _ Hr).
    unfold Js.field_not_in in H1. unfold name_invalid in H2.
    cbn [Js.get] in H1, H2. injection H1 as H1. injection H2 as H2.
    rewrite nonempty_string_name in H2.
    apply negb_false_iff in H1, H2.
    unfold config_resource. cbn [field]. rewrite H1, H2, Hce. exact He. }
  destruct items; [discriminate Hlen|exact Hall].
Qed.

(** X12.  [alterConfigs] turns to the cluster exactly for a non-empty
    array of resources each of which is an object with a type of the
    table, a non-empty string as name, and an array of config entries with
    a string name and a string value: for such an argument its first call
    is the metadata refresh of the first attempt; any other argument is
    rejected with the world and the log of calls as they were. *)
Theorem alterConfigs_validation :
  forall (L : Type) (resources validateOnly : JsValue) (s : State World L),
    (config_resources enums resources = true ->
     exists cs,
       calls (snd (alterConfigs env env2 cfg enums resources validateOnly s))
       = calls s ++ Cluster_refreshMetadata :: cs)
    /\ (config_resources enums resources = false ->
        exists e,
          alterConfigs env env2 cfg enums resources validateOnly s
          = (Throw e, s)).
Proof.
  intros L resources validateOnly s. split.
  - intros Hvalid. rewrite (alterConfigs_validated _ _ _ Hvalid).
    unfold retrier. apply retrier_from_first_call. intros k s0.
    unfold alterConfigs_attempt.
    apply (controller_attempt_first_call
             (fun broker =>
                response <- ask (broker_alterConfigs env2 broker resources
                                   (JBool (Js.truthy validateOnly))) ;;
                ret (Resolved response))).
    intros b s1. unfold bind, ret.
    pose proof (ask_calls
                  (broker_alterConfigs env2 b resources
                     (JBool (Js.truthy validateOnly))) s1) as Hask.
    destruct (ask _ s1) as [[r|e] s2]; exact Hask.
  - intros Hinvalid.
    destruct (alterConfigs_cases resources validateOnly s)
      as [Hvalid|Hthrow]; [congruence|exact Hthrow].
Qed.

(** *** describeConfigs: a falsy resource *)

Lemma values_include_undefined (table : list (string * Z)) :
  Js.values_include table JUndefined = false.
Proof. unfold Js.values_include. induction table; [reflexivity|exact IHtable]. Qed.

Lemma configNames_fine_passes (rest : list JsValue) :
  forallb configNames_fine rest = true ->
  Js.find configNames_invalid rest = Return JUndefined.
Proof.
  intros H. apply find_all_false. apply Forall_forall. intros r Hr.
  rewrite forallb_forall in H. specialize (H r Hr).
  unfold configNames_invalid.
  destruct r; try discriminate H; cbn [Js.get]; try reflexivity.
  cbn [configNames_fine field] in H.
  destruct (Js.lookup "configNames" fields); try discriminate H; reflexivity.
Qed.

(** X13.  A resources array that starts with [0], [''] or [false] slips
    through the checks of [describeConfigs] on types and names: each of
    these checks finds that first entry and, because it is falsy, takes it
    for "nothing found".  Whatever the other resources are, as long as
    their [configNames] are arrays or absent, the array is handed to the
    controller as it is. *)
Theorem describeConfigs_falsy_resource_unchecked :
  forall (L : Type) (r : JsValue) (rest : list JsValue)
         (includeSynonyms response : JsValue) (s : State World L)
         (w1 w2 w3 : World) (b : Broker),
    falsy_primitive r = true ->
    forallb configNames_fine rest = true ->
    cluster_refreshMetadata env (world s) = (Return tt, w1) ->
    cluster_findControllerBroker env w1 = (Return b, w2) ->
    broker_describeConfigs env2 b (JArr (r :: rest)) includeSynonyms w2
    = (Return response, w3) ->
    describeConfigs env env2 cfg enums (JArr (r :: rest)) includeSynonyms s
    = (Return response, mkState w3 (calls s ++ controller_calls) (locals s)).
Proof.
  intros L r rest includeSynonyms response s w1 w2 w3 b Hr Hrest Hrefresh
    Hcontroller Hbroker.
  unfold describeConfigs.
  cbn [Js.truthy Js.isArray negb orb Js.items_of List.length Nat.eqb].
  assert (Hget : forall k, Js.get r k = Return JUndefined /\ Js.truthy r = false).
  { intros k. destruct r as [| |[]|[]| [] | |]; try discriminate Hr;
      split; reflexivity. }
  unfold bind at 1, lift at 1. cbn [Js.find]. unfold Js.field_not_in at 1.
  rewrite (proj1 (Hget "type")), values_include_undefined. cbn [negb].
  rewrite (proj2 (Hget "type")).
  unfold bind at 1, lift at 1. cbn [Js.find]. unfold name_invalid at 1.
  rewrite (proj1 (Hget "name")). cbn [Js.truthy negb orb].
  rewrite (proj2 (Hget "type")).
  unfold bind at 1, lift at 1. cbn [Js.find]. unfold configNames_invalid at 1.
  rewrite (proj1 (Hget "configNames")).
  cbn [Js.isArray loosely_null negb andb].
  rewrite (configNames_fine_passes _ Hrest). cbn [Js.truthy].
  unfold retrier. rewrite retrier_from_eq.
  unfold describeConfigs_attempt, try_catch.
  unfold bind at 1, call at 1. rewrite Hrefresh.
  unfold bind at 1, call at 1. cbn [world calls locals]. rewrite Hcontroller.
  unfold bind at 1, ask at 1. cbn [world calls locals]. rewrite Hbroker.
  unfold ret, controller_calls. rewrite <- !app_assoc. reflexivity.
Qed.

(** *** createPartitions and alterConfigs: errors of the broker *)

Lemma createPartitions_lost_loop {L}
    (topicPartitions validateOnly timeout : JsValue) (e : JsError) :
  type_is e "NOT_CONTROLLER" = true ->
  (forall w, exists w', cluster_refreshMetadata env w = (Return tt, w')) ->
  (forall w, exists b w',
     cluster_findControllerBroker env w = (Return b, w')) ->
  (forall b w, exists w',
     broker_createPartitions env2 b topicPartitions validateOnly timeout w
     = (Throw e, w')) ->
  forall (left k : nat) (s : State World L),
  exists s',
    retrier_from left k
      (createPartitions_attempt env env2 topicPartitions validateOnly timeout) s
    = (Throw e, s')
    /\ calls s' = calls s ++ times (S left) controller_calls
    /\ locals s' = locals s.
Proof.
  intros Htype Hrefresh Hcontroller Hbroker.
  assert (Hattempt : forall k (s : State World L), exists w,
    createPartitions_attempt env env2 topicPartitions validateOnly timeout k s
    = (Throw e, mkState w (calls s ++ controller_calls) (locals s))).
  { intros k s. destruct (Hrefresh (world s)) as [w1 Hw1].
    destruct (Hcontroller w1) as (b & w2 & Hw2).
    destruct (Hbroker b w2) as [w3 Hw3]. exists w3.
    unfold createPartitions_attempt, try_catch.
    unfold bind at 1, call at 1. rewrite Hw1.
    unfold bind at 1, call at 1. cbn [world calls locals]. rewrite Hw2.
    unfold bind at 1, ask at 1. cbn [world calls locals]. rewrite Hw3.
    unfold rethrow_or_bail. rewrite Htype. unfold throw, controller_calls.
    rewrite <- app_assoc. reflexivity. }
  induction left as [|left IH]; intros k s; rewrite retrier_from_eq;
    destruct (Hattempt k s) as [w Hw]; rewrite Hw.
  - eexists. split; [reflexivity|]. cbn [times calls locals].
    rewrite app_nil_r. auto.
  - destruct (IH (S k) (mkState w (calls s ++ controller_calls) (locals s)))
      as (s' & Hrun & Hcalls & Hlocals).
    exists s'. split; [exact Hrun|]. split; [|exact Hlocals].
    rewrite Hcalls. cbn [calls]. rewrite <- app_assoc. reflexivity.
Qed.

(** X14.  While the broker taken for the controller answers
    NOT_CONTROLLER, [createPartitions] starts over with a metadata
    refresh and a new lookup of the controller; once its retries are used
    up it rejects with that error, after one attempt more than it has
    retries. *)
Theorem createPartitions_controller_lost :
  forall (L : Type) (topicPartitions validateOnly timeout : JsValue)
         (e : JsError) (s : State World L),
    partitions_argument topicPartitions ->
    type_is e "NOT_CONTROLLER" = true ->
    (forall w, exists w', cluster_refreshMetadata env w = (Return tt, w')) ->
    (forall w, exists b w',
       cluster_findControllerBroker env w = (Return b, w')) ->
    (forall b w, exists w',
       broker_createPartitions env2 b topicPartitions validateOnly timeout w
       = (Throw e, w')) ->
    exists s',
      createPartitions env env2 cfg topicPartitions validateOnly timeout s
      = (Throw e, s')
      /\ calls s' = calls s ++ times (S (retries cfg)) controller_calls
      /\ locals s' = locals s.
Proof.
  intros L topicPartitions validateOnly timeout e s Hvalid Htype Hrefresh
    Hcontroller Hbroker.
  rewrite (createPartitions_validated _ _ _ _ Hvalid).
  apply createPartitions_lost_loop; assumption.
Qed.

(** X15.  An error of the broker's [alterConfigs] that is not
    NOT_CONTROLLER ends the operation at once: [alterConfigs] rejects with
    that very error after a single attempt.  The broker is handed
    [validateOnly] as a boolean. *)
Theorem alterConfigs_other_error_not_retried :
  forall (L : Type) (resources validateOnly : JsValue) (e : JsError)
         (s : State World L) (w1 w2 w3 : World) (b : Broker),
    config_resources enums resources = true ->
    type_is e "NOT_CONTROLLER" = false ->
    cluster_refreshMetadata env (world s) = (Return tt, w1) ->
    cluster_findControllerBroker env w1 = (Return b, w2) ->
    broker_alterConfigs env2 b resources (JBool (Js.truthy validateOnly)) w2
    = (Throw e, w3) ->
    alterConfigs env env2 cfg enums resources validateOnly s
    = (Throw e, mkState w3 (calls s ++ controller_calls) (locals s)).
Proof.
  intros L resources validateOnly e s w1 w2 w3 b Hvalid Htype Hrefresh
    Hcontroller Hbroker.
  rewrite (alterConfigs_validated _ _ _ Hvalid).
  unfold retrier. rewrite retrier_from_eq.
  unfold alterConfigs_attempt, try_catch.
  unfold bind at 1, call at 1. rewrite Hrefresh.
  unfold bind at 1, call at 1. cbn [world calls locals]. rewrite Hcontroller.
  unfold bind at 1, ask at 1. cbn [world calls locals]. rewrite Hbroker.
  unfold rethrow_or_bail. rewrite Htype.
  unfold ret, controller_calls. rewrite <- !app_assoc. reflexivity.
Qed.

(** *** deleteTopics *)

Lemma names_are_strings (names : list string) :
  List.filter not_a_string (List.map JStr names) = [].
Proof. induction names as [|n l IH]; [reflexivity|exact IH]. Qed.

Lemma deleteTopics_validated {L} (names : list string) (timeout : JsValue)
    (s : State World L) :
  deleteTopics env env2 cfg (JArr (List.map JStr names)) timeout s
  = retrier cfg
      (deleteTopics_attempt env env2 (JArr (List.map JStr names)) timeout) s.
Proof.
  unfold deleteTopics. cbn [Js.truthy Js.isArray negb orb Js.items_of].
  rewrite names_are_strings. reflexivity.
Qed.

Lemma for_each_forget {L} (topics : list JsValue) (s : State World L) :
  for_each (fun topic => tell (cluster_targetTopics_delete env2 topic)) topics s
  = (Return tt,
     mkState (forget_topics env2 topics (world s)) (calls s) (locals s)).
Proof.
  revert s. induction topics as [|topic l IH]; intros s.
  - destruct s. reflexivity.
  - cbn [for_each]. unfold bind at 1, tell at 1. rewrite IH. reflexivity.
Qed.

(** The part of an attempt that follows a successful delete request. *)
Lemma deleteTopics_attempt_deleted {L} (names : list string)
    (timeout : JsValue) (k : nat) (s : State World L) (w1 w2 w3 : World)
    (b : Broker) :
  cluster_refreshMetadata env (world s) = (Return tt, w1) ->
  cluster_findControllerBroker env w1 = (Return b, w2) ->
  broker_deleteTopics env2 b (JArr (List.map JStr names)) timeout w2
  = (Return tt, w3) ->
  deleteTopics_attempt env env2 (JArr (List.map JStr names)) timeout k s
  = match cluster_refreshMetadata env
            (forget_topics env2 (List.map JStr names) w3) with
    | (Return _, w4) =>
        (Return (Resolved tt),
         mkState w4 (calls s ++ delete_calls) (locals s))
    | (Throw e, w4) =>
        deleteTopics_catch e (mkState w4 (calls s ++ delete_calls) (locals s))
    end.
Proof.
  intros Hrefresh Hcontroller Hbroker.
  unfold deleteTopics_attempt, try_catch.
  unfold bind at 1, call at 1. rewrite Hrefresh.
  unfold bind at 1, call at 1. cbn [world calls locals]. rewrite Hcontroller.
  unfold bind at 1, ask at 1. cbn [world calls locals]. rewrite Hbroker.
  unfold bind at 1. cbn [Js.items_of]. rewrite for_each_forget.
  cbn [world calls locals]. unfold bind at 1, call at 1.
  cbn [world calls locals]. unfold delete_calls, controller_calls.
  destruct (cluster_refreshMetadata env
              (forget_topics env2 (List.map JStr names) w3)) as [[[]|e] w4];
    unfold ret; rewrite <- !app_assoc; reflexivity.
Qed.

(** X16.  Once the controller has deleted the topics, [deleteTopics]
    takes every one of them out of the target topics of the cluster and
    only then refreshes the metadata a second time; with that refresh the
    operation is complete.  This holds for any list of names, the empty
    list included, which [deleteTopics] does not refuse. *)
Theorem deleteTopics_forgets_topics :
  forall (L : Type) (names : list string) (timeout : JsValue)
         (s : State World L) (w1 w2 w3 w4 : World) (b : Broker),
    cluster_refreshMetadata env (world s) = (Return tt, w1) ->
    cluster_findControllerBroker env w1 = (Return b, w2) ->
    broker_deleteTopics env2 b (JArr (List.map JStr names)) timeout w2
    = (Return tt, w3) ->
    cluster_refreshMetadata env (forget_topics env2 (List.map JStr names) w3)
    = (Return tt, w4) ->
    deleteTopics env env2 cfg (JArr (List.map JStr names)) timeout s
    = (Return tt, mkState w4 (calls s ++ delete_calls) (locals s)).
Proof.
  intros L names timeout s w1 w2 w3 w4 b Hrefresh Hcontroller Hbroker Hagain.
  rewrite deleteTopics_validated. unfold retrier. rewrite retrier_from_eq.
  rewrite (deleteTopics_attempt_deleted _ _ _ _ _ _ _ _ Hrefresh Hcontroller
             Hbroker), Hagain.
  reflexivity.
Qed.

(** X17.  The topics can be deleted and the operation still fail: when
    the metadata refresh that follows the delete request throws an error
    that is neither NOT_CONTROLLER nor UNKNOWN_TOPIC_OR_PARTITION,
    [deleteTopics] rejects with that error, although the broker deleted the
    topics and they were taken out of the target topics. *)
Theorem deleteTopics_deleted_yet_rejected :
  forall (L : Type) (names : list string) (timeout : JsValue) (e : JsError)
         (s : State World L) (w1 w2 w3 w4 : World) (b : Broker),
    type_is e "NOT_CONTROLLER" = false ->
    type_is e "UNKNOWN_TOPIC_OR_PARTITION" = false ->
    cluster_refreshMetadata env (world s) = (Return tt, w1) ->
    cluster_findControllerBroker env w1 = (Return b, w2) ->
    broker_deleteTopics env2 b (JArr (List.map JStr names)) timeout w2
    = (Return tt, w3) ->
    cluster_refreshMetadata env (forget_topics env2 (List.map JStr names) w3)
    = (Throw e, w4) ->
    deleteTopics env env2 cfg (JArr (List.map JStr names)) timeout s
    = (Throw e, mkState w4 (calls s ++ delete_calls) (locals s)).
Proof.
  intros L names timeout e s w1 w2 w3 w4 b Hnot Hunknown Hrefresh Hcontroller
    Hbroker Hagain.
  rewrite deleteTopics_validated. unfold retrier. rewrite retrier_from_eq.
  rewrite (deleteTopics_attempt_deleted _ _ _ _ _ _ _ _ Hrefresh Hcontroller
             Hbroker), Hagain.
  unfold deleteTopics_catch. rewrite Hnot, Hunknown. reflexivity.
Qed.

Lemma deleteTopics_unknown_loop {L} (topics timeout : JsValue) (e : JsError) :
  type_is e "NOT_CONTROLLER" || type_is e "UNKNOWN_TOPIC_OR_PARTITION" = true ->
  (forall w, exists w', cluster_refreshMetadata env w = (Return tt, w')) ->
  (forall w, exists b w',
     cluster_findControllerBroker env w = (Return b, w')) ->
  (forall b w, exists w',
     broker_deleteTopics env2 b topics timeout w = (Throw e, w')) ->
  forall (left k : nat) (s : State World L),
  exists s',
    retrier_from left k (deleteTopics_attempt env env2 topics timeout) s
    = (Throw e, s')
    /\ calls s' = calls s ++ times (S left) controller_calls
    /\ locals s' = locals s.
Proof.
  intros Htype Hrefresh Hcontroller Hbroker.
  assert (Hattempt : forall k (s : State World L), exists w,
    deleteTopics_attempt env env2 topics timeout k s
    = (Throw e, mkState w (calls s ++ controller_calls) (locals s))).
  { intros k s. destruct (Hrefresh (world s)) as [w1 Hw1].
    destruct (Hcontroller w1) as (b & w2 & Hw2).
    destruct (Hbroker b w2) as [w3 Hw3]. exists w3.
    unfold deleteTopics_attempt, try_catch.
    unfold bind at 1, call at 1. rewrite Hw1.
    unfold bind at 1, call at 1. cbn [world calls locals]. rewrite Hw2.
    unfold bind at 1, ask at 1. cbn [world calls locals]. rewrite Hw3.
    unfold deleteTopics_catch. rewrite Htype. unfold throw, controller_calls.
    rewrite <- app_assoc. reflexivity. }
  induction left as [|left IH]; intros k s; rewrite retrier_from_eq;
    destruct (Hattempt k s) as [w Hw]; rewrite Hw.
  - eexists. split; [reflexivity|]. cbn [times calls locals].
    rewrite app_nil_r. auto.
  - destruct (IH (S k) (mkState w (calls s ++ controller_calls) (locals s)))
      as (s' & Hrun & Hcalls & Hlocals).
    exists s'. split; [exact Hrun|]. split; [|exact Hlocals].
    rewrite Hcalls. cbn [calls]. rewrite <- app_assoc. reflexivity.
Qed.

(** X18.  [deleteTopics] retries on two errors of the delete request,
    NOT_CONTROLLER and UNKNOWN_TOPIC_OR_PARTITION: while the broker answers
    with one of them each attempt stops right after the request, without
    the second metadata refresh, and once the retries are used up the
    operation rejects with that error. *)
Theorem deleteTopics_unknown_topic_retried :
  forall (L : Type) (names : list string) (timeout : JsValue) (e : JsError)
         (s : State World L),
    type_is e "NOT_CONTROLLER" || type_is e "UNKNOWN_TOPIC_OR_PARTITION"
    = true ->
    (forall w, exists w', cluster_refreshMetadata env w = (Return tt, w')) ->
    (forall w, exists b w',
       cluster_findControllerBroker env w = (Return b, w')) ->
    (forall b w, exists w',
       broker_deleteTopics env2 b (JArr (List.map JStr names)) timeout w
       = (Throw e, w')) ->
    exists s',
      deleteTopics env env2 cfg (JArr (List.map JStr names)) timeout s
      = (Throw e, s')
      /\ calls s' = calls s ++ times (S (retries cfg)) controller_calls
      /\ locals s' = locals s.
Proof.
  intros L names timeout e s Htype Hrefresh Hcontroller Hbroker.
  rewrite deleteTopics_validated.
  apply deleteTopics_unknown_loop; assumption.
Qed.

(** *** fetchOffsets *)

Lemma pop_inv {A} (l : list A) :
  match pop l with
  | None => l = []
  | Some v => In v l
  end.
Proof.
  unfold pop. induction l as [|a l IH]; [reflexivity|].
  destruct l as [|a' l]; [left; reflexivity|].
  change (List.last (List.map Some (a :: a' :: l)) None)
    with (List.last (List.map Some (a' :: l)) None).
  destruct (List.last (List.map Some (a' :: l)) None);
    [right; exact IH|discriminate IH].
Qed.

Lemma fetched_metadata (p : OffsetFetchPartition) :
  fo_metadata (fetched p) = JNull \/ Js.truthy (fo_metadata (fetched p)) = true.
Proof.
  unfold fetched. cbn [fo_metadata].
  destruct (Js.truthy (ofp_metadata p)) eqn:E; [right; exact E|left; reflexivity].
Qed.

(** X19.  What [fetchOffsets] makes of the coordinator's answer: it asks
    for the partitions of the topic in the order of [sort], and resolves to
    the entries of one response whose topic is the topic asked for, one
    entry per partition of that response with the partition and the offset
    as answered and with a metadata that is never an empty string or
    [undefined] but [null]; when no response is for the topic it resolves
    to [undefined]. *)
Theorem fetchOffsets_entries :
  forall (L : Type) (group topic : JsValue) (s : State World L)
         (w1 w2 w3 w4 w5 : World) (metadata : list PartitionMetadata)
         (coordinator : Broker) (responses : list OffsetFetchResponse),
    Js.truthy group = true ->
    Js.truthy topic = true ->
    cluster_addTargetTopic env topic (world s) = (Return tt, w1) ->
    cluster_refreshMetadataIfNecessary env w1 = (Return tt, w2) ->
    cluster_findTopicPartitionMetadata env topic w2 = (Return metadata, w3) ->
    cluster_findCoordinator env2 group w3 = (Return coordinator, w4) ->
    broker_offsetFetch env2 coordinator group topic
      (sort (List.map partitionId metadata)) w4
    = (Return responses, w5) ->
    exists result,
      fetchOffsets env env2 group topic s
      = (Return result,
         mkState w5 (calls s ++ partition_calls topic) (locals s))
      /\ match result with
         | None =>
             Forall (fun r => strict_equal (ofr_topic r) topic = false)
               responses
         | Some entries =>
             exists response,
               In response responses
               /\ strict_equal (ofr_topic response) topic = true
               /\ List.map fo_partition entries
                  = List.map ofp_partition (ofr_partitions response)
               /\ List.map fo_offset entries
                  = List.map ofp_offset (ofr_partitions response)
               /\ Forall
                    (fun entry =>
                       fo_metadata entry = JNull
                       \/ Js.truthy (fo_metadata entry) = true)
                    entries
         end.
Proof.
  intros L group topic s w1 w2 w3 w4 w5 metadata coordinator responses
    Hgroup Htopic Hadd Hrefresh Hmetadata Hcoordinator Hfetch.
  eexists. split.
  - unfold fetchOffsets. rewrite Hgroup, Htopic. cbn [negb].
    unfold findTopicPartitions.
    unfold bind at 1. unfold bind at 1, call at 1. rewrite Hadd.
    unfold bind at 1, call at 1. cbn [world calls locals]. rewrite Hrefresh.
    unfold bind at 1, call at 1. cbn [world calls locals]. rewrite Hmetadata.
    unfold ret at 1.
    unfold bind at 1, ask at 1. cbn [world calls locals]. rewrite Hcoordinator.
    unfold bind at 1, ask at 1. cbn [world calls locals]. rewrite Hfetch.
    unfold ret, partition_calls. rewrite <- !app_assoc. reflexivity.
  - set (matching := List.filter
                       (fun response => strict_equal (ofr_topic response) topic)
                       responses).
    pose proof (pop_inv
                  (List.map
                     (fun response => List.map fetched (ofr_partitions response))
                     matching)) as Hpop.
    destruct (pop _) as [entries|].
    + apply in_map_iff in Hpop. destruct Hpop as (response & <- & Hin).
      apply filter_In in Hin. destruct Hin as [Hin Hmatch].
      exists response. split; [exact Hin|]. split; [exact Hmatch|].
      rewrite !map_map. split; [reflexivity|]. split; [reflexivity|].
      apply Forall_forall. intros entry Hentry.
      apply in_map_iff in Hentry. destruct Hentry as (p & <- & _).
      apply fetched_metadata.
    + apply map_eq_nil in Hpop. apply Forall_forall. intros r Hr.
      destruct (strict_equal (ofr_topic r) topic) eqn:E; [|reflexivity].
      assert (Hin : In r matching) by (apply filter_In; auto).
      rewrite Hpop in Hin. destruct Hin.
Qed.

(** *** listGroups *)

Lemma listGroups_loop_gathered {L} (nodes : list N) :
  forall (groups : list JsValue) (s : State World L)
         (result : list JsValue) (w' : World),
    listGroups_loop env2 nodes groups s
    = (Return result, mkState w' (calls s) (locals s))
    <-> exists answers,
          gathered env2 nodes (world s) answers w'
          /\ result = groups ++ List.concat answers.
Proof.
  induction nodes as [|node nodes IH]; intros groups s result w'.
  - cbn [listGroups_loop]. unfold ret. split.
    + intros H. injection H as <- Hs. exists []. split.
      * assert (Hw : world s = w') by (rewrite Hs; reflexivity).
        rewrite Hw. constructor.
      * cbn. rewrite app_nil_r. reflexivity.
    + intros (answers & Hg & ->). inversion Hg; subst. cbn.
      rewrite app_nil_r. destruct s. reflexivity.
  - cbn [listGroups_loop]. unfold bind at 1, ask at 1.
    destruct (cluster_findBroker env2 node (world s)) as [[broker|e] w1] eqn:Hb.
    + unfold bind at 1, ask at 1. cbn [world calls locals].
      destruct (broker_listGroups env2 broker w1) as [[response|e] w2] eqn:Hr.
      * rewrite (IH (groups ++ response) (mkState w2 (calls s) (locals s))
                   result w').
        cbn [world]. split.
        -- intros (answers & Hg & ->). exists (response :: answers).
           split; [econstructor; eassumption|].
           cbn [List.concat]. rewrite app_assoc. reflexivity.
        -- intros (answers & Hg & ->). inversion Hg; subst.
           match goal with
           | H1 : cluster_findBroker env2 node (world s) = _,
             H2 : broker_listGroups env2 _ _ = _ |- _ =>
               rewrite Hb in H1; injection H1 as <- <-;
               rewrite Hr in H2; injection H2 as <- <-
           end.
           eexists. split; [eassumption|].
           cbn [List.concat]. rewrite app_assoc. reflexivity.
      * split; [discriminate 1|].
        intros (answers & Hg & _). inversion Hg; subst.
        match goal with
        | H1 : cluster_findBroker env2 node (world s) = _,
          H2 : broker_listGroups env2 _ _ = _ |- _ =>
            rewrite Hb in H1; injection H1 as <- <-;
            rewrite Hr in H2; discriminate H2
        end.
    + split; [discriminate 1|].
      intros (answers & Hg & _). inversion Hg; subst.
      match goal with
      | H1 : cluster_findBroker env2 node (world s) = _ |- _ =>
          rewrite Hb in H1; discriminate H1
      end.
Qed.

Lemma obj_set_keys_has {V} (k : N) (v : V) (o : list (N * V)) (x : N) :
  x = k \/ In x (obj_keys o) -> In x (obj_keys (obj_set k v o)).
Proof.
  induction o as [|[k' v'] o IH]; cbn.
  - intros [->|[]]. left. reflexivity.
  - destruct (N.eqb k k') eqn:E.
    { apply N.eqb_eq in E. subst. cbn. intuition auto. }
    destruct (N.ltb k k'); cbn; [intuition auto|].
    intros [->|[->|H]]; [right; apply IH; auto|auto|right; apply IH; auto].
Qed.

Lemma for_in_fold (keys : list N) :
  forall o : list (N * unit),
    ascending o ->
    let o' := fold_left (fun o k => obj_set k tt o) keys o in
    ascending o'
    /\ forall n, In n (obj_keys o') <-> In n keys \/ In n (obj_keys o).
Proof.
  induction keys as [|k keys IH]; intros o Hasc; cbn [fold_left].
  - split; [exact Hasc|]. intros n. cbn. tauto.
  - destruct (IH (obj_set k tt o) (obj_set_ascending _ _ _ Hasc))
      as [Hsorted Hin].
    split; [exact Hsorted|]. intros n. rewrite Hin. cbn [In]. split.
    + intros [H|H]; [tauto|]. apply obj_set_keys_In in H.
      destruct H as [->|H]; tauto.
    + intros [[<-|H]|H]; [right|left; exact H|right];
        apply obj_set_keys_has; tauto.
Qed.

(** X20.  After its metadata refresh, [listGroups] visits the brokers the
    cluster then knows in ascending order of node ids, every broker once,
    whatever the order the broker pool holds them in.  It resolves exactly
    when every one of them can be looked up and answers, and it resolves to
    the groups of all the answers, in the order of the visits.  The refresh
    is the only logged call. *)
Theorem listGroups_gathers_every_broker :
  forall (L : Type) (s : State World L) (w1 w' : World)
         (groups : list JsValue),
    cluster_refreshMetadata env (world s) = (Return tt, w1) ->
    let visited := for_in (cluster_brokerPool_brokers env2 w1) in
    StronglySorted N.lt visited
    /\ (forall n, In n visited <-> In n (cluster_brokerPool_brokers env2 w1))
    /\ (listGroups env env2 s
        = (Return groups,
           mkState w' (calls s ++ [Cluster_refreshMetadata]) (locals s))
        <-> exists answers,
              gathered env2 visited w1 answers w'
              /\ groups = List.concat answers).
Proof.
  intros L s w1 w' groups Hrefresh visited.
  destruct (for_in_fold (cluster_brokerPool_brokers env2 w1) [])
    as [Hsorted Hin]; [constructor|].
  split; [exact Hsorted|]. split.
  - intros n. subst visited. unfold for_in. rewrite Hin. cbn. tauto.
  - unfold listGroups. unfold bind at 1, call at 1. rewrite Hrefresh.
    unfold bind at 1, look at 1. cbn [world].
    apply (listGroups_loop_gathered visited []
             (mkState w1 (calls s ++ [Cluster_refreshMetadata]) (locals s))).
Qed.

(** *** fetchTopicMetadata *)



(** *** describeAcls and deleteAcls *)

Lemma optional_string_passes (v : JsValue) :
  optional_string v = true -> neither_string_nor_undefined v = false.
Proof. destruct v; try discriminate 1; reflexivity. Qed.

(** X22.  [describeAcls] takes a filter whose principal, host and
    resource name are strings or left out and whose operation, pattern
    type, permission type and resource type belong to their tables; of the
    controller's response it hands on the [resources] alone. *)
Theorem describeAcls_resources_only :
  forall (L : Type) (filter : AclFilter) (fields : list (string * JsValue))
         (s : State World L) (w1 w2 w3 : World) (b : Broker),
    acl_filter enums filter = true ->
    cluster_refreshMetadata env (world s) = (Return tt, w1) ->
    cluster_findControllerBroker env w1 = (Return b, w2) ->
    broker_describeAcls env2 b filter w2 = (Return (JObj fields), w3) ->
    describeAcls env env2 cfg enums filter s
    = (Return (JObj [("resources", Js.lookup "resources" fields)]),
       mkState w3 (calls s ++ controller_calls) (locals s)).
Proof.
  intros L filter fields s w1 w2 w3 b Hfilter Hrefresh Hcontroller Hbroker.
  unfold acl_filter in Hfilter.
  repeat (apply andb_prop in Hfilter;
          let H := fresh "Hfield" in destruct Hfilter as [Hfilter H]).
  unfold describeAcls.
  rewrite (optional_string_passes _ Hfilter),
    (optional_string_passes _ Hfield4), (optional_string_passes _ Hfield3),
    Hfield2, Hfield1, Hfield0, Hfield.
  cbn [negb]. unfold retrier. rewrite retrier_from_eq.
  unfold describeAcls_attempt, try_catch.
  unfold bind at 1, call at 1. rewrite Hrefresh.
  unfold bind at 1, call at 1. cbn [world calls locals]. rewrite Hcontroller.
  unfold bind at 1, ask at 1. cbn [world calls locals]. rewrite Hbroker.
  unfold bind, lift, ret, controller_calls. cbn [Js.get].
  rewrite <- !app_assoc. reflexivity.
Qed.

Lemma string_field_neither (k : string) (items : list JsValue) :
  existsb (not_string_field k) items = false ->
  Js.some (field_neither k) items = Return false.
Proof.
  induction items as [|x l IH]; [reflexivity|]. cbn [existsb Js.some].
  intros H. apply orb_false_iff in H. destruct H as [Hx Hl].
  unfold field_neither at 1. unfold not_string_field in Hx.
  destruct x; try discriminate Hx. cbn [Js.get field] in *.
  destruct (Js.lookup k fields); try discriminate Hx. cbn. exact (IH Hl).
Qed.

Lemma string_field_present (k : string) (items : list JsValue) :
  existsb (not_string_field k) items = false ->
  forallb not_nullish items = true.
Proof.
  induction items as [|x l IH]; [reflexivity|]. cbn [existsb forallb].
  intros H. apply orb_false_iff in H. destruct H as [Hx Hl].
  rewrite (IH Hl). destruct x; try discriminate Hx; reflexivity.
Qed.

(** X23.  A batch that [createAcls] takes is also a filter array that
    [deleteAcls] takes: a batch that violates no rule of [createAcls]
    passes every check of [deleteAcls] and is handed to the controller as
    it is; of the response the [filterResponses] alone are handed on. *)
Theorem deleteAcls_takes_created_batch :
  forall (L : Type) (acl : JsValue) (fields : list (string * JsValue))
         (s : State World L) (w1 w2 w3 : World) (b : Broker),
    well_formed enums acl = true ->
    cluster_refreshMetadata env (world s) = (Return tt, w1) ->
    cluster_findControllerBroker env w1 = (Return b, w2) ->
    broker_deleteAcls env2 b acl w2 = (Return (JObj fields), w3) ->
    deleteAcls env env2 cfg enums acl s
    = (Return (JObj [("filterResponses", Js.lookup "filterResponses" fields)]),
       mkState w3 (calls s ++ controller_calls) (locals s)).
Proof.
  intros L acl fields s w1 w2 w3 b Hgood Hrefresh Hcontroller Hbroker.
  unfold well_formed, malformed, acl_precedence in Hgood.
  apply negb_true_iff in Hgood.
  cbn [existsb] in Hgood. rewrite orb_false_r in Hgood.
  repeat (apply orb_false_iff in Hgood;
          let H := fresh "Hrule" in destruct Hgood as [H Hgood]).
  destruct acl as [| | | | |items|]; try discriminate Hrule.
  destruct items as [|x l]; [discriminate Hrule|].
  assert (Hlen : Nat.eqb (List.length (x :: l)) 0 = false) by reflexivity.
  revert Hgood Hrule0 Hrule1 Hrule2 Hrule3 Hrule4 Hrule5 Hlen Hbroker.
  generalize (x :: l). clear x l Hrule.
  intros items Hres Hprincipal Hhost Hname Hop Hpat Hperm Hlen Hbroker.
  cbn [violates Js.items_of breaks] in *.
  pose proof (string_field_present _ _ Hprincipal) as Hpresent.
  unfold deleteAcls. cbn [Js.truthy Js.isArray negb orb Js.items_of].
  rewrite Hlen.
  unfold bind at 1, lift at 1. rewrite (string_field_neither _ _ Hprincipal).
  unfold bind at 1, lift at 1. rewrite (string_field_neither _ _ Hhost).
  unfold bind at 1, lift at 1. rewrite (string_field_neither _ _ Hname).
  unfold bind at 1, lift at 1.
  rewrite (find_field_not_in _ _ _ Hpresent), (existsb_find_none _ _ Hop).
  cbn [found Js.truthy]. unfold bind at 1, lift at 1.
  rewrite (find_field_not_in _ _ _ Hpresent), (existsb_find_none _ _ Hpat).
  cbn [found Js.truthy]. unfold bind at 1, lift at 1.
  rewrite (find_field_not_in _ _ _ Hpresent), (existsb_find_none _ _ Hperm).
  cbn [found Js.truthy]. unfold bind at 1, lift at 1.
  rewrite (find_field_not_in _ _ _ Hpresent), (existsb_find_none _ _ Hres).
  cbn [found Js.truthy].
  unfold retrier. rewrite retrier_from_eq.
  unfold deleteAcls_attempt, try_catch.
  unfold bind at 1, call at 1. rewrite Hrefresh.
  unfold bind at 1, call at 1. cbn [world calls locals]. rewrite Hcontroller.
  unfold bind at 1, ask at 1. cbn [world calls locals]. rewrite Hbroker.
  unfold bind, lift, ret, controller_calls. cbn [Js.get].
  rewrite <- !app_assoc. reflexivity.
Qed.

(** *** describeConfigs: truthy resources *)

Lemma truthy_present (r : JsValue) : Js.truthy r = true -> not_nullish r = true.
Proof. destruct r; try discriminate 1; reflexivity. Qed.

(** The three per-resource checks, on a truthy resource. *)
Lemma query_resource_checks (r : JsValue) :
  Js.truthy r = true ->
  exists a b c,
    Js.field_not_in (RESOURCE_TYPES enums) "type" r = Return a
    /\ name_invalid r = Return b
    /\ configNames_invalid r = Return c
    /\ query_resource enums r = negb a && negb b && negb c.
Proof.
  intros Hr. apply truthy_present in Hr.
  unfold Js.field_not_in, name_invalid, configNames_invalid, query_resource.
  rewrite !(get_present _ _ Hr). do 3 eexists.
  repeat (split; [reflexivity|]).
  rewrite nonempty_string_name, !negb_involutive, negb_andb, !negb_involutive.
  reflexivity.
Qed.

Lemma find_answers (f : JsValue -> Completion bool) (items : list JsValue) :
  (forall x, In x items -> exists b, f x = Return b) ->
  forall e, Js.find f items <> Throw e.
Proof.
  induction items as [|x l IH]; intros Hf e; [discriminate|].
  cbn [Js.find]. destruct (Hf x (or_introl eq_refl)) as [b ->].
  destruct b; [discriminate|].
  apply IH. intros y Hy. apply Hf. right. exact Hy.
Qed.

Lemma describeConfigs_cases {L} (items : list JsValue)
    (includeSynonyms : JsValue) (s : State World L) :
  items <> [] ->
  forallb Js.truthy items = true ->
  (forallb (query_resource enums) items = true
   /\ describeConfigs env env2 cfg enums (JArr items) includeSynonyms s
      = retrier cfg
          (describeConfigs_attempt env env2 (JArr items) includeSynonyms) s)
  \/ (forallb (query_resource enums) items = false
      /\ exists e,
           describeConfigs env env2 cfg enums (JArr items) includeSynonyms s
           = (Throw e, s)).
Proof.
  intros Hne Htruthy. rewrite forallb_forall in Htruthy.
  assert (Hlen : Nat.eqb (List.length items) 0 = false)
    by (destruct items; [contradiction|reflexivity]).
  assert (Hcaught : forall f v,
    Js.find f items = Return v -> Js.truthy v = false ->
    Forall (fun x => f x = Return false) items).
  { intros f v Hfind Hv. apply find_inv in Hfind.
    destruct Hfind as [[Hin _]|Hall]; [|exact Hall].
    rewrite (Htruthy _ Hin) in Hv. discriminate Hv. }
  assert (Hfound : forall f v,
    (forall r, Js.truthy r = true ->
       f r = Return true -> query_resource enums r = false) ->
    Js.find f items = Return v -> Js.truthy v = true ->
    forallb (query_resource enums) items = false).
  { intros f v Hf Hfind Hv.
    destruct (find_inv _ _ _ Hfind) as [[Hin Hfv]|Hall].
    - destruct (forallb (query_resource enums) items) eqn:E; [|reflexivity].
      rewrite forallb_forall in E. specialize (E v Hin).
      rewrite (Hf v Hv Hfv) in E. discriminate E.
    - rewrite (find_all_false _ _ Hall) in Hfind. injection Hfind as <-.
      discriminate Hv. }
  set (run := describeConfigs env env2 cfg enums (JArr items) includeSynonyms s).
  assert (Hrun :
    run = describeConfigs env env2 cfg enums (JArr items) includeSynonyms s)
    by reflexivity.
  clearbody run. revert Hrun. unfold describeConfigs.
  cbn [Js.truthy Js.isArray negb orb Js.items_of]. rewrite Hlen.
  unfold bind at 1, lift at 1.
  destruct (Js.find (Js.field_not_in (RESOURCE_TYPES enums) "type") items)
    as [v1|e] eqn:H1.
  2:{ exfalso. revert H1. apply find_answers. intros x Hx.
      destruct (query_resource_checks x (Htruthy x Hx))
        as (a & b & c & Ha & _).
      exists a. exact Ha. }
  destruct (Js.truthy v1) eqn:T1.
  { intros ->. right. split.
    - apply (Hfound _ v1) with (2 := H1) (3 := T1). intros r Hr Hf.
      destruct (query_resource_checks r Hr) as (a & b & c & Ha & _ & _ & ->).
      rewrite Hf in Ha. injection Ha as <-. reflexivity.
    - unfold bind, lift, throw.
      destruct (invalid_enum_message _ _ v1); eexists; reflexivity. }
  unfold bind at 1, lift at 1.
  destruct (Js.find name_invalid items) as [v2|e] eqn:H2.
  2:{ exfalso. revert H2. apply find_answers. intros x Hx.
      destruct (query_resource_checks x (Htruthy x Hx))
        as (a & b & c & _ & Hb & _).
      exists b. exact Hb. }
  destruct (Js.truthy v2) eqn:T2.
  { intros ->. right. split.
    - apply (Hfound _ v2) with (2 := H2) (3 := T2). intros r Hr Hf.
      destruct (query_resource_checks r Hr) as (a & b & c & _ & Hb & _ & ->).
      rewrite Hf in Hb. injection Hb as <-. apply andb_false_iff. left.
      apply andb_false_r.
    - unfold bind, lift, throw.
      destruct (invalid_enum_message _ _ v2); eexists; reflexivity. }
  unfold bind at 1, lift at 1.
  destruct (Js.find configNames_invalid items) as [v3|e] eqn:H3.
  2:{ exfalso. revert H3. apply find_answers. intros x Hx.
      destruct (query_resource_checks x (Htruthy x Hx))
        as (a & b & c & _ & _ & Hc & _).
      exists c. exact Hc. }
  destruct (Js.truthy v3) eqn:T3.
  { intros ->. right. split.
    - apply (Hfound _ v3) with (2 := H3) (3 := T3). intros r Hr Hf.
      destruct (query_resource_checks r Hr) as (a & b & c & _ & _ & Hc & ->).
      rewrite Hf in Hc. injection Hc as <-. apply andb_false_r.
    - unfold bind, lift, throw.
      destruct (invalid_enum_message _ _ v3); eexists; reflexivity. }
  intros Hrun. left. split; [|exact Hrun].
  pose proof (Hcaught _ _ H1 T1) as A1. pose proof (Hcaught _ _ H2 T2) as A2.
  pose proof (Hcaught _ _ H3 T3) as A3.
  rewrite Forall_forall in A1, A2, A3.
  apply forallb_forall. intros r Hr.
  destruct (query_resource_checks r (Htruthy r Hr))
    as (a & b & c & Ha & Hb & Hc & ->).
  rewrite (A1 r Hr) in Ha. rewrite (A2 r Hr) in Hb. rewrite (A3 r Hr) in Hc.
  injection Ha as <-. injection Hb as <-. injection Hc as <-. reflexivity.
Qed.

(** X24.  On resources none of which is falsy the validation of
    [describeConfigs] is exact: a non-empty array of truthy resources
    reaches the cluster, with the metadata refresh as first call, exactly
    when every resource has a type of the table, a non-empty string as
    name, and config names that are an array or absent; otherwise the
    operation throws with the world and the log of calls as they were. *)
Theorem describeConfigs_validation :
  forall (L : Type) (items : list JsValue) (includeSynonyms : JsValue)
         (s : State World L),
    items <> [] ->
    forallb Js.truthy items = true ->
    (forallb (query_resource enums) items = true ->
     exists cs,
       calls (snd (describeConfigs env env2 cfg enums (JArr items)
                     includeSynonyms s))
       = calls s ++ Cluster_refreshMetadata :: cs)
    /\ (forallb (query_resource enums) items = false ->
        exists e,
          describeConfigs env env2 cfg enums (JArr items) includeSynonyms s
          = (Throw e, s)).
Proof.
  intros L items includeSynonyms s Hne Htruthy.
  destruct (describeConfigs_cases items includeSynonyms s Hne Htruthy)
    as [[Hvalid Hrun]|[Hinvalid Hthrow]].
  - split; [|congruence]. intros _. rewrite Hrun.
    unfold retrier. apply retrier_from_first_call. intros k s0.
    unfold describeConfigs_attempt.
    apply (controller_attempt_first_call
             (fun broker =>
                response <- ask (broker_describeConfigs env2 broker (JArr items)
                                   includeSynonyms) ;;
                ret (Resolved response))).
    intros b s1. unfold bind, ret.
    pose proof (ask_calls
                  (broker_describeConfigs env2 b (JArr items) includeSynonyms)
                  s1) as Hask.
    destruct (ask _ s1) as [[r|e] s2]; exact Hask.
  - split; [congruence|]. intros _. exact Hthrow.
Qed.

End MoreProperties.

(** ** Further runs on the scripted cluster *)

Lemma createAcls_well_formed_accepted_witness :
  createAcls (simulate healthy) five_retries kafka_enums
    (JArr [acl_entry (JNum 2)]) start
  = (Return true,
     mkState (mkSim 1 0 [])
       (calls start ++ controller_calls
          ++ [Broker_createAcls (mkBroker 0) (JArr [acl_entry (JNum 2)])])
       tt).
Proof.
  apply (createAcls_well_formed_accepted _ (simulate healthy) five_retries
           kafka_enums unit (JArr [acl_entry (JNum 2)]) start (mkSim 1 0 [])
           (mkSim 1 0 []) (mkSim 1 0 []) (mkBroker 0));
    reflexivity.
Defined.

Lemma t_twice : ~ NoDup ["t"; "t"].
Proof. intros H. inversion H as [|? ? Hin _]. apply Hin. left. reflexivity. Qed.

Lemma createTopics_duplicates_rejected_witness :
  createTopics (simulate healthy) five_retries (JArr (one_topic ++ one_topic))
    JUndefined JUndefined JUndefined start
  = (Throw duplicate_topics, start).
Proof.
  apply (createTopics_duplicates_rejected _ (simulate healthy) five_retries
           unit (one_topic ++ one_topic) ["t"; "t"] JUndefined JUndefined
           JUndefined start).
  - repeat constructor.
  - exact t_twice.
Defined.

Lemma createTopics_create_error_witness :
  attempt_reached five_retries
    (createTopics_attempt controller_moved five_retries (JArr one_topic)
       JUndefined JUndefined (default_true JUndefined) ["t"])
    start 1
    (after_create start (mkBroker 0) one_topic JUndefined JUndefined
       (mkSim 1 0 [])).
Proof.
  apply (proj1 (createTopics_create_error _ controller_moved five_retries unit
                  one_topic ["t"] JUndefined JUndefined JUndefined start start
                  0 (mkSim 1 0 []) (mkSim 1 0 []) (mkSim 1 0 []) (mkBroker 0)
                  not_controller one_topic_valid (first_attempt _ _ _)
                  eq_refl eq_refl eq_refl)).
  - reflexivity.
  - cbn. lia.
Defined.

Lemma deleteGroups_attempt_throws_retriable_witness :
  (type_is (Thrown (Some "COORDINATOR_NOT_AVAILABLE")
              "The coordinator is not available") "NOT_CONTROLLER" = true
   \/ type_is (Thrown (Some "COORDINATOR_NOT_AVAILABLE")
                 "The coordinator is not available")
        "COORDINATOR_NOT_AVAILABLE" = true)
  /\ locals (snd (deleteGroups_attempt (simulate coordinator_down_once) 0
                    deleting_abc))
     = locals deleting_abc.
Proof.
  apply (deleteGroups_attempt_throws_retriable _
           (simulate coordinator_down_once) 0 deleting_abc).
  vm_compute. reflexivity.
Defined.

Lemma deleteGroups_resolves_to_successes_witness :
  Forall (fun r => errorCode r = 0%Z) (deleted ["b"; "a"; "c"]).
Proof.
  eapply (deleteGroups_resolves_to_successes _ (simulate healthy) five_retries
            unit (JArr (List.map JStr abc)) start _ _).
  vm_compute. reflexivity.
Defined.

Lemma t_not_empty : "t" <> "".
Proof. discriminate. Qed.

Lemma fetchTopicOffsets_unknown_topic_witness :
  exists s',
    fetchTopicOffsets topic_unknown five_retries (JStr "t") start
    = (Throw unknown_topic, s')
    /\ calls s'
       = calls start
         ++ times (S (retries five_retries))
              [Cluster_addTargetTopic (JStr "t"); Cluster_refreshMetadata]
    /\ locals s' = locals start.
Proof.
  apply (fetchTopicOffsets_unknown_topic _ topic_unknown five_retries unit "t"
           unknown_topic start t_not_empty eq_refl).
  - intros w. exists w. reflexivity.
  - intros w. eexists. reflexivity.
Defined.

Lemma fetchTopicOffsets_missing_low_watermark_witness :
  fetchTopicOffsets low_incomplete five_retries (JStr "t") start
  = (Throw (TypeError "offset"),
     mkState (mkSim 0 0 [])
       (calls start ++ watermark_calls (JStr "t") three_partitions) tt).
Proof.
  eapply (fetchTopicOffsets_missing_low_watermark _ low_incomplete five_retries
            unit (JStr "t") start (mkSim 0 0 []) (mkSim 0 0 []) (mkSim 0 0 [])
            (mkSim 0 0 []) (mkSim 0 0 []) three_partitions);
    reflexivity.
Defined.

Lemma resetOffsets_targets_every_partition_witness :
  List.map se_partition scattered_seeks
  = List.map seek_partition [1; 10; 2]%N
  /\ Sorted as_strings [1; 10; 2]%N
  /\ Permutation [1; 10; 2]%N (List.map partitionId scattered_partitions)
  /\ Permutation (List.map se_partition scattered_seeks)
       (List.map (fun m => seek_partition (partitionId m)) scattered_partitions)
  /\ List.length scattered_seeks = List.length scattered_partitions.
Proof.
  eapply (resetOffsets_targets_every_partition _ (simulate scattered) unit
            (JStr "t") JUndefined start _ (mkSim 0 0 []) (mkSim 0 0 [])
            (mkSim 0 0 []) scattered_partitions scattered_seeks);
    reflexivity.
Defined.

Lemma resetOffsets_without_partitions_witness :
  resetOffsets (simulate without_partitions) (JStr "g") (JStr "t") JUndefined
    start
  = (Throw (KafkaJSNonRetriableError [Lit "Invalid partitions"]),
     mkState (mkSim 0 0 [])
       (calls start
          ++ [Cluster_addTargetTopic (JStr "t");
              Cluster_refreshMetadataIfNecessary;
              Cluster_findTopicPartitionMetadata (JStr "t")])
       tt).
Proof.
  apply (resetOffsets_without_partitions _ (simulate without_partitions) unit
           (JStr "g") (JStr "t") JUndefined start (mkSim 0 0 []) (mkSim 0 0 [])
           (mkSim 0 0 []));
    reflexivity.
Defined.


Lemma one_partition_count_taken : partitions_argument one_partition_count.
Proof.
  eexists _, ["t"]. split; [reflexivity|]. split; [discriminate|].
  split; repeat constructor. intros [].
Qed.

Lemma createPartitions_validation_witness :
  exists cs,
    calls (snd (createPartitions (simulate healthy) (simulate2 obliging)
                  five_retries one_partition_count JUndefined JUndefined start))
    = calls start ++ Cluster_refreshMetadata :: cs.
Proof.
  apply (proj1 (createPartitions_validation _ (simulate healthy)
                  (simulate2 obliging) five_retries unit one_partition_count
                  JUndefined JUndefined start)).
  exact one_partition_count_taken.
Defined.

Lemma alterConfigs_validation_witness :
  exists cs,
    calls (snd (alterConfigs (simulate healthy) (simulate2 obliging)
                  five_retries kafka_enums one_resource JUndefined start))
    = calls start ++ Cluster_refreshMetadata :: cs.
Proof.
  apply (proj1 (alterConfigs_validation _ (simulate healthy)
                  (simulate2 obliging) five_retries kafka_enums unit
                  one_resource JUndefined start)).
  reflexivity.
Defined.

Lemma describeConfigs_falsy_resource_unchecked_witness :
  describeConfigs (simulate healthy) (simulate2 obliging) five_retries
    kafka_enums slipping JUndefined start
  = (Return (JObj [("throttleTime", JNum 0); ("resources", slipping)]),
     mkState (mkSim 1 0 []) (calls start ++ controller_calls) tt).
Proof.
  apply (describeConfigs_falsy_resource_unchecked _ (simulate healthy)
           (simulate2 obliging) five_retries kafka_enums unit (JNum 0)
           [JObj [("type", JNum 999); ("name", JNum 7)]] JUndefined
           (JObj [("throttleTime", JNum 0); ("resources", slipping)]) start
           (mkSim 1 0 []) (mkSim 1 0 []) (mkSim 1 0 []) (mkBroker 0));
    reflexivity.
Defined.

Lemma createPartitions_controller_lost_witness :
  exists s',
    createPartitions (simulate healthy) (simulate2 (refusing not_controller))
      five_retries one_partition_count JUndefined JUndefined start
    = (Throw not_controller, s')
    /\ calls s' = calls start ++ times (S (retries five_retries)) controller_calls
    /\ locals s' = locals start.
Proof.
  apply (createPartitions_controller_lost _ (simulate healthy)
           (simulate2 (refusing not_controller)) five_retries unit
           one_partition_count JUndefined JUndefined not_controller start
           one_partition_count_taken eq_refl).
  - intros w. eexists. reflexivity.
  - intros w. eexists _, _. reflexivity.
  - intros b w. eexists. reflexivity.
Defined.

Lemma alterConfigs_other_error_not_retried_witness :
  alterConfigs (simulate healthy) (simulate2 (refusing policy_violation))
    five_retries kafka_enums one_resource JUndefined start
  = (Throw policy_violation,
     mkState (mkSim 1 0 []) (calls start ++ controller_calls) tt).
Proof.
  apply (alterConfigs_other_error_not_retried _ (simulate healthy)
           (simulate2 (refusing policy_violation)) five_retries kafka_enums
           unit one_resource JUndefined policy_violation start (mkSim 1 0 [])
           (mkSim 1 0 []) (mkSim 1 0 []) (mkBroker 0));
    reflexivity.
Defined.

Lemma deleteTopics_forgets_topics_witness :
  deleteTopics (simulate healthy) (simulate2 obliging) five_retries
    (JArr (List.map JStr ["t"])) JUndefined two_topics
  = (Return tt, mkState (mkSim 2 0 ["u"]) (calls two_topics ++ delete_calls) tt).
Proof.
  apply (deleteTopics_forgets_topics _ (simulate healthy) (simulate2 obliging)
           five_retries unit ["t"] JUndefined two_topics (mkSim 1 0 ["t"; "u"])
           (mkSim 1 0 ["t"; "u"]) (mkSim 1 0 ["t"; "u"]) (mkSim 2 0 ["u"])
           (mkBroker 0));
    reflexivity.
Defined.

Lemma deleteTopics_deleted_yet_rejected_witness :
  deleteTopics one_refresh (simulate2 obliging) five_retries
    (JArr (List.map JStr ["t"])) JUndefined two_topics
  = (Throw timed_out,
     mkState (mkSim 1 0 ["u"]) (calls two_topics ++ delete_calls) tt).
Proof.
  apply (deleteTopics_deleted_yet_rejected _ one_refresh (simulate2 obliging)
           five_retries unit ["t"] JUndefined timed_out two_topics
           (mkSim 1 0 ["t"; "u"]) (mkSim 1 0 ["t"; "u"]) (mkSim 1 0 ["t"; "u"])
           (mkSim 1 0 ["u"]) (mkBroker 0));
    reflexivity.
Defined.

Lemma deleteTopics_unknown_topic_retried_witness :
  exists s',
    deleteTopics (simulate healthy) (simulate2 (refusing unknown_topic))
      five_retries (JArr (List.map JStr ["t"])) JUndefined start
    = (Throw unknown_topic, s')
    /\ calls s' = calls start ++ times (S (retries five_retries)) controller_calls
    /\ locals s' = locals start.
Proof.
  apply (deleteTopics_unknown_topic_retried _ (simulate healthy)
           (simulate2 (refusing unknown_topic)) five_retries unit ["t"]
           JUndefined unknown_topic start eq_refl).
  - intros w. eexists. reflexivity.
  - intros w. eexists _, _. reflexivity.
  - intros b w. eexists. reflexivity.
Defined.

Lemma fetchOffsets_entries_witness :
  exists result,
    fetchOffsets (simulate healthy) (simulate2 obliging) (JStr "g") (JStr "t")
      start
    = (Return result,
       mkState (mkSim 0 0 []) (calls start ++ partition_calls (JStr "t")) tt)
    /\ match result with
       | None =>
           Forall (fun r => strict_equal (ofr_topic r) (JStr "t") = false)
             committed
       | Some entries =>
           exists response,
             In response committed
             /\ strict_equal (ofr_topic response) (JStr "t") = true
             /\ List.map fo_partition entries
                = List.map ofp_partition (ofr_partitions response)
             /\ List.map fo_offset entries
                = List.map ofp_offset (ofr_partitions response)
             /\ Forall
                  (fun entry =>
                     fo_metadata entry = JNull
                     \/ Js.truthy (fo_metadata entry) = true)
                  entries
       end.
Proof.
  apply (fetchOffsets_entries _ (simulate healthy) (simulate2 obliging) unit
           (JStr "g") (JStr "t") start (mkSim 0 0 []) (mkSim 0 0 [])
           (mkSim 0 0 []) (mkSim 0 0 []) (mkSim 0 0 []) three_partitions
           (mkBroker 2) committed);
    reflexivity.
Defined.

Lemma listGroups_gathers_every_broker_witness :
  StronglySorted N.lt [0; 1]%N
  /\ (forall n, In n [0; 1]%N <-> In n [1; 0]%N)
  /\ listGroups (simulate healthy) (simulate2 obliging) start
     = (Return
          [JObj [("groupId", JStr "g0"); ("protocolType", JStr "consumer")];
           JObj [("groupId", JStr "g1"); ("protocolType", JStr "consumer")]],
        mkState (mkSim 1 0 []) (calls start ++ [Cluster_refreshMetadata]) tt).
Proof.
  destruct (listGroups_gathers_every_broker _ (simulate healthy)
              (simulate2 obliging) unit start (mkSim 1 0 []) (mkSim 1 0 [])
              [JObj [("groupId", JStr "g0"); ("protocolType", JStr "consumer")];
               JObj [("groupId", JStr "g1"); ("protocolType", JStr "consumer")]]
              eq_refl)
    as (Hsorted & Hin & Hruns).
  split; [exact Hsorted|]. split; [exact Hin|].
  apply (proj2 Hruns). eexists. split.
  - eapply gathered_cons; [reflexivity|reflexivity|].
    eapply gathered_cons; [reflexivity|reflexivity|].
    apply gathered_nil.
  - reflexivity.
Defined.


Lemma describeAcls_resources_only_witness :
  describeAcls (simulate healthy) (simulate2 obliging) five_retries kafka_enums
    any_topic_acls start
  = (Return (JObj [("resources", JArr [])]),
     mkState (mkSim 1 0 []) (calls start ++ controller_calls) tt).
Proof.
  apply (describeAcls_resources_only _ (simulate healthy) (simulate2 obliging)
           five_retries kafka_enums unit any_topic_acls
           [("throttleTime", JNum 0); ("errorCode", JNum 0);
            ("resources", JArr [])]
           start (mkSim 1 0 []) (mkSim 1 0 []) (mkSim 1 0 []) (mkBroker 0));
    reflexivity.
Defined.

Lemma deleteAcls_takes_created_batch_witness :
  deleteAcls (simulate healthy) (simulate2 obliging) five_retries kafka_enums
    (JArr [acl_entry (JNum 2)]) start
  = (Return (JObj [("filterResponses", JArr [])]),
     mkState (mkSim 1 0 []) (calls start ++ controller_calls) tt).
Proof.
  apply (deleteAcls_takes_created_batch _ (simulate healthy)
           (simulate2 obliging) five_retries kafka_enums unit
           (JArr [acl_entry (JNum 2)])
           [("throttleTime", JNum 0); ("filterResponses", JArr [])]
           start (mkSim 1 0 []) (mkSim 1 0 []) (mkSim 1 0 []) (mkBroker 0));
    reflexivity.
Defined.

Lemma one_query_given : one_query <> [].
Proof. discriminate. Qed.

Lemma describeConfigs_validation_witness :
  exists cs,
    calls (snd (describeConfigs (simulate healthy) (simulate2 obliging)
                  five_retries kafka_enums (JArr one_query) JUndefined start))
    = calls start ++ Cluster_refreshMetadata :: cs.
Proof.
  apply (proj1 (describeConfigs_validation _ (simulate healthy)
                  (simulate2 obliging) five_retries kafka_enums unit one_query
                  JUndefined start one_query_given eq_refl)).
  reflexivity.
Defined.
